(** * Claude Code activity summary: the log pipelines of analyze.py and extract.py

    A shallow embedding of the two scripts of the repository:
    - [Analyze]: the summary pipeline (analyze.py): file scan, project
      aggregation with the age cutoff, chronology;
    - [Extract]: the detail pipeline (extract.py): record extraction and the
      flat, sorted export.

    Python values are modelled as the scripts see them: text as [string]
    (one character per code point, 8-bit), decoded JSON as the inductive
    [json], exceptions as the [outcome] type, and the mutable accumulators of
    the scans as an explicit state that survives a raised exception. *)

From Stdlib Require Import List String Ascii ZArith Lia Bool Permutation.
Import ListNotations.
Open Scope string_scope.
Open Scope Z_scope.
Set Warnings "-register-all".

(** ** Python text operations *)

Module PyStr.

Definition code (c : ascii) : Z := Z.of_nat (nat_of_ascii c).

(** [str.isspace] on one character (code points below 256). *)
Definition is_space (c : ascii) : bool :=
  let n := code c in
  ((9 <=? n) && (n <=? 13)) || ((28 <=? n) && (n <=? 32))
  || (n =? 133) || (n =? 160).

Definition is_lower (c : ascii) : bool := (97 <=? code c) && (code c <=? 122).
Definition is_upper (c : ascii) : bool := (65 <=? code c) && (code c <=? 90).
Definition is_digit (c : ascii) : bool := (48 <=? code c) && (code c <=? 57).

Definition to_upper (c : ascii) : ascii :=
  if is_lower c then ascii_of_nat (nat_of_ascii c - 32) else c.
Definition to_lower (c : ascii) : ascii :=
  if is_upper c then ascii_of_nat (nat_of_ascii c + 32) else c.

(** Truth value of a string: non-empty. *)
Definition truthy (s : string) : bool :=
  match s with EmptyString => false | String _ _ => true end.

Definition len (s : string) : Z := Z.of_nat (String.length s).

(** [s.lstrip()], [s.rstrip()], [s.strip()]. *)
Fixpoint lstrip (s : string) : string :=
  match s with
  | EmptyString => EmptyString
  | String c r => if is_space c then lstrip r else s
  end.

Fixpoint rstrip (s : string) : string :=
  match s with
  | EmptyString => EmptyString
  | String c r =>
      match rstrip r with
      | EmptyString => if is_space c then EmptyString else String c EmptyString
      | r' => String c r'
      end
  end.

Definition strip (s : string) : string := rstrip (lstrip s).

(** [s[:n]]. *)
Fixpoint take (n : nat) (s : string) : string :=
  match n, s with
  | S k, String c r => String c (take k r)
  | _, _ => EmptyString
  end.

(** [s[n:]]. *)
Fixpoint drop (n : nat) (s : string) : string :=
  match n, s with
  | S k, String _ r => drop k r
  | _, _ => s
  end.

Definition startswith (s p : string) : bool := String.prefix p s.

Definition endswith (s p : string) : bool :=
  (String.length p <=? String.length s)%nat
  && String.eqb (drop (String.length s - String.length p) s) p.

(** [s.split(sep)] for a one-character separator. *)
Fixpoint split (sep : ascii) (s : string) : list string :=
  match s with
  | EmptyString => [EmptyString]
  | String c r =>
      if Ascii.eqb c sep then EmptyString :: split sep r
      else match split sep r with
           | [] => [String c EmptyString]
           | p :: ps => String c p :: ps
           end
  end.

(** [s.replace(old, new)] for a non-empty [old]: leftmost occurrences,
    not overlapping.  [skip] counts the characters of a match still to be
    dropped. *)
Fixpoint replace_from (old new : string) (skip : nat) (s : string) : string :=
  match s with
  | EmptyString => EmptyString
  | String c r =>
      match skip with
      | S k => replace_from old new k r
      | O =>
          if String.prefix old s
          then new ++ replace_from old new (String.length old - 1) r
          else String c (replace_from old new O r)
      end
  end.

Definition replace (old new s : string) : string := replace_from old new O s.

(** [s.title()]: a letter that follows a letter is lowered, any other
    letter is raised (ASCII letters are the cased characters). *)
Fixpoint title_from (prev_cased : bool) (s : string) : string :=
  match s with
  | EmptyString => EmptyString
  | String c r =>
      if is_lower c then
        String (if prev_cased then c else to_upper c) (title_from true r)
      else if is_upper c then
        String (if prev_cased then to_lower c else c) (title_from true r)
      else String c (title_from false r)
  end.

Definition title (s : string) : string := title_from false s.

(** [sep.join(parts)]. *)
Definition join (sep : string) (parts : list string) : string :=
  String.concat sep parts.

(** [x in parts] and [parts.index(x)] on a list of strings. *)
Definition contains (parts : list string) (x : string) : bool :=
  existsb (String.eqb x) parts.

Fixpoint index_of (parts : list string) (x : string) : option nat :=
  match parts with
  | [] => None
  | p :: ps => if String.eqb p x then Some O
               else option_map S (index_of ps x)
  end.

(** Decimal digits of a non-negative number, most significant first. *)
Definition digit (n : Z) : ascii := ascii_of_nat (48 + Z.to_nat (n mod 10)).

Fixpoint digits_from (fuel : nat) (n : Z) (acc : string) : string :=
  match fuel with
  | O => acc
  | S k => if n <? 10 then String (digit n) acc
           else digits_from k (n / 10) (String (digit n) acc)
  end.

Definition of_nonneg (n : Z) : string :=
  digits_from (S (Z.to_nat (Z.log2 n))) n EmptyString.

(** [str(n)] for an integer. *)
Definition of_int (n : Z) : string :=
  if n <? 0 then String "-" (of_nonneg (- n)) else of_nonneg n.

(** ["%0<w>d" % n] for [n >= 0]. *)
Fixpoint pad (w : nat) (n : Z) : string :=
  match w with
  | O => EmptyString
  | S k => pad k (n / 10) ++ String (digit n) EmptyString
  end.

Definition zero_pad (w : nat) (n : Z) : string :=
  if n <? 10 ^ Z.of_nat w then pad w n else of_nonneg n.

(** [int(s)] restricted to what the ISO parser accepts: decimal digits. *)
Fixpoint all_digits (s : string) : bool :=
  match s with
  | EmptyString => true
  | String c r => is_digit c && all_digits r
  end.

Fixpoint value_from (acc : Z) (s : string) : Z :=
  match s with
  | EmptyString => acc
  | String c r => value_from (10 * acc + (code c - 48)) r
  end.

Definition to_int (s : string) : option Z :=
  if truthy s && all_digits s then Some (value_from 0 s) else None.

End PyStr.

(** ** Exceptions and the two effect disciplines of the scripts *)

Inductive exn : Set :=
  | AttributeError | TypeError | ValueError | JSONDecodeError | KeyError | OSError
  | UnicodeDecodeError.

(** [isinstance(e, cls)]: [json.JSONDecodeError] and [UnicodeDecodeError]
    derive from [ValueError]. *)
Definition exn_isinstance (e cls : exn) : bool :=
  match e, cls with
  | AttributeError, AttributeError | TypeError, TypeError
  | ValueError, ValueError | JSONDecodeError, JSONDecodeError
  | JSONDecodeError, ValueError | KeyError, KeyError | OSError, OSError
  | UnicodeDecodeError, UnicodeDecodeError
  | UnicodeDecodeError, ValueError => true
  | _, _ => false
  end.

(** The result of evaluating an expression: a value, or a raised exception. *)
Inductive outcome (A : Type) : Type :=
  | Ret (a : A)
  | Raise (e : exn).
Arguments Ret {A} a.
Arguments Raise {A} e.

Definition obind {A B} (m : outcome A) (k : A -> outcome B) : outcome B :=
  match m with
  | Ret a => k a
  | Raise e => Raise e
  end.

(** A statement running over a mutable accumulator [S]: what was written
    before an exception is raised stays written. *)
Definition stmt (S A : Type) : Type := S -> outcome A * S.

Definition sret {S A} (a : A) : stmt S A := fun s => (Ret a, s).
Definition sraise {S A} (e : exn) : stmt S A := fun s => (Raise e, s).
Definition sbind {S A B} (m : stmt S A) (k : A -> stmt S B) : stmt S B :=
  fun s => match m s with
           | (Ret a, s') => k a s'
           | (Raise e, s') => (Raise e, s')
           end.
Definition lift {S A} (m : outcome A) : stmt S A := fun s => (m, s).
Definition get {S} : stmt S S := fun s => (Ret s, s).
Definition modify {S} (f : S -> S) : stmt S unit := fun s => (Ret tt, f s).

(** [try: body / except classes: handler]. *)
Definition try_except {S A} (body : stmt S A) (classes : list exn)
    (handler : stmt S A) : stmt S A :=
  fun s => match body s with
           | (Ret a, s') => (Ret a, s')
           | (Raise e, s') =>
               if existsb (exn_isinstance e) classes then handler s'
               else (Raise e, s')
           end.

(** [try: body / except Exception: handler] (and the bare [except:]). *)
Definition try_except_all {S A} (body : stmt S A) (handler : stmt S A)
    : stmt S A :=
  fun s => match body s with
           | (Ret a, s') => (Ret a, s')
           | (Raise _, s') => handler s'
           end.

Declare Scope py_scope.
Delimit Scope py_scope with py.
Notation "x <- m ;; k" := (obind m (fun x => k))
  (at level 61, m at next level, right associativity) : py_scope.
Declare Scope stmt_scope.
Delimit Scope stmt_scope with stmt.
Notation "x <- m ;; k" := (sbind m (fun x => k))
  (at level 61, m at next level, right associativity) : stmt_scope.
Notation "m ;;; k" := (sbind m (fun _ => k))
  (at level 61, right associativity) : stmt_scope.

(** [for x in xs: body x]; an exception leaves the loop. *)
Fixpoint for_each {S A} (body : A -> stmt S unit) (xs : list A) : stmt S unit :=
  match xs with
  | [] => sret tt
  | x :: rest => sbind (body x) (fun _ => for_each body rest)
  end.

(** The same loop for code without a handler in scope: the accumulator is
    passed along and lost when an exception is raised. *)
Fixpoint fold_outcome {A B} (f : B -> A -> outcome B) (xs : list A) (b : B)
    : outcome B :=
  match xs with
  | [] => Ret b
  | x :: rest => obind (f b x) (fold_outcome f rest)
  end.

(** [list.sort(key=..., reverse=True)] and [sorted(..., reverse=True)]: a
    stable sort into descending key order that only asks [a < b]; [lt] may
    raise, and then the sort raises.  Insertion from the right gives the
    result of the built-in sort whenever every comparison answers, and
    raises whenever two keys that cannot be compared are in the list. *)
Section Sort.
Context {A : Type} (lt : A -> A -> outcome bool).

Fixpoint insert_desc (x : A) (l : list A) : outcome (list A) :=
  match l with
  | [] => Ret [x]
  | y :: ys =>
      obind (lt x y) (fun b =>
        if b then obind (insert_desc x ys) (fun r => Ret (y :: r))
        else Ret (x :: y :: ys))
  end.

Fixpoint sort_desc (l : list A) : outcome (list A) :=
  match l with
  | [] => Ret []
  | x :: rest => obind (sort_desc rest) (insert_desc x)
  end.
End Sort.

(** ** Decoded JSON values *)

(** What [json.loads] returns.  A float is given by its [repr], which the
    scripts can only print or test for truth. *)
Inductive json : Type :=
  | JNull
  | JBool (b : bool)
  | JInt (n : Z)
  | JFloat (repr : string)
  | JStr (s : string)
  | JList (items : list json)
  | JDict (fields : list (string * json)).

Module Py.

(** [bool(v)]. *)
Definition truthy (v : json) : bool :=
  match v with
  | JNull => false
  | JBool b => b
  | JInt n => negb (n =? 0)
  | JFloat r => negb (String.eqb r "0.0" || String.eqb r "-0.0")
  | JStr s => PyStr.truthy s
  | JList l => match l with [] => false | _ => true end
  | JDict d => match d with [] => false | _ => true end
  end.

Fixpoint lookup (key : string) (fields : list (string * json)) : option json :=
  match fields with
  | [] => None
  | (k, v) :: rest => if String.eqb k key then Some v else lookup key rest
  end.

(** [v.get(key, default)]: only a dict has the method. *)
Definition get (v : json) (key : string) (default : json) : outcome json :=
  match v with
  | JDict d => Ret (match lookup key d with Some x => x | None => default end)
  | _ => Raise AttributeError
  end.

(** [a or b], with [b] evaluated only when [a] is false. *)
Definition or_else (a : json) (b : outcome json) : outcome json :=
  if truthy a then Ret a else b.

(** [v == "text"]. *)
Definition eq_str (v : json) (s : string) : bool :=
  match v with JStr t => String.eqb t s | _ => false end.

Definition quote1 : ascii := "'"%char.
Definition quote2 : ascii := ascii_of_nat 34.
Definition backslash : ascii := ascii_of_nat 92.

Fixpoint has_char (c : ascii) (s : string) : bool :=
  match s with
  | EmptyString => false
  | String d r => Ascii.eqb c d || has_char c r
  end.

Definition hex_digit (n : Z) : ascii :=
  if n <? 10 then ascii_of_nat (48 + Z.to_nat n)
  else ascii_of_nat (87 + Z.to_nat n).

Definition printable (c : ascii) : bool :=
  let n := PyStr.code c in
  ((32 <=? n) && (n <=? 126)) || ((161 <=? n) && negb (n =? 173)).

Fixpoint escape (q : ascii) (s : string) : string :=
  match s with
  | EmptyString => EmptyString
  | String c r =>
      let n := PyStr.code c in
      (if Ascii.eqb c q || Ascii.eqb c backslash
       then String backslash (String c EmptyString)
       else if n =? 10 then String backslash "n"
       else if n =? 13 then String backslash "r"
       else if n =? 9 then String backslash "t"
       else if printable c then String c EmptyString
       else String backslash
              (String "x" (String (hex_digit (n / 16))
                 (String (hex_digit (n mod 16)) EmptyString))))
      ++ escape q r
  end.

(** [repr(s)] of a string. *)
Definition repr_str (s : string) : string :=
  let q := if has_char quote1 s && negb (has_char quote2 s)
           then quote2 else quote1 in
  String q (escape q s ++ String q EmptyString).

(** [repr(v)]. *)
Fixpoint repr (v : json) : string :=
  match v with
  | JNull => "None"
  | JBool true => "True"
  | JBool false => "False"
  | JInt n => PyStr.of_int n
  | JFloat r => r
  | JStr s => repr_str s
  | JList l => "[" ++ PyStr.join ", " (map repr l) ++ "]"
  | JDict d =>
      "{" ++ PyStr.join ", "
               (map (fun kv => match kv with
                               | (k, x) => repr_str k ++ ": " ++ repr x
                               end) d) ++ "}"
  end.

(** [str(v)]. *)
Definition str (v : json) : string :=
  match v with
  | JStr s => s
  | _ => repr v
  end.

End Py.

(** ** The [datetime] values the scripts compute with *)

Module Datetime.

(** The calendar and clock fields of a [datetime.datetime]. *)
Record clock : Set := mk_clock {
  year : Z; month : Z; day : Z;
  hour : Z; minute : Z; second : Z; microsecond : Z
}.

(** A [datetime.datetime]; [tzinfo] is the UTC offset in microseconds of an
    aware value and [None] for a naive one. *)
Record datetime : Set := mk_datetime {
  fields : clock;
  tzinfo : option Z
}.

(** What [datetime.now()] and [datetime.fromtimestamp(t)] return: a naive
    value. *)
Definition naive (c : clock) : datetime := mk_datetime c None.

Definition is_leap (y : Z) : bool :=
  (y mod 4 =? 0) && (negb (y mod 100 =? 0) || (y mod 400 =? 0)).

Definition days_in_month (y m : Z) : Z :=
  if m =? 2 then (if is_leap y then 29 else 28)
  else if (m =? 4) || (m =? 6) || (m =? 9) || (m =? 11) then 30 else 31.

Definition days_before_year (y : Z) : Z :=
  let p := y - 1 in p * 365 + p / 4 - p / 100 + p / 400.

Fixpoint days_before_month_from (y : Z) (m : nat) : Z :=
  match m with
  | O => 0
  | S k => days_before_month_from y k + days_in_month y (Z.of_nat m)
  end.

Definition days_before_month (y m : Z) : Z :=
  days_before_month_from y (Z.to_nat (m - 1)).

(** [toordinal()]. *)
Definition ordinal (d : clock) : Z :=
  days_before_year (year d) + days_before_month (year d) (month d) + day d.

Definition micros_per_day : Z := 86400000000.

(** Microseconds from 0001-01-01 of the wall-clock fields. *)
Definition wall_micros (d : clock) : Z :=
  (((ordinal d - 1) * 24 + hour d) * 60 + minute d) * 60000000
  + second d * 1000000 + microsecond d.

(** The same, moved to UTC for an aware value. *)
Definition utc_micros (d : datetime) : Z :=
  wall_micros (fields d) - match tzinfo d with Some off => off | None => 0 end.

(** What the constructor checks before it builds a value. *)
Definition valid_fields (y mo d h mi s us : Z) : bool :=
  (1 <=? y) && (y <=? 9999) && (1 <=? mo) && (mo <=? 12)
  && (1 <=? d) && (d <=? days_in_month y mo)
  && (0 <=? h) && (h <=? 23) && (0 <=? mi) && (mi <=? 59)
  && (0 <=? s) && (s <=? 59) && (0 <=? us) && (us <=? 999999).

(** [datetime.min]. *)
Definition min : datetime := naive (mk_clock 1 1 1 0 0 0 0).

Definition fields_compare (a b : clock) : comparison :=
  match year a ?= year b with Eq =>
  match month a ?= month b with Eq =>
  match day a ?= day b with Eq =>
  match hour a ?= hour b with Eq =>
  match minute a ?= minute b with Eq =>
  match second a ?= second b with Eq =>
    microsecond a ?= microsecond b
  | c => c end | c => c end | c => c end | c => c end | c => c end
  | c => c end.

(** The ordering behind [<] and [>]: values with the same offset (or both
    naive) compare by their fields, aware values with different offsets
    by their UTC instant, and a naive value against an aware one raises
    [TypeError]. *)
Definition cmp (a b : datetime) : outcome comparison :=
  match tzinfo a, tzinfo b with
  | None, None => Ret (fields_compare (fields a) (fields b))
  | Some oa, Some ob =>
      if oa =? ob then Ret (fields_compare (fields a) (fields b))
      else Ret (utc_micros a ?= utc_micros b)
  | _, _ => Raise TypeError
  end.

Definition lt (a b : datetime) : outcome bool :=
  obind (cmp a b) (fun c => Ret (match c with Lt => true | _ => false end)).

Definition gt (a b : datetime) : outcome bool :=
  obind (cmp a b) (fun c => Ret (match c with Gt => true | _ => false end)).

(** [(a - b).days] for two naive values: whole days, rounded down. *)
Definition days_between (a b : clock) : Z :=
  (wall_micros a - wall_micros b) / micros_per_day.

(** *** Printing *)

Definition offset_text (off : Z) : string :=
  let a := Z.abs off in
  let secs := a / 1000000 in
  let us := a mod 1000000 in
  let ss := secs mod 60 in
  (if off <? 0 then "-" else "+")
  ++ PyStr.zero_pad 2 (secs / 3600) ++ ":" ++ PyStr.zero_pad 2 (secs / 60 mod 60)
  ++ (if negb (ss =? 0) || negb (us =? 0) then ":" ++ PyStr.zero_pad 2 ss else "")
  ++ (if negb (us =? 0) then "." ++ PyStr.zero_pad 6 us else "").

(** [d.isoformat()]. *)
Definition isoformat (d : datetime) : string :=
  let c := fields d in
  PyStr.zero_pad 4 (year c) ++ "-" ++ PyStr.zero_pad 2 (month c) ++ "-"
  ++ PyStr.zero_pad 2 (day c) ++ "T" ++ PyStr.zero_pad 2 (hour c) ++ ":"
  ++ PyStr.zero_pad 2 (minute c) ++ ":" ++ PyStr.zero_pad 2 (second c)
  ++ (if microsecond c =? 0 then "" else "." ++ PyStr.zero_pad 6 (microsecond c))
  ++ match tzinfo d with Some off => offset_text off | None => "" end.

(** [d.strftime('%Y-%m-%d')] and [d.strftime('%H:%M')]. *)
Definition strftime_date (d : datetime) : string :=
  let c := fields d in
  PyStr.zero_pad 4 (year c) ++ "-" ++ PyStr.zero_pad 2 (month c) ++ "-"
  ++ PyStr.zero_pad 2 (day c).

Definition strftime_time (d : datetime) : string :=
  let c := fields d in
  PyStr.zero_pad 2 (hour c) ++ ":" ++ PyStr.zero_pad 2 (minute c).

(** *** Parsing: [datetime.fromisoformat]

    The grammar [YYYY-MM-DD[*HH[:MM[:SS[.fff[fff]]]][+HH:MM[:SS[.ffffff]]]]]
    of the library, read the way the library reads it. *)

Definition two_digits (s : string) (pos : nat) : option Z :=
  if (pos + 2 <=? String.length s)%nat
  then PyStr.to_int (String.substring pos 2 s) else None.

Definition is_char (c : ascii) (o : option ascii) : bool :=
  match o with Some d => Ascii.eqb c d | None => false end.

Definition parse_fraction (rest : string) : option Z :=
  match rest with
  | EmptyString => Some 0
  | String c digits =>
      if Ascii.eqb c "." then
        match String.length digits, PyStr.to_int digits with
        | 3%nat, Some n => Some (n * 1000)
        | 6%nat, Some n => Some n
        | _, _ => None
        end
      else None
  end.

Definition parse_hh_mm_ss_ff (t : string) : option (Z * Z * Z * Z) :=
  match two_digits t 0 with
  | None => None
  | Some h =>
      match String.get 2 t with
      | None => Some (h, 0, 0, 0)
      | Some c2 =>
          if negb (Ascii.eqb c2 ":") then None else
          match two_digits t 3 with
          | None => None
          | Some m =>
              match String.get 5 t with
              | None => Some (h, m, 0, 0)
              | Some c5 =>
                  if negb (Ascii.eqb c5 ":") then None else
                  match two_digits t 6, parse_fraction (PyStr.drop 8 t) with
                  | Some s, Some us => Some (h, m, s, us)
                  | _, _ => None
                  end
              end
          end
      end
  end.

Fixpoint find_char (c : ascii) (s : string) : option nat :=
  match s with
  | EmptyString => None
  | String d r => if Ascii.eqb c d then Some O else option_map S (find_char c r)
  end.

Definition parse_offset (negative : bool) (tz : string) : option Z :=
  let n := String.length tz in
  if negb ((n =? 5) || (n =? 8) || (n =? 15))%nat then None else
  match parse_hh_mm_ss_ff tz with
  | None => None
  | Some (h, m, s, us) =>
      let off := ((h * 60 + m) * 60 + s) * 1000000 + us in
      if off <? micros_per_day
      then Some (if negative then - off else off) else None
  end.

Definition parse_isoformat_time (t : string)
    : option (Z * Z * Z * Z * option Z) :=
  if (String.length t <? 2)%nat then None else
  let tz_pos := match find_char "-" t with
                | Some i => Some i
                | None => find_char "+" t
                end in
  match tz_pos with
  | None => option_map (fun c => (c, None)) (parse_hh_mm_ss_ff t)
  | Some i =>
      match parse_hh_mm_ss_ff (PyStr.take i t),
            parse_offset (is_char "-" (String.get i t)) (PyStr.drop (S i) t) with
      | Some c, Some off => Some (c, Some off)
      | _, _ => None
      end
  end.

Definition parse_isoformat_date (d : string) : option (Z * Z * Z) :=
  match PyStr.to_int (String.substring 0 4 d),
        PyStr.to_int (String.substring 5 2 d),
        PyStr.to_int (String.substring 8 2 d) with
  | Some y, Some m, Some dd =>
      if is_char "-" (String.get 4 d) && is_char "-" (String.get 7 d)
         && (String.length d =? 10)%nat
      then Some (y, m, dd) else None
  | _, _, _ => None
  end.

(** A text of ten characters is a date, read as its midnight; in a longer
    one the eleventh character is the separator and a time has to follow
    it. *)
Definition fromisoformat (s : string) : outcome datetime :=
  match parse_isoformat_date (PyStr.take 10 s) with
  | None => Raise ValueError
  | Some (y, mo, d) =>
      match (if (String.length s <=? 10)%nat then Some (0, 0, 0, 0, None)
             else parse_isoformat_time (PyStr.drop 11 s)) with
      | None => Raise ValueError
      | Some (h, mi, sec, us, tz) =>
          if valid_fields y mo d h mi sec us
          then Ret (mk_datetime (mk_clock y mo d h mi sec us) tz)
          else Raise ValueError
      end
  end.

End Datetime.

(** ** The input: a directory of projects holding line-delimited logs *)

(** One line of a log file, as the scans tell lines apart. *)
Inductive line : Type :=
  | Blank                   (** [line.strip()] is empty *)
  | Malformed               (** [json.loads(line)] raises [JSONDecodeError] *)
  | Decoded (entry : json)  (** [json.loads(line)] returns [entry] *).

(** A directory entry of a project, as the scripts meet it:
    - its name;
    - the wall-clock time of its last modification ([None]:
      [os.path.getmtime] raises, the entry is listed but cannot be stat'ed,
      as a dangling link);
    - the lines the text reader yields ([None]: [open] raises);
    - how the iteration over the lines ends: at the end of the file
      ([None]), or with an exception the reader raises after the lines it
      has yielded ([UnicodeDecodeError] on bytes that are not UTF-8, which
      the reader meets chunk by chunk). *)
Record log_file : Type := mk_log_file {
  file_name : string;
  file_mtime : option Datetime.clock;
  file_lines : option (list line);
  file_end : option exn
}.

(** An entry of the projects directory. *)
Record dir_entry : Type := mk_dir_entry {
  entry_name : string;
  entry_is_dir : bool;
  entry_files : list log_file
}.

Definition line_strip_truthy (l : line) : bool :=
  match l with Blank => false | _ => true end.

Definition json_loads (l : line) : outcome json :=
  match l with
  | Decoded entry => Ret entry
  | _ => Raise JSONDecodeError
  end.

Module PyPath.

(** [Path(path).name]: the last component, empty and [.] components
    dropped. *)
Definition name (path : string) : string :=
  last (filter (fun p => PyStr.truthy p && negb (String.eqb p "."))
               (PyStr.split "/" path)) "".

(** [str(Path(root) / child)] for a root written with its final slash. *)
Definition child (root child_name : string) : string := root ++ child_name.

(** [fnmatch] against [*.jsonl] and [agent-*.jsonl], as [Path.glob] does
    on the names of a directory. *)
Definition matches_jsonl (n : string) : bool := PyStr.endswith n ".jsonl".

Definition matches_agent_jsonl (n : string) : bool :=
  PyStr.startswith n "agent-" && PyStr.endswith (PyStr.drop 6 n) ".jsonl".

End PyPath.

(** ** analyze.py: the summary pipeline *)

Module Analyze.
Import Datetime.

Definition PROJECTS_DIR : string := "/Users/larry/.claude/projects/".
Definition WEEK_DAYS : Z := 7.

Definition get_project_name (path : string) : string :=
  let parts := PyStr.split "/" path in
  match (if PyStr.contains parts "-Users-larry"
         then PyStr.index_of parts "-Users-larry" else None) with
  | Some idx =>
      if (idx + 1 <? List.length parts)%nat
      then PyStr.title (PyStr.replace "-" " " (nth (idx + 1) parts ""))
      else PyPath.name path
  | None => PyPath.name path
  end.

(** [ts_str.replace(old, new)]: only a string has the method. *)
Definition str_replace (v : json) (old new : string) : outcome string :=
  match v with
  | JStr s => Ret (PyStr.replace old new s)
  | _ => Raise AttributeError
  end.

Definition parse_timestamp (ts_str : json) : outcome (option datetime) :=
  match obind (str_replace ts_str "Z" "+00:00") fromisoformat with
  | Ret d => Ret (Some d)
  | Raise _ => Ret None
  end.

(** [os.path.getmtime(filepath)], read as local wall-clock time. *)
Definition getmtime (f : log_file) : outcome clock :=
  match file_mtime f with
  | Some mtime => Ret mtime
  | None => Raise OSError
  end.

Definition get_file_age_days (now : clock) (f : log_file)
    : outcome (Z * datetime) :=
  (mtime <- getmtime f;;
   let file_date := naive mtime in
   let age := days_between now (fields file_date) in
   Ret (age, file_date))%py.

(** An element of [data['entries']]. *)
Record scan_entry : Type := mk_scan_entry {
  entry_timestamp : datetime;
  entry_type : json;
  entry_message_id : json
}.

(** The dictionary [data] of [analyze_jsonl_file]. *)
Record file_data : Type := mk_file_data {
  entries : list scan_entry;
  first_timestamp : option datetime;
  last_timestamp : option datetime;
  message_count : Z
}.

Definition empty_data : file_data := mk_file_data [] None None 0.

Definition append_entry (e : scan_entry) (d : file_data) : file_data :=
  mk_file_data (entries d ++ [e]) (first_timestamp d) (last_timestamp d)
               (message_count d).
Definition count_message (d : file_data) : file_data :=
  mk_file_data (entries d) (first_timestamp d) (last_timestamp d)
               (message_count d + 1).
Definition set_first (t : datetime) (d : file_data) : file_data :=
  mk_file_data (entries d) (Some t) (last_timestamp d) (message_count d).
Definition set_last (t : datetime) (d : file_data) : file_data :=
  mk_file_data (entries d) (first_timestamp d) (Some t) (message_count d).

(** The string handed to [parse_timestamp]:
    [entry.get('snapshot', {}).get('timestamp') or entry.get('timestamp', '')]. *)
Definition timestamp_field (entry : json) : outcome json :=
  (snapshot <- Py.get entry "snapshot" (JDict []);;
   nested <- Py.get snapshot "timestamp" JNull;;
   Py.or_else nested (Py.get entry "timestamp" (JStr "")))%py.

Definition record_timestamp (entry : json) : outcome (option datetime) :=
  obind (timestamp_field entry) parse_timestamp.

(** [not old or new < old] (and the same with [>]). *)
Definition unset_or (rel : datetime -> datetime -> outcome bool)
    (new : datetime) (old : option datetime) : outcome bool :=
  match old with
  | None => Ret true
  | Some o => rel new o
  end.

(** The body of the loop over the lines of one file. *)
Definition scan_line (l : line) : stmt file_data unit :=
  if line_strip_truthy l then
    try_except
      (entry <- lift (json_loads l);;
       timestamp <- lift (record_timestamp entry);;
       match timestamp with
       | Some ts =>
           ty <- lift (Py.get entry "type" (JStr "unknown"));;
           mid <- lift (Py.get entry "messageId" (JStr ""));;
           modify (append_entry (mk_scan_entry ts ty mid));;;
           modify count_message;;;
           data <- get;;
           earlier <- lift (unset_or lt ts (first_timestamp data));;
           (if earlier then modify (set_first ts) else sret tt);;;
           data <- get;;
           later <- lift (unset_or gt ts (last_timestamp data));;
           (if later then modify (set_last ts) else sret tt)
       | None => sret tt
       end)%stmt
      [JSONDecodeError] (sret tt)
  else sret tt.

Definition open_lines (f : log_file) : outcome (list line) :=
  match file_lines f with
  | Some ls => Ret ls
  | None => Raise OSError
  end.

(** What the [for] statement does when the reader has no further line to
    yield: the loop ends, or the reader's exception is raised. *)
Definition end_of_lines (f : log_file) : outcome unit :=
  match file_end f with
  | None => Ret tt
  | Some e => Raise e
  end.

Definition analyze_jsonl_file (f : log_file) : file_data :=
  snd (try_except_all
         (lines <- lift (open_lines f);;
          for_each scan_line lines;;;
          lift (end_of_lines f))%stmt
         (sret tt) empty_data).

(** An element of [recent_activity]: the File Summary. *)
Record file_info : Type := mk_file_info {
  filename : string;
  age_days : Z;
  modified : datetime;
  messages : Z;
  first_ts : option datetime;
  last_ts : option datetime
}.

(** An element of [projects_data]. *)
Record project : Type := mk_project {
  name : string;
  path : string;
  total_messages : Z;
  files_count : Z;
  earliest_activity : option datetime;
  latest_activity : option datetime;
  files : list file_info
}.

(** The locals of the loop over the files of one project. *)
Record project_acc : Type := mk_project_acc {
  recent_activity : list file_info;
  acc_total_messages : Z;
  earliest_ts : option datetime;
  latest_ts : option datetime
}.

Definition empty_acc : project_acc := mk_project_acc [] 0 None None.

(** [if candidate and (not current or candidate < current): current = candidate]. *)
Definition merge_bound (rel : datetime -> datetime -> outcome bool)
    (candidate current : option datetime) : outcome (option datetime) :=
  match candidate with
  | None => Ret current
  | Some c =>
      (better <- unset_or rel c current;;
       Ret (if better then Some c else current))%py
  end.

(** The body of the loop over [all_files]. *)
Definition scan_file (now : clock) (acc : project_acc) (f : log_file)
    : outcome project_acc :=
  (aged <- get_file_age_days now f;;
   let '(age, file_date) := aged in
   if age <=? WEEK_DAYS then
     let data := analyze_jsonl_file f in
     if message_count data >? 0 then
       earliest <- merge_bound lt (first_timestamp data) (earliest_ts acc);;
       latest <- merge_bound gt (last_timestamp data) (latest_ts acc);;
       Ret (mk_project_acc
              (recent_activity acc
               ++ [mk_file_info (file_name f) age file_date
                     (message_count data) (first_timestamp data)
                     (last_timestamp data)])
              (acc_total_messages acc + message_count data)
              earliest latest)
     else Ret acc
   else Ret acc)%py.

(** [jsonl_files + agent_files]. *)
Definition all_files (d : dir_entry) : list log_file :=
  filter (fun f => PyPath.matches_jsonl (file_name f)) (entry_files d)
  ++ filter (fun f => PyPath.matches_agent_jsonl (file_name f)) (entry_files d).

Definition by_modified (a b : file_info) : outcome bool :=
  lt (modified a) (modified b).

(** The body of the loop over the projects directory. *)
Definition scan_project (now : clock) (projects_data : list project)
    (d : dir_entry) : outcome (list project) :=
  if entry_is_dir d && negb (PyStr.startswith (entry_name d) ".") then
    let project_path := PyPath.child PROJECTS_DIR (entry_name d) in
    let project_name := get_project_name project_path in
    (acc <- fold_outcome (scan_file now) (all_files d) empty_acc;;
     match recent_activity acc with
     | [] => Ret projects_data
     | _ :: _ =>
         sorted <- sort_desc by_modified (recent_activity acc);;
         Ret (projects_data
              ++ [mk_project project_name project_path
                    (acc_total_messages acc)
                    (Z.of_nat (List.length (recent_activity acc)))
                    (earliest_ts acc) (latest_ts acc) sorted])%list
     end)%py
  else Ret projects_data.

(** [x['latest_activity'] or datetime.min]. *)
Definition latest_or_min (p : project) : datetime :=
  match latest_activity p with
  | Some t => t
  | None => Datetime.min
  end.

Definition by_latest_activity (a b : project) : outcome bool :=
  lt (latest_or_min a) (latest_or_min b).

(** The loop of [scan_all_projects], before the final sort. *)
Definition collect_projects (tree : list dir_entry) (now : clock)
    : outcome (list project) :=
  fold_outcome (scan_project now) tree [].

Definition scan_all_projects (tree : list dir_entry) (now : clock)
    : outcome (list project) :=
  obind (collect_projects tree now) (sort_desc by_latest_activity).

(** An element of [timeline]. *)
Record timeline_entry : Type := mk_timeline_entry {
  tl_timestamp : datetime;
  tl_project : string;
  tl_filename : string;
  tl_type : string;
  tl_messages : Z
}.

Definition file_timeline (project_name : string) (fi : file_info)
    : list timeline_entry :=
  (match first_ts fi with
   | Some t => [mk_timeline_entry t project_name (filename fi)
                  "conversation_start" (messages fi)]
   | None => []
   end
   ++ match last_ts fi with
      | Some t => [mk_timeline_entry t project_name (filename fi)
                     "last_activity" (messages fi)]
      | None => []
      end)%list.

Definition project_timeline (p : project) : list timeline_entry :=
  flat_map (file_timeline (name p)) (files p).

Definition by_timestamp (a b : timeline_entry) : outcome bool :=
  lt (tl_timestamp a) (tl_timestamp b).

Definition build_timeline (projects_data : list project)
    : outcome (list timeline_entry) :=
  sort_desc by_timestamp (flat_map project_timeline projects_data).

(** [main], up to the report: scan, then build the chronology. *)
Definition summary (tree : list dir_entry) (now : clock)
    : outcome (list project * list timeline_entry) :=
  (projects_data <- scan_all_projects tree now;;
   timeline <- build_timeline projects_data;;
   Ret (projects_data, timeline))%py.

End Analyze.

(** ** extract.py: the detail pipeline *)

Module Extract.

Definition PROJECTS_DIR : string := "/Users/larry/.claude/projects/".
Definition WEEK_DAYS : Z := 15.

Definition parse_timestamp (ts_str : json)
    : outcome (option Datetime.datetime) :=
  match (replaced <- Analyze.str_replace ts_str "Z" "+00:00";;
         Datetime.fromisoformat (PyStr.replace "+00:00" "" replaced))%py with
  | Ret d => Ret (Some d)
  | Raise _ => Ret None
  end.

(** [re.sub(r'^Users\s*Larry\s*', '', name)]. *)
Definition sub_users_larry (n : string) : string :=
  if PyStr.startswith n "Users" then
    let rest := PyStr.lstrip (PyStr.drop 5 n) in
    if PyStr.startswith rest "Larry" then PyStr.lstrip (PyStr.drop 5 rest)
    else n
  else n.

Definition get_project_name (path : string) : string :=
  let parts := PyStr.split "/" path in
  match (if PyStr.contains parts "-Users-larry"
         then PyStr.index_of parts "-Users-larry" else None) with
  | Some idx =>
      if (idx + 1 <? List.length parts)%nat then
        let name := PyStr.title (PyStr.replace "-" " " (nth (idx + 1) parts "")) in
        let name := sub_users_larry name in
        if PyStr.truthy (PyStr.strip name) then PyStr.strip name else "Root"
      else PyPath.name path
  | None => PyPath.name path
  end.

Definition newline : string := String (ascii_of_nat 10) EmptyString.

(** The loop collecting [texts] from the items of an assistant message. *)
Fixpoint collect_texts (items : list json) : outcome (list json) :=
  match items with
  | [] => Ret []
  | item :: rest =>
      (here <- match item with
               | JDict _ =>
                   (ty <- Py.get item "type" JNull;;
                    if Py.eq_str ty "text"
                    then (text <- Py.get item "text" (JStr "");; Ret [text])
                    else Ret [])
               | JStr _ => Ret [item]
               | _ => Ret []
               end;;
       more <- collect_texts rest;;
       Ret (here ++ more)%list)%py
  end.

(** [sep.join(texts)]: every item has to be a string. *)
Fixpoint join_values (sep : string) (texts : list json) : outcome string :=
  match texts with
  | [] => Ret ""
  | JStr s :: rest =>
      match rest with
      | [] => Ret s
      | _ :: _ => obind (join_values sep rest) (fun r => Ret (s ++ sep ++ r))
      end
  | _ :: _ => Raise TypeError
  end.

(** [str(cont) if cont else '']. *)
Definition str_or_empty (cont : json) : string :=
  if Py.truthy cont then Py.str cont else "".

Definition extract_message_content (entry : json)
    : outcome (string * option string) :=
  (ty <- Py.get entry "type" JNull;;
   if Py.eq_str ty "user" then
     msg <- Py.get entry "message" (JDict []);;
     cont <- Py.get msg "content" (JStr "");;
     Ret (match cont with
          | JList items => PyStr.join " " (map Py.str items)
          | _ => str_or_empty cont
          end, Some "user")
   else if Py.eq_str ty "assistant" || Py.eq_str ty "message" then
     msg <- Py.get entry "message" (JDict []);;
     content <- match msg with
                | JDict _ =>
                    cont <- Py.get msg "content" (JList []);;
                    match cont with
                    | JList items =>
                        texts <- collect_texts items;;
                        joined <- join_values newline texts;;
                        Ret (Some (PyStr.strip joined))
                    | _ => Ret (Some (str_or_empty cont))
                    end
                | _ => Ret None
                end;;
     Ret (match content with Some c => c | None => "" end, Some "assistant")
   else Ret ("", None))%py.

(** An element of [all_entries]: the Flat Message Entry. *)
Record flat_entry : Type := mk_flat_entry {
  datetime : string;
  date : string;
  time : string;
  project : string;
  role : option string;
  message : string
}.

Definition cap : Z := 10000.
Definition marker : string := "...[truncated]".

(** [content[:10000] + '...[truncated]'] when [len(content) > 10000]. *)
Definition truncate (content : string) : string :=
  if PyStr.len content >? cap
  then PyStr.take (Z.to_nat cap) content ++ marker else content.

(** [entry.get('timestamp') or entry.get('snapshot', {}).get('timestamp', '')]. *)
Definition timestamp_field (entry : json) : outcome json :=
  (top <- Py.get entry "timestamp" JNull;;
   Py.or_else top
     (snapshot <- Py.get entry "snapshot" (JDict []);;
      Py.get snapshot "timestamp" (JStr "")))%py.

Definition record_timestamp (entry : json)
    : outcome (option Datetime.datetime) :=
  obind (timestamp_field entry) parse_timestamp.

(** The body of the loop over the lines of one file. *)
Definition scan_line (project_name : string) (l : line)
    : stmt (list flat_entry) unit :=
  if negb (line_strip_truthy l) then sret tt else
  try_except
    (entry <- lift (json_loads l);;
     timestamp <- lift (record_timestamp entry);;
     match timestamp with
     | None => sret tt
     | Some ts =>
         extracted <- lift (extract_message_content entry);;
         let '(content, role) := extracted in
         if PyStr.truthy content && PyStr.truthy (PyStr.strip content) then
           let content := truncate content in
           modify (fun all_entries =>
             (all_entries
              ++ [mk_flat_entry (Datetime.isoformat ts)
                    (Datetime.strftime_date ts) (Datetime.strftime_time ts)
                    project_name role (PyStr.strip content)])%list)
         else sret tt
     end)%stmt
    [JSONDecodeError; KeyError; ValueError] (sret tt).

(** The body of the loop over the files of one project. *)
Definition scan_file (project_name : string) (f : log_file)
    : stmt (list flat_entry) unit :=
  try_except_all
    (lines <- lift (Analyze.open_lines f);;
     for_each (scan_line project_name) lines;;;
     lift (Analyze.end_of_lines f))%stmt
    (sret tt).

(** The body of the loop over the projects directory. *)
Definition scan_project (d : dir_entry) : stmt (list flat_entry) unit :=
  if entry_is_dir d && negb (PyStr.startswith (entry_name d) ".") then
    let project_name :=
      get_project_name (PyPath.child PROJECTS_DIR (entry_name d)) in
    for_each (scan_file project_name)
      (filter (fun f => PyPath.matches_jsonl (file_name f)) (entry_files d))
  else sret tt.

Definition by_datetime (a b : flat_entry) : outcome bool :=
  Ret (String.ltb (datetime a) (datetime b)).

Definition extract_all_conversations (tree : list dir_entry)
    : outcome (list flat_entry) :=
  match for_each scan_project tree [] with
  | (Ret _, all_entries) => sort_desc by_datetime all_entries
  | (Raise e, _) => Raise e
  end.

End Extract.

(** ** analyze.py and extract.py: the figures of the reports *)

Module Report.

(** A value of [daily_activity]: the set of projects seen on a day, kept as
    a list without repetition, and the message total of the day. *)
Record day_data : Type := mk_day_data {
  projects : list string;
  total_messages : Z
}.

(** [s.add(x)]. *)
Definition set_add (x : string) (s : list string) : list string :=
  if PyStr.contains s x then s else (s ++ [x])%list.

(** The body of the first loop of [generate_html_report] on the
    [defaultdict], whose keys stay in insertion order:
    [daily_activity[day_key]['projects'].add(project)] and
    [daily_activity[day_key]['total_messages'] += messages]. *)
Fixpoint record_item (day_key project : string) (messages : Z)
    (daily : list (string * day_data)) : list (string * day_data) :=
  match daily with
  | [] => [(day_key, mk_day_data (set_add project []) (0 + messages))]
  | (k, v) :: rest =>
      if String.eqb k day_key
      then (k, mk_day_data (set_add project (projects v))
                 (total_messages v + messages)) :: rest
      else (k, v) :: record_item day_key project messages rest
  end.

Definition daily_activity (timeline : list Analyze.timeline_entry)
    : list (string * day_data) :=
  fold_left
    (fun daily item =>
       record_item (Datetime.strftime_date (Analyze.tl_timestamp item))
         (Analyze.tl_project item) (Analyze.tl_messages item) daily)
    timeline [].

(** The four figures of the header of the report. *)
Record header : Type := mk_header {
  active_projects : Z;
  all_messages : Z;
  conversation_files : Z;
  active_days : Z
}.

Definition header_of (projects_data : list Analyze.project)
    (timeline : list Analyze.timeline_entry) : header :=
  mk_header
    (Z.of_nat (List.length projects_data))
    (fold_right (fun p acc => Analyze.total_messages p + acc) 0 projects_data)
    (fold_right (fun p acc => Analyze.files_count p + acc) 0 projects_data)
    (Z.of_nat (List.length (daily_activity timeline))).

Definition by_day (a b : string * day_data) : outcome bool :=
  Ret (String.ltb (fst a) (fst b)).

(** [sorted(daily_activity.items(), key=lambda x: x[0], reverse=True)]. *)
Definition sorted_days (timeline : list Analyze.timeline_entry)
    : outcome (list (string * day_data)) :=
  sort_desc by_day (daily_activity timeline).

(** The body of the counting loop of [main] in extract.py:
    [by_date[entry['date']] += 1] on a [defaultdict(int)]. *)
Fixpoint count_date (d : string) (by_date : list (string * Z))
    : list (string * Z) :=
  match by_date with
  | [] => [(d, 0 + 1)]
  | (k, n) :: rest =>
      if String.eqb k d then (k, n + 1) :: rest
      else (k, n) :: count_date d rest
  end.

Definition by_date (entries : list Extract.flat_entry) : list (string * Z) :=
  fold_left (fun acc e => count_date (Extract.date e) acc) entries [].

Definition by_key (a b : string) : outcome bool := Ret (String.ltb a b).

(** [sorted(by_date.keys(), reverse=True)[:15]]. *)
Definition shown_dates (entries : list Extract.flat_entry)
    : outcome (list string) :=
  obind (sort_desc by_key (map fst (by_date entries)))
        (fun l => Ret (firstn 15 l)).

End Report.

(** * Properties of the pipelines *)

(** A sequence is in descending order for [lt] when no entry is smaller than
    the one that follows it. *)
Inductive descending {A : Type} (lt : A -> A -> outcome bool) : list A -> Prop :=
  | descending_nil : descending lt []
  | descending_one : forall x, descending lt [x]
  | descending_cons : forall x y l,
      lt x y = Ret false -> descending lt (y :: l) -> descending lt (x :: y :: l).

(** A naive value has no offset, an aware one has. *)
Definition is_naive (d : Datetime.datetime) : Prop := Datetime.tzinfo d = None.
Definition is_aware (d : Datetime.datetime) : Prop := Datetime.tzinfo d <> None.

(** Instants that can all be compared with one another. *)
Definition same_awareness (l : list Datetime.datetime) : Prop :=
  Forall is_naive l \/ Forall is_aware l.

(** The instants a chronology is built from. *)
Definition file_instants (fi : Analyze.file_info) : list Datetime.datetime :=
  (match Analyze.first_ts fi with Some t => [t] | None => [] end
   ++ match Analyze.last_ts fi with Some t => [t] | None => [] end)%list.

Definition project_instants (p : Analyze.project) : list Datetime.datetime :=
  flat_map file_instants (Analyze.files p).

(** The accumulator of a file scan is either untouched or has both bounds. *)
Definition bounds_set (d : Analyze.file_data) : Prop :=
  (Analyze.first_timestamp d = None /\ Analyze.last_timestamp d = None
   /\ Analyze.message_count d = 0)
  \/ (Analyze.first_timestamp d <> None /\ Analyze.last_timestamp d <> None
      /\ 0 <= Analyze.message_count d).

(** The locals of the project loop: no file retained yet, or both bounds. *)
Definition acc_bounds_set (a : Analyze.project_acc) : Prop :=
  Analyze.recent_activity a = []
  \/ (Analyze.earliest_ts a <> None /\ Analyze.latest_ts a <> None).

(** A project whose activity bounds are both present, so that the sort key
    is the latest activity itself. *)
Definition has_activity (p : Analyze.project) : Prop :=
  exists e l, Analyze.earliest_activity p = Some e
              /\ Analyze.latest_activity p = Some l
              /\ Analyze.latest_or_min p = l.

(** A log file that can be stat'ed and is read to its end, with the given
    lines. *)
Definition file_of (n : string) (mtime : Datetime.clock) (ls : list line)
    : log_file := mk_log_file n (Some mtime) (Some ls) None.

(** [n] copies of a character. *)
Fixpoint repeat_char (c : ascii) (n : nat) : string :=
  match n with
  | O => EmptyString
  | S k => String c (repeat_char c k)
  end.

(** ** Zone forms along the summary scan *)

(** Whether an instant is aware. *)
Definition aware_flag (d : Datetime.datetime) : bool :=
  match Datetime.tzinfo d with Some _ => true | None => false end.

(** The two bounds of a file scan are of the same form. *)
Definition bounds_agree (d : Analyze.file_data) : Prop :=
  match Analyze.first_timestamp d, Analyze.last_timestamp d with
  | Some a, Some b => aware_flag a = aware_flag b
  | None, None => True
  | _, _ => False
  end.

(** The bounds of the project loop and every instant of the files retained
    so far are of the same form. *)
Definition acc_agrees (a : Analyze.project_acc) : Prop :=
  match Analyze.earliest_ts a, Analyze.latest_ts a with
  | Some e, Some l =>
      aware_flag e = aware_flag l
      /\ forall x, In x (flat_map file_instants (Analyze.recent_activity a)) ->
                   aware_flag x = aware_flag l
  | None, None => Analyze.recent_activity a = []
  | _, _ => False
  end.

(** Every instant of a reported project is of the form of its sort key. *)
Definition project_agrees (p : Analyze.project) : Prop :=
  forall x, In x (project_instants p) ->
            aware_flag x = aware_flag (Analyze.latest_or_min p).

(** A clock the [datetime] constructor accepts. *)
Definition valid_clock (c : Datetime.clock) : Prop :=
  Datetime.valid_fields (Datetime.year c) (Datetime.month c) (Datetime.day c)
    (Datetime.hour c) (Datetime.minute c) (Datetime.second c)
    (Datetime.microsecond c) = true.

(** The ISO text of a naive instant. *)
Definition naive_text (c : Datetime.clock) : string :=
  Datetime.isoformat (Datetime.naive c).

(** An entry of the flat export carries the ISO text of an instant that
    the parser built. *)
Definition exported_from (e : Extract.flat_entry) (d : Datetime.datetime) : Prop :=
  Extract.datetime e = Datetime.isoformat d /\ valid_clock (Datetime.fields d).

Definition has_instant (e : Extract.flat_entry) : Prop :=
  exists d, exported_from e d.

(** ** Inputs used in the examples *)

Module Sample.

(** A chat record: type, top-level timestamp, message with a text content. *)
Definition record (ty ts text : string) : json :=
  JDict [("type", JStr ty); ("timestamp", JStr ts);
         ("message", JDict [("content", JStr text)])].

(** Noon of a day of January 2024, and the time of the run. *)
Definition noon (d : Z) : Datetime.clock := Datetime.mk_clock 2024 1 d 12 0 0 0.
Definition now : Datetime.clock := noon 8.

Definition demo_dir : string := "-Users-larry-demo-project".

(** A record with a snapshot timestamp and a different top-level one. *)
Definition two_stamps : json :=
  JDict [("type", JStr "user");
         ("timestamp", JStr "2024-01-02T00:00:00");
         ("snapshot", JDict [("timestamp", JStr "2024-01-01T00:00:00")]);
         ("message", JDict [("content", JStr "hello")])].

Definition instant (y mo d h mi s : Z) (tz : option Z) : Datetime.datetime :=
  Datetime.mk_datetime (Datetime.mk_clock y mo d h mi s 0) tz.

End Sample.

(** Inputs of the file scans. *)
Module SampleLines.

Definition first : line :=
  Decoded (Sample.record "user" "2024-01-01T10:00:00" "first").
Definition second : line :=
  Decoded (Sample.record "assistant" "2024-01-01T12:00:00" "second").

(** A line that decodes, to a list instead of an object. *)
Definition not_an_object : line := Decoded (JList []).

(** Records without a usable timestamp: none at all, and one that is no
    ISO text. *)
Definition undated : json :=
  JDict [("type", JStr "user"); ("message", JDict [("content", JStr "lost")])].
Definition misdated : json := Sample.record "user" "last tuesday" "lost".

End SampleLines.

(** Message bodies longer than the cap of the flat export. *)
Module SampleText.

(** 10001 letters. *)
Definition long_text : string := repeat_char "a" (Z.to_nat 10001).

(** A space followed by 10000 letters. *)
Definition indented_text : string := String " " (repeat_char "a" (Z.to_nat 10000)).

Definition long_record : json :=
  Sample.record "user" "2024-01-01T10:00:00" long_text.
Definition indented_record : json :=
  Sample.record "user" "2024-01-01T10:00:00" indented_text.

End SampleText.

(** Directory trees. *)
Module SampleTree.

(** One project with one log of two dated records, modified at noon of
    day [d]. *)
Definition demo_file (d : Z) : log_file :=
  file_of "session.jsonl" (Sample.noon d) [SampleLines.first; SampleLines.second].
Definition demo (d : Z) : list dir_entry :=
  [mk_dir_entry Sample.demo_dir true [demo_file d]].

(** A log modified on 31 December 2023, eight days before the run. *)
Definition old_file : log_file :=
  file_of "old.jsonl" (Datetime.mk_clock 2023 12 31 12 0 0 0)
    [SampleLines.first; SampleLines.second].

(** One project whose only log carries the [agent-] prefix. *)
Definition agent_file : log_file :=
  file_of "agent-1.jsonl" (Sample.noon 7) [SampleLines.first; SampleLines.second].
Definition agent_only : list dir_entry :=
  [mk_dir_entry "p" true [agent_file]].

End SampleTree.

(** Trees whose instants differ in zone form. *)
Module SampleZones.

Definition utc_file : log_file :=
  file_of "utc.jsonl" (Sample.noon 7)
    [Decoded (Sample.record "user" "2024-01-01T10:00:00Z" "first")].

(** Two projects: the instants of one are aware, of the other naive. *)
Definition mixed : list dir_entry :=
  [mk_dir_entry "a" true [utc_file];
   mk_dir_entry "b" true [SampleTree.demo_file 7]].

(** The projects the two directories give when each is scanned alone. *)
Definition aware_project : Analyze.project :=
  let t := Sample.instant 2024 1 1 10 0 0 (Some 0) in
  Analyze.mk_project "a" "/Users/larry/.claude/projects/a" 1 1 (Some t) (Some t)
    [Analyze.mk_file_info "utc.jsonl" 1 (Datetime.naive (Sample.noon 7)) 1
       (Some t) (Some t)].

Definition naive_project : Analyze.project :=
  let t1 := Sample.instant 2024 1 1 10 0 0 None in
  let t2 := Sample.instant 2024 1 1 12 0 0 None in
  Analyze.mk_project "b" "/Users/larry/.claude/projects/b" 2 1 (Some t1) (Some t2)
    [Analyze.mk_file_info "session.jsonl" 1 (Datetime.naive (Sample.noon 7)) 2
       (Some t1) (Some t2)].

(** One log whose two records carry different offsets: 10:00 at +05:00
    is 05:00 UTC, 09:00 at +01:00 is 08:00 UTC. *)
Definition offsets : list dir_entry :=
  [mk_dir_entry "p" true
     [file_of "o.jsonl" (Sample.noon 7)
        [Decoded (Sample.record "user" "2024-01-01T10:00:00+05:00" "early");
         Decoded (Sample.record "user" "2024-01-01T09:00:00+01:00" "late")]]].

Definition hours (h : Z) : option Z := Some (h * 3600000000).

End SampleZones.

(** The flat export of the demo tree. *)
Module SampleExport.

Definition demo_export : list Extract.flat_entry :=
  [Extract.mk_flat_entry "2024-01-01T12:00:00" "2024-01-01" "12:00"
     Sample.demo_dir (Some "assistant") "second";
   Extract.mk_flat_entry "2024-01-01T10:00:00" "2024-01-01" "10:00"
     Sample.demo_dir (Some "user") "first"].

End SampleExport.

(** ** What a file scan has recorded *)

(** The instants of the entries recorded so far. *)
Definition recorded_instants (d : Analyze.file_data) : list Datetime.datetime :=
  map Analyze.entry_timestamp (Analyze.entries d).

(** The count is the number of entries, and each bound is the instant of a
    recorded entry. *)
Definition scan_consistent (d : Analyze.file_data) : Prop :=
  Analyze.message_count d = Z.of_nat (List.length (Analyze.entries d))
  /\ (forall a, Analyze.first_timestamp d = Some a -> In a (recorded_instants d))
  /\ (forall b, Analyze.last_timestamp d = Some b -> In b (recorded_instants d)).

(** No recorded instant is earlier than the first bound or later than the
    last one. *)
Definition bounds_extremal (d : Analyze.file_data) : Prop :=
  forall a b,
    Analyze.first_timestamp d = Some a -> Analyze.last_timestamp d = Some b ->
    forall t, In t (recorded_instants d) ->
              Datetime.lt t a = Ret false /\ Datetime.gt t b = Ret false.

(** Instants written in one zone form: all naive, or all with the offset
    [z]. *)
Definition in_zone (z : option Z) (l : list Datetime.datetime) : Prop :=
  Forall (fun t => Datetime.tzinfo t = z) l.

(** The same on the clock fields, which decide the order within one zone
    form. *)
Definition extremal_fields (d : Analyze.file_data) : Prop :=
  forall a b,
    Analyze.first_timestamp d = Some a -> Analyze.last_timestamp d = Some b ->
    forall t, In t (recorded_instants d) ->
      Datetime.fields_compare (Datetime.fields t) (Datetime.fields a) <> Lt
      /\ Datetime.fields_compare (Datetime.fields t) (Datetime.fields b) <> Gt.

(** What the scan of a file keeps true line after line. *)
Definition zone_invariant (z : option Z) (d : Analyze.file_data) : Prop :=
  bounds_set d /\ scan_consistent d
  /\ (in_zone z (recorded_instants d) -> extremal_fields d).

(** ** What the project scan reports *)

(** [sum(x['messages'] for x in files)]. *)
Definition sum_messages (l : list Analyze.file_info) : Z :=
  fold_right (fun fi acc => Analyze.messages fi + acc) 0 l.

(** A File Summary as the project loop builds it: within the cutoff, with a
    positive count and both instants. *)
Definition retained_summary (fi : Analyze.file_info) : Prop :=
  Analyze.age_days fi <= Analyze.WEEK_DAYS
  /\ 0 < Analyze.messages fi
  /\ Analyze.first_ts fi <> None /\ Analyze.last_ts fi <> None
  /\ is_naive (Analyze.modified fi).

(** The locals of the project loop account for the files retained so far. *)
Definition acc_accounts (a : Analyze.project_acc) : Prop :=
  Analyze.acc_total_messages a = sum_messages (Analyze.recent_activity a)
  /\ Forall retained_summary (Analyze.recent_activity a)
  /\ (forall e, Analyze.earliest_ts a = Some e ->
        exists fi, In fi (Analyze.recent_activity a) /\ Analyze.first_ts fi = Some e)
  /\ (forall l, Analyze.latest_ts a = Some l ->
        exists fi, In fi (Analyze.recent_activity a) /\ Analyze.last_ts fi = Some l).

(** A reported project: it has files, all retained; its counters are those
    of its files; its activity bounds are instants of its files; its files
    are listed from the most recently modified. *)
Definition project_accounts (p : Analyze.project) : Prop :=
  Analyze.files p <> []
  /\ Analyze.files_count p = Z.of_nat (List.length (Analyze.files p))
  /\ Analyze.total_messages p = sum_messages (Analyze.files p)
  /\ Forall retained_summary (Analyze.files p)
  /\ (forall e, Analyze.earliest_activity p = Some e ->
        exists fi, In fi (Analyze.files p) /\ Analyze.first_ts fi = Some e)
  /\ (forall l, Analyze.latest_activity p = Some l ->
        exists fi, In fi (Analyze.files p) /\ Analyze.last_ts fi = Some l)
  /\ descending Analyze.by_modified (Analyze.files p)
  /\ Analyze.name p = Analyze.get_project_name (Analyze.path p).

(** [sum(p['total_messages'] for p in projects_data)] and
    [sum(p['files_count'] for p in projects_data)], the header figures of
    the report. *)
Definition sum_total_messages (ps : list Analyze.project) : Z :=
  fold_right (fun p acc => Analyze.total_messages p + acc) 0 ps.

Definition sum_files_count (ps : list Analyze.project) : Z :=
  fold_right (fun p acc => Analyze.files_count p + acc) 0 ps.

(** The messages carried by the entries of a chronology. *)
Definition timeline_messages (tl : list Analyze.timeline_entry) : Z :=
  fold_right (fun t acc => Analyze.tl_messages t + acc) 0 tl.

(** An entry the scans pass over: not a directory, or hidden. *)
Definition ignored_entry (d : dir_entry) : Prop :=
  entry_is_dir d = false \/ PyStr.startswith (entry_name d) "." = true.

(** ** Files without anything to report *)

(** A line the summary scan passes over: blank, malformed, or a record
    without an instant. *)
Definition undated_line (l : line) : Prop :=
  l = Blank \/ l = Malformed
  \/ exists e, l = Decoded e /\ Analyze.record_timestamp e = Ret None.

(** A file that cannot be opened, or holds no dated record. *)
Definition no_dated_record (f : log_file) : Prop :=
  match file_lines f with
  | None => True
  | Some ls => Forall undated_line ls
  end.

(** A line the detail scan passes over: blank, malformed, a record without
    an instant, or a dated record whose text is empty after stripping. *)
Definition unexported_line (l : line) : Prop :=
  l = Blank \/ l = Malformed
  \/ exists e, l = Decoded e
       /\ (Extract.record_timestamp e = Ret None
           \/ exists ts c r,
                Extract.record_timestamp e = Ret (Some ts)
                /\ Extract.extract_message_content e = Ret (c, r)
                /\ PyStr.truthy (PyStr.strip c) = false).

Definition no_exported_record (f : log_file) : Prop :=
  match file_lines f with
  | None => True
  | Some ls => Forall unexported_line ls
  end.

(** ** What an entry of the flat export looks like *)

(** The message is not empty, has no whitespace at either end and is at
    most the cap plus the marker long; the role is a user's or an
    assistant's. *)
Definition entry_text_ok (e : Extract.flat_entry) : Prop :=
  Extract.message e <> EmptyString
  /\ PyStr.strip (Extract.message e) = Extract.message e
  /\ PyStr.len (Extract.message e) <= Extract.cap + PyStr.len Extract.marker
  /\ (Extract.role e = Some "user" \/ Extract.role e = Some "assistant").

(** The date and the time of day are slices of the ISO text:
    [datetime[:10]] and [datetime[11:16]]. *)
Definition entry_slices_ok (e : Extract.flat_entry) : Prop :=
  Extract.date e = PyStr.take 10 (Extract.datetime e)
  /\ Extract.time e = PyStr.take 5 (PyStr.drop 11 (Extract.datetime e)).

(** The project label is the display name of a directory of the tree that
    is scanned. *)
Definition entry_project_ok (tree : list dir_entry) (e : Extract.flat_entry)
    : Prop :=
  exists d, In d tree /\ entry_is_dir d = true
            /\ PyStr.startswith (entry_name d) "." = false
            /\ Extract.project e
               = Extract.get_project_name
                   (PyPath.child Extract.PROJECTS_DIR (entry_name d)).

(** ** Files of well-formed records *)

(** The bounds of a file scan are written in the zone form [z]. *)
Definition zone_bounds (z : option Z) (d : Analyze.file_data) : Prop :=
  (forall a, Analyze.first_timestamp d = Some a -> Datetime.tzinfo a = z)
  /\ (forall b, Analyze.last_timestamp d = Some b -> Datetime.tzinfo b = z).

(** The record gives the summary scan the instant [ts]. *)
Definition dated (e : json) (ts : Datetime.datetime) : Prop :=
  Analyze.record_timestamp e = Ret (Some ts).

(** The record gives the detail scan the entry [x] for the project: it has
    an instant and a text that is not blank. *)
Definition exports (project : string) (e : json) (x : Extract.flat_entry) : Prop :=
  exists ts content role,
    Extract.record_timestamp e = Ret (Some ts)
    /\ Extract.extract_message_content e = Ret (content, role)
    /\ PyStr.truthy (PyStr.strip content) = true
    /\ x = Extract.mk_flat_entry (Datetime.isoformat ts)
             (Datetime.strftime_date ts) (Datetime.strftime_time ts)
             project role (PyStr.strip (Extract.truncate content)).

(** ** The figures of the reports *)

(** The messages of all days. *)
Definition sum_days (daily : list (string * Report.day_data)) : Z :=
  fold_right (fun kv acc => Report.total_messages (snd kv) + acc) 0 daily.

(** The entries of all dates. *)
Definition sum_counts (by_date : list (string * Z)) : Z :=
  fold_right (fun kv acc => snd kv + acc) 0 by_date.

(** Days are listed once, each with at least one project and none twice. *)
Definition days_ok (daily : list (string * Report.day_data)) : Prop :=
  NoDup (map fst daily)
  /\ Forall (fun kv => Report.projects (snd kv) <> []
                       /\ NoDup (Report.projects (snd kv))) daily.

(** Dates are listed once, each with at least one entry. *)
Definition dates_ok (by_date : list (string * Z)) : Prop :=
  NoDup (map fst by_date) /\ Forall (fun kv => 1 <= snd kv) by_date.

(** The value a table in insertion order holds for a key. *)
Definition table_lookup {V : Type} (key : string) (table : list (string * V))
    : option V :=
  option_map snd (find (fun kv => String.eqb (fst kv) key) table).

(** The day an entry of the chronology is booked on, and the entries of
    the chronology booked on a day. *)
Definition day_of (item : Analyze.timeline_entry) : string :=
  Datetime.strftime_date (Analyze.tl_timestamp item).

Definition on_day (day : string) (timeline : list Analyze.timeline_entry)
    : list Analyze.timeline_entry :=
  filter (fun item => String.eqb (day_of item) day) timeline.

(** A row of the day table accounts for the entries of its day: the total
    is the sum of their message counts and the projects are theirs. *)
Definition day_accounts (timeline : list Analyze.timeline_entry)
    (kv : string * Report.day_data) : Prop :=
  Report.total_messages (snd kv) = timeline_messages (on_day (fst kv) timeline)
  /\ (forall p, In p (Report.projects (snd kv))
                <-> In p (map Analyze.tl_project (on_day (fst kv) timeline))).

(** What the day table holds for a day, against the entries read so far. *)
Definition day_row_accounts (timeline : list Analyze.timeline_entry)
    (daily : list (string * Report.day_data)) (day : string) : Prop :=
  match table_lookup day daily with
  | None => on_day day timeline = []
  | Some v => on_day day timeline <> [] /\ day_accounts timeline (day, v)
  end.

(** The entries of the flat export with a given date. *)
Definition entries_on (d : string) (entries : list Extract.flat_entry)
    : list Extract.flat_entry :=
  filter (fun e => String.eqb (Extract.date e) d) entries.

(** The count the date table holds for a date, none counting as zero. *)
Definition count_lookup (d : string) (by_date : list (string * Z)) : Z :=
  match table_lookup d by_date with Some n => n | None => 0 end.

(** ** The texts of an instant *)

(** The date part and the time part of the ISO text of a clock. *)
Definition date_text (c : Datetime.clock) : string :=
  PyStr.pad 4 (Datetime.year c) ++ "-" ++ PyStr.pad 2 (Datetime.month c) ++ "-"
  ++ PyStr.pad 2 (Datetime.day c).

Definition fraction_text (us : Z) : string :=
  if us =? 0 then "" else "." ++ PyStr.pad 6 us.

Definition time_text (c : Datetime.clock) : string :=
  PyStr.pad 2 (Datetime.hour c) ++ ":" ++ PyStr.pad 2 (Datetime.minute c) ++ ":"
  ++ PyStr.pad 2 (Datetime.second c) ++ fraction_text (Datetime.microsecond c).

(** The same instant, aware, at UTC. *)
Definition at_utc (c : Datetime.clock) : Datetime.datetime :=
  Datetime.mk_datetime c (Some 0).

(** ** Loops and sorting *)

Section Loops.
Context {S A : Type} (body : A -> stmt S unit).

Lemma for_each_app (xs ys : list A) (s : S) :
  for_each body (xs ++ ys) s =
  match for_each body xs s with
  | (Ret _, s') => for_each body ys s'
  | (Raise e, s') => (Raise e, s')
  end.
Proof.
  revert s. induction xs as [|x xs IH]; intro s; simpl.
  - reflexivity.
  - unfold sbind. destruct (body x s) as [[[]|e] s']; [apply IH | reflexivity].
Qed.

(** A step that returns without touching the accumulator can be left out
    of the loop. *)
Lemma for_each_skip (xs ys : list A) (x : A) :
  (forall s, body x s = (Ret tt, s)) ->
  forall s, for_each body (xs ++ x :: ys) s = for_each body (xs ++ ys) s.
Proof.
  intros Hskip s. rewrite !for_each_app.
  destruct (for_each body xs s) as [[[]|e] s']; [|reflexivity].
  simpl. unfold sbind. rewrite Hskip. reflexivity.
Qed.

(** An invariant of every step, kept or not by a raise, holds after the
    loop. *)
Lemma for_each_invariant (P : S -> Prop) :
  (forall x s, P s -> P (snd (body x s))) ->
  forall xs s, P s -> P (snd (for_each body xs s)).
Proof.
  intros Hstep xs. induction xs as [|x xs IH]; intros s Hs; simpl.
  - exact Hs.
  - unfold sbind. specialize (Hstep x s Hs).
    destruct (body x s) as [[[]|e] s']; simpl in *; auto.
Qed.
End Loops.

Section SortFacts.
Context {A : Type} (lt : A -> A -> outcome bool).

Lemma insert_desc_perm (x : A) (l l' : list A) :
  insert_desc lt x l = Ret l' -> Permutation (x :: l) l'.
Proof.
  revert l'. induction l as [|y ys IH]; simpl; intros l' H.
  - inversion H. apply Permutation_refl.
  - destruct (lt x y) as [[|]|e]; simpl in H; try discriminate.
    + destruct (insert_desc lt x ys) as [r|e]; simpl in H; inversion H.
      eapply perm_trans; [apply perm_swap|]. apply perm_skip, IH. reflexivity.
    + inversion H. apply Permutation_refl.
Qed.

Lemma sort_desc_perm (l l' : list A) :
  sort_desc lt l = Ret l' -> Permutation l l'.
Proof.
  revert l'. induction l as [|x xs IH]; simpl; intros l' H.
  - inversion H. constructor.
  - destruct (sort_desc lt xs) as [r|e]; simpl in H; [|discriminate].
    eapply perm_trans; [apply perm_skip, IH; reflexivity|].
    apply insert_desc_perm, H.
Qed.

Lemma insert_desc_returns (x : A) (l : list A) :
  (forall y, In y l -> exists b, lt x y = Ret b) ->
  exists l', insert_desc lt x l = Ret l'.
Proof.
  induction l as [|y ys IH]; simpl; intro H.
  - eauto.
  - destruct (H y (or_introl eq_refl)) as [b Hb]. rewrite Hb. simpl.
    destruct b; [|eauto].
    destruct IH as [r Hr]; [intros z Hz; apply H; right; exact Hz|].
    rewrite Hr. simpl. eauto.
Qed.

(** The sort completes when every two keys of the list can be compared. *)
Lemma sort_desc_returns (l : list A) :
  (forall x y, In x l -> In y l -> exists b, lt x y = Ret b) ->
  exists l', sort_desc lt l = Ret l'.
Proof.
  induction l as [|x xs IH]; simpl; intro H.
  - eauto.
  - destruct IH as [r Hr]; [intros; apply H; right; assumption|].
    rewrite Hr. simpl. apply insert_desc_returns. intros y Hy.
    apply H; [left; reflexivity|right].
    eapply Permutation_in; [apply Permutation_sym, sort_desc_perm, Hr|exact Hy].
Qed.

Hypothesis lt_asym : forall x y, lt x y = Ret true -> lt y x = Ret false.

Lemma descending_push (y : A) (r : list A) :
  descending lt r ->
  (forall h t, r = h :: t -> lt y h = Ret false) ->
  descending lt (y :: r).
Proof.
  intros Hr Hh. destruct r as [|h t]; constructor; eauto.
Qed.

Lemma insert_desc_descending (x : A) (l l' : list A) :
  descending lt l -> insert_desc lt x l = Ret l' -> descending lt l'.
Proof.
  revert l'. induction l as [|y ys IH]; simpl; intros l' Hl H.
  - inversion H. constructor.
  - destruct (lt x y) as [[|]|e] eqn:Hxy; simpl in H; try discriminate.
    + destruct (insert_desc lt x ys) as [r|e] eqn:Hr; simpl in H; inversion H.
      subst l'. apply descending_push.
      * apply IH; [inversion Hl; subst; [constructor|assumption]|reflexivity].
      * intros h t Heq. subst r. destruct ys as [|z zs]; simpl in Hr.
        -- inversion Hr. subst. apply lt_asym, Hxy.
        -- destruct (lt x z) as [[|]|e]; simpl in Hr; try discriminate.
           ++ destruct (insert_desc lt x zs); simpl in Hr; inversion Hr.
              subst. inversion Hl; assumption.
           ++ inversion Hr. subst. apply lt_asym, Hxy.
    + inversion H. subst. constructor; assumption.
Qed.

(** What the sort returns is in descending order. *)
Lemma sort_desc_descending (l l' : list A) :
  sort_desc lt l = Ret l' -> descending lt l'.
Proof.
  revert l'. induction l as [|x xs IH]; simpl; intros l' H.
  - inversion H. constructor.
  - destruct (sort_desc lt xs) as [r|e]; simpl in H; [|discriminate].
    eapply insert_desc_descending; [apply IH; reflexivity|exact H].
Qed.
End SortFacts.

(** ** Comparing instants and their ISO texts *)

Lemma fields_compare_antisym (a b : Datetime.clock) :
  Datetime.fields_compare b a = CompOpp (Datetime.fields_compare a b).
Proof.
  unfold Datetime.fields_compare.
  rewrite (Z.compare_antisym (Datetime.year a) (Datetime.year b)),
          (Z.compare_antisym (Datetime.month a) (Datetime.month b)),
          (Z.compare_antisym (Datetime.day a) (Datetime.day b)),
          (Z.compare_antisym (Datetime.hour a) (Datetime.hour b)),
          (Z.compare_antisym (Datetime.minute a) (Datetime.minute b)),
          (Z.compare_antisym (Datetime.second a) (Datetime.second b)),
          (Z.compare_antisym (Datetime.microsecond a) (Datetime.microsecond b)).
  destruct (Datetime.year a ?= Datetime.year b); simpl; try reflexivity.
  destruct (Datetime.month a ?= Datetime.month b); simpl; try reflexivity.
  destruct (Datetime.day a ?= Datetime.day b); simpl; try reflexivity.
  destruct (Datetime.hour a ?= Datetime.hour b); simpl; try reflexivity.
  destruct (Datetime.minute a ?= Datetime.minute b); simpl; try reflexivity.
  destruct (Datetime.second a ?= Datetime.second b); simpl; reflexivity.
Qed.

Lemma cmp_antisym (a b : Datetime.datetime) (c : comparison) :
  Datetime.cmp a b = Ret c -> Datetime.cmp b a = Ret (CompOpp c).
Proof.
  unfold Datetime.cmp.
  destruct (Datetime.tzinfo a) as [oa|], (Datetime.tzinfo b) as [ob|];
    try discriminate.
  - rewrite (Z.eqb_sym ob oa). destruct (oa =? ob); intro H;
      injection H as <-.
    + rewrite fields_compare_antisym. reflexivity.
    + rewrite Z.compare_antisym. reflexivity.
  - intro H; inversion H. rewrite fields_compare_antisym. reflexivity.
Qed.

Lemma datetime_lt_asym (a b : Datetime.datetime) :
  Datetime.lt a b = Ret true -> Datetime.lt b a = Ret false.
Proof.
  unfold Datetime.lt. destruct (Datetime.cmp a b) as [c|e] eqn:Hc; [|discriminate].
  rewrite (cmp_antisym a b c Hc). destruct c; simpl; intro H;
    try discriminate; reflexivity.
Qed.

(** Two naive values, or two aware ones, can always be compared. *)
Lemma datetime_lt_returns (a b : Datetime.datetime) :
  (is_naive a /\ is_naive b) \/ (is_aware a /\ is_aware b) ->
  exists r, Datetime.lt a b = Ret r.
Proof.
  unfold is_naive, is_aware, Datetime.lt, Datetime.cmp.
  destruct (Datetime.tzinfo a) as [oa|], (Datetime.tzinfo b) as [ob|];
    intros [[Ha Hb]|[Ha Hb]]; try discriminate; try congruence.
  - destruct (oa =? ob); cbn [obind]; eauto.
  - cbn [obind]; eauto.
Qed.

(** A naive value against an aware one raises. *)
Lemma datetime_lt_mixed (a b : Datetime.datetime) :
  is_naive a -> is_aware b -> Datetime.lt a b = Raise TypeError.
Proof.
  unfold is_naive, is_aware, Datetime.lt, Datetime.cmp.
  intros -> Hb. destruct (Datetime.tzinfo b); [reflexivity|congruence].
Qed.

Lemma string_ltb_asym (a b : string) :
  String.ltb a b = true -> String.ltb b a = false.
Proof.
  unfold String.ltb. rewrite (String.compare_antisym a b).
  destruct (String.compare b a); simpl; intro H; try discriminate; reflexivity.
Qed.

(** ** Display names *)

Lemma split_without_separator (sep : ascii) (s : string) :
  Py.has_char sep s = false -> PyStr.split sep s = [s].
Proof.
  induction s as [|c r IH]; simpl; intro H.
  - reflexivity.
  - apply orb_false_elim in H. destruct H as [Hc Hr].
    rewrite Ascii.eqb_sym, Hc, (IH Hr). reflexivity.
Qed.

(** For every entry of the projects directory both scripts return the name
    of the directory itself: the branch that builds a title never runs on
    a path of the form [PROJECTS_DIR + name]. *)
Lemma project_name_is_directory_name (n : string) :
  Py.has_char "/" n = false ->
  Analyze.get_project_name (PyPath.child Analyze.PROJECTS_DIR n)
  = PyPath.name (PyPath.child Analyze.PROJECTS_DIR n)
  /\ Extract.get_project_name (PyPath.child Extract.PROJECTS_DIR n)
     = PyPath.name (PyPath.child Extract.PROJECTS_DIR n).
Proof.
  intro H.
  assert (Hparts : PyStr.split "/" (PyPath.child Analyze.PROJECTS_DIR n)
                   = [""; "Users"; "larry"; ".claude"; "projects"; n]).
  { unfold PyPath.child, Analyze.PROJECTS_DIR. simpl.
    rewrite (split_without_separator "/" n H). reflexivity. }
  unfold Analyze.get_project_name, Extract.get_project_name.
  change Extract.PROJECTS_DIR with Analyze.PROJECTS_DIR. rewrite Hparts.
  assert (Hin : PyStr.contains [""; "Users"; "larry"; ".claude"; "projects"; n]
                  "-Users-larry" = String.eqb "-Users-larry" n).
  { unfold PyStr.contains. cbn [existsb]. rewrite orb_false_r. reflexivity. }
  rewrite Hin. destruct (String.eqb_spec "-Users-larry" n) as [<-|Hn].
  - split; reflexivity.
  - split; reflexivity.
Qed.

(** C1. The directory [-Users-larry-demo-project] is not given the label
    "Demo Project": both [get_project_name] functions return the directory
    name unchanged, on the path the scans build and on the bare name. *)
Theorem demo_project_display_name :
  Analyze.get_project_name (PyPath.child Analyze.PROJECTS_DIR Sample.demo_dir)
    = "-Users-larry-demo-project"
  /\ Extract.get_project_name (PyPath.child Extract.PROJECTS_DIR Sample.demo_dir)
    = "-Users-larry-demo-project"
  /\ Analyze.get_project_name Sample.demo_dir = "-Users-larry-demo-project"
  /\ Extract.get_project_name Sample.demo_dir = "-Users-larry-demo-project"
  /\ Analyze.get_project_name "/x/-Users-larry/demo-project" = "Demo Project".
Proof. repeat split; reflexivity. Qed.

(** ** The Timestamp Normalizer *)

(** C8. [parse_timestamp] of either script returns a parsed instant or
    [None] on every value it can be handed, and never raises. *)
Theorem parse_timestamp_never_raises (ts_str : json) :
  (Analyze.parse_timestamp ts_str = Ret None
   \/ exists d, Analyze.parse_timestamp ts_str = Ret (Some d))
  /\ (Extract.parse_timestamp ts_str = Ret None
      \/ exists d, Extract.parse_timestamp ts_str = Ret (Some d)).
Proof.
  unfold Analyze.parse_timestamp, Extract.parse_timestamp. split.
  - destruct (obind (Analyze.str_replace ts_str "Z" "+00:00")
                    Datetime.fromisoformat) as [d|e]; eauto.
  - destruct (obind (Analyze.str_replace ts_str "Z" "+00:00")
                (fun replaced =>
                   Datetime.fromisoformat (PyStr.replace "+00:00" "" replaced)))
      as [d|e]; eauto.
Qed.

(** The empty string, text that is no timestamp, and a value that is not a
    string all give [None]; a well-formed timestamp is parsed. *)
Example parse_timestamp_samples :
  Analyze.parse_timestamp (JStr "") = Ret None
  /\ Extract.parse_timestamp (JStr "yesterday at noon") = Ret None
  /\ Analyze.parse_timestamp (JInt 5) = Ret None
  /\ Extract.parse_timestamp JNull = Ret None
  /\ Analyze.parse_timestamp (JStr "2024-01-01T10:00:00Z")
     = Ret (Some (Sample.instant 2024 1 1 10 0 0 (Some 0)))
  /\ Extract.parse_timestamp (JStr "2024-01-01T10:00:00Z")
     = Ret (Some (Sample.instant 2024 1 1 10 0 0 None)).
Proof. repeat split; reflexivity. Qed.

(** ** Which timestamp field a scan reads *)

(** C4, as stated, fails for the detail pipeline: on a record with both
    fields extract.py reads the top-level timestamp, not the snapshot one. *)
Lemma detail_scan_reads_top_level_timestamp :
  Extract.record_timestamp Sample.two_stamps
    = Ret (Some (Sample.instant 2024 1 2 0 0 0 None))
  /\ Extract.parse_timestamp (JStr "2024-01-01T00:00:00")
    = Ret (Some (Sample.instant 2024 1 1 0 0 0 None))
  /\ Extract.record_timestamp Sample.two_stamps
     <> Extract.parse_timestamp (JStr "2024-01-01T00:00:00").
Proof. repeat split; try reflexivity. discriminate. Qed.

(** C4, amended. On a record with a snapshot timestamp and a top-level one,
    both non-empty, the summary scan uses the snapshot value and the detail
    scan uses the top-level value; each falls back to the other field when
    its preferred one is missing.  For the summary scan the snapshot value
    is missing when the record has no [snapshot] at all ([snapshot] is
    [None]) and when its snapshot object has no timestamp. *)
Theorem timestamp_field_priority
    (fields : list (string * json)) (snapshot : option (list (string * json)))
    (nested top : option json) :
  Py.lookup "snapshot" fields = option_map JDict snapshot ->
  nested = match snapshot with
           | Some snap => Py.lookup "timestamp" snap
           | None => None
           end ->
  Py.lookup "timestamp" fields = top ->
  (forall n t, nested = Some n -> top = Some t ->
     Py.truthy n = true -> Py.truthy t = true ->
     Analyze.record_timestamp (JDict fields) = Analyze.parse_timestamp n
     /\ Extract.record_timestamp (JDict fields) = Extract.parse_timestamp t)
  /\ (forall t, nested = None -> top = Some t ->
        Analyze.record_timestamp (JDict fields) = Analyze.parse_timestamp t)
  /\ (forall n, top = None -> nested = Some n ->
        Extract.record_timestamp (JDict fields) = Extract.parse_timestamp n).
Proof.
  intros Hsnap -> <-.
  unfold Analyze.record_timestamp, Extract.record_timestamp,
    Analyze.timestamp_field, Extract.timestamp_field, Py.or_else.
  cbn [Py.get obind]. rewrite Hsnap.
  destruct snapshot as [snap|]; cbn [option_map Py.get obind Py.lookup].
  - split; [|split].
    + intros n t Hn Ht Tn Tt. rewrite Hn, Ht. cbn [obind]. rewrite Tn, Tt.
      split; reflexivity.
    + intros t Hn Ht. rewrite Hn, Ht. reflexivity.
    + intros n Ht Hn. rewrite Hn, Ht. reflexivity.
  - split; [|split].
    + intros n t Hn. discriminate Hn.
    + intros t _ Ht. rewrite Ht. reflexivity.
    + intros n _ Hn. discriminate Hn.
Qed.

Lemma timestamp_field_priority_witness :
  (Analyze.record_timestamp Sample.two_stamps
     = Analyze.parse_timestamp (JStr "2024-01-01T00:00:00")
   /\ Extract.record_timestamp Sample.two_stamps
     = Extract.parse_timestamp (JStr "2024-01-02T00:00:00"))
  /\ Analyze.record_timestamp
       (Sample.record "user" "2024-01-02T00:00:00" "hello")
     = Analyze.parse_timestamp (JStr "2024-01-02T00:00:00").
Proof.
  split.
  - refine (proj1 (timestamp_field_priority
              [("type", JStr "user");
               ("timestamp", JStr "2024-01-02T00:00:00");
               ("snapshot", JDict [("timestamp", JStr "2024-01-01T00:00:00")]);
               ("message", JDict [("content", JStr "hello")])]
              (Some [("timestamp", JStr "2024-01-01T00:00:00")])
              (Some (JStr "2024-01-01T00:00:00"))
              (Some (JStr "2024-01-02T00:00:00"))
              eq_refl eq_refl eq_refl)
            (JStr "2024-01-01T00:00:00") (JStr "2024-01-02T00:00:00")
            eq_refl eq_refl eq_refl eq_refl).
  - refine (proj1 (proj2 (timestamp_field_priority
              [("type", JStr "user");
               ("timestamp", JStr "2024-01-02T00:00:00");
               ("message", JDict [("content", JStr "hello")])]
              None None (Some (JStr "2024-01-02T00:00:00"))
              eq_refl eq_refl eq_refl))
            (JStr "2024-01-02T00:00:00") eq_refl eq_refl).
Defined.

(** ** Reading a file *)

(** However the iteration over the lines ends, the per-file handler leaves
    the scan of a file with what the lines read have given. *)
Lemma analyze_jsonl_file_lines (f : log_file) :
  Analyze.analyze_jsonl_file f
  = snd (try_except_all
           (sbind (lift (Analyze.open_lines f))
                  (fun lines => for_each Analyze.scan_line lines))
           (sret tt) Analyze.empty_data).
Proof.
  unfold Analyze.analyze_jsonl_file, try_except_all, sbind, lift,
    Analyze.open_lines, Analyze.end_of_lines, sret.
  destruct (file_lines f) as [ls|]; [|reflexivity].
  destruct (for_each Analyze.scan_line ls Analyze.empty_data) as [[[]|e] s'];
    destruct (file_end f); reflexivity.
Qed.

Lemma detail_scan_file_lines (project : string) (f : log_file)
    (s : list Extract.flat_entry) :
  Extract.scan_file project f s
  = try_except_all
      (sbind (lift (Analyze.open_lines f))
             (fun lines => for_each (Extract.scan_line project) lines))
      (sret tt) s.
Proof.
  unfold Extract.scan_file, try_except_all, sbind, lift,
    Analyze.open_lines, Analyze.end_of_lines, sret.
  destruct (file_lines f) as [ls|]; [|reflexivity].
  destruct (for_each (Extract.scan_line project) ls s) as [[[]|e] s'];
    destruct (file_end f); reflexivity.
Qed.

(** ** Lines that a file scan passes over *)

Lemma summary_scan_skips_malformed (data : Analyze.file_data) :
  Analyze.scan_line Malformed data = (Ret tt, data).
Proof. reflexivity. Qed.

Lemma detail_scan_skips_malformed (project : string)
    (all_entries : list Extract.flat_entry) :
  Extract.scan_line project Malformed all_entries = (Ret tt, all_entries).
Proof. reflexivity. Qed.

Lemma summary_scan_skips_undated (e : json) (data : Analyze.file_data) :
  Analyze.record_timestamp e = Ret None ->
  Analyze.scan_line (Decoded e) data = (Ret tt, data).
Proof.
  intro H. unfold Analyze.scan_line, try_except, sbind, lift. simpl.
  rewrite H. reflexivity.
Qed.

Lemma detail_scan_skips_undated (e : json) (project : string)
    (all_entries : list Extract.flat_entry) :
  Extract.record_timestamp e = Ret None ->
  Extract.scan_line project (Decoded e) all_entries = (Ret tt, all_entries).
Proof.
  intro H. unfold Extract.scan_line, try_except, sbind, lift. simpl.
  rewrite H. reflexivity.
Qed.

(** A record whose timestamp expression gives no instant, by returning
    [None] or by raising, leaves the accumulator of the scan as it was. *)
Lemma summary_scan_keeps_data (e : json) (data : Analyze.file_data) :
  (forall t, Analyze.record_timestamp e <> Ret (Some t)) ->
  snd (Analyze.scan_line (Decoded e) data) = data.
Proof.
  intro H. unfold Analyze.scan_line, try_except, sbind, lift. simpl.
  destruct (Analyze.record_timestamp e) as [[t|]|err].
  - exfalso. apply (H t). reflexivity.
  - reflexivity.
  - simpl. destruct (exn_isinstance err JSONDecodeError); reflexivity.
Qed.

Lemma detail_scan_keeps_entries (e : json) (project : string)
    (all_entries : list Extract.flat_entry) :
  (forall t, Extract.record_timestamp e <> Ret (Some t)) ->
  snd (Extract.scan_line project (Decoded e) all_entries) = all_entries.
Proof.
  intro H. unfold Extract.scan_line, try_except, sbind, lift. simpl.
  destruct (Extract.record_timestamp e) as [[t|]|err].
  - exfalso. apply (H t). reflexivity.
  - reflexivity.
  - simpl. destruct (exn_isinstance err JSONDecodeError),
      (exn_isinstance err KeyError), (exn_isinstance err ValueError);
      reflexivity.
Qed.

(** Leaving out a line that the loop body passes over changes no scan. *)
Lemma summary_file_scan_skip (l : line) (pre post : list line)
    (n : string) (mtime : Datetime.clock) :
  (forall data, Analyze.scan_line l data = (Ret tt, data)) ->
  Analyze.analyze_jsonl_file (file_of n mtime (pre ++ l :: post))
  = Analyze.analyze_jsonl_file (file_of n mtime (pre ++ post)).
Proof.
  intro H. rewrite !analyze_jsonl_file_lines. unfold try_except_all, sbind, lift.
  simpl. rewrite (for_each_skip Analyze.scan_line pre post l H). reflexivity.
Qed.

Lemma detail_file_scan_skip (l : line) (pre post : list line)
    (n : string) (mtime : Datetime.clock) (project : string)
    (all_entries : list Extract.flat_entry) :
  (forall s, Extract.scan_line project l s = (Ret tt, s)) ->
  Extract.scan_file project (file_of n mtime (pre ++ l :: post)) all_entries
  = Extract.scan_file project (file_of n mtime (pre ++ post)) all_entries.
Proof.
  intro H. rewrite !detail_scan_file_lines. unfold try_except_all, sbind, lift.
  simpl. rewrite (for_each_skip (Extract.scan_line project) pre post l H).
  reflexivity.
Qed.

(** C2. The per-line handlers miss the exceptions of field extraction: on
    a file of three lines whose second line decodes to a list, [entry.get]
    raises [AttributeError], which is caught only by the handler of the
    file.  The scan of the file ends there in both pipelines, and the
    record after the bad line is not counted and not exported, while
    without the bad line both records are. *)
Theorem line_failing_field_extraction_ends_the_scan :
  let bad := [SampleLines.first; SampleLines.not_an_object; SampleLines.second] in
  let good := [SampleLines.first; SampleLines.second] in
  Analyze.record_timestamp (JList []) = Raise AttributeError
  /\ Analyze.message_count
       (Analyze.analyze_jsonl_file (file_of "a.jsonl" (Sample.noon 1) bad)) = 1
  /\ Analyze.message_count
       (Analyze.analyze_jsonl_file (file_of "a.jsonl" (Sample.noon 1) good)) = 2
  /\ map Extract.message
       (snd (Extract.scan_file "p" (file_of "a.jsonl" (Sample.noon 1) bad) []))
     = ["first"]
  /\ map Extract.message
       (snd (Extract.scan_file "p" (file_of "a.jsonl" (Sample.noon 1) good) []))
     = ["first"; "second"].
Proof. repeat split; reflexivity. Qed.

(** X23. In a file that is read to its end, a line that fails structural
    decoding is passed over by the file scan of both pipelines wherever it
    stands: the scan of the file is the scan of the file without that
    line. *)
Theorem malformed_line_is_skipped (pre post : list line) (n : string)
    (mtime : Datetime.clock) (project : string)
    (all_entries : list Extract.flat_entry) :
  Analyze.analyze_jsonl_file (file_of n mtime (pre ++ Malformed :: post))
  = Analyze.analyze_jsonl_file (file_of n mtime (pre ++ post))
  /\ Extract.scan_file project (file_of n mtime (pre ++ Malformed :: post))
       all_entries
     = Extract.scan_file project (file_of n mtime (pre ++ post)) all_entries.
Proof.
  split.
  - apply summary_file_scan_skip, summary_scan_skips_malformed.
  - apply detail_file_scan_skip, detail_scan_skips_malformed.
Qed.

(** ** Records without an instant *)

(** A record with neither timestamp field has no instant. *)
Lemma missing_timestamp_fields (fields : list (string * json)) :
  Py.lookup "timestamp" fields = None ->
  Py.lookup "snapshot" fields = None ->
  Analyze.record_timestamp (JDict fields) = Ret None
  /\ Extract.record_timestamp (JDict fields) = Ret None.
Proof.
  intros Ht Hs.
  unfold Analyze.record_timestamp, Extract.record_timestamp,
    Analyze.timestamp_field, Extract.timestamp_field, Py.or_else.
  simpl. rewrite Ht, Hs. split; reflexivity.
Qed.

(** C9. A record whose timestamp fields are missing or unparsable changes
    no statistic of the summary scan (entries, count, first and last
    instant) and adds no entry to the flat export: the accumulators are the
    same after the record as before it, and the scan of a file is the scan
    of the file without the record. *)
Theorem record_without_instant_contributes_nothing (e : json) :
  ((forall t, Analyze.record_timestamp e <> Ret (Some t)) ->
   forall data, snd (Analyze.scan_line (Decoded e) data) = data)
  /\ ((forall t, Extract.record_timestamp e <> Ret (Some t)) ->
      forall project all_entries,
        snd (Extract.scan_line project (Decoded e) all_entries) = all_entries)
  /\ (Analyze.record_timestamp e = Ret None ->
      forall pre post n mtime,
        Analyze.analyze_jsonl_file (file_of n mtime (pre ++ Decoded e :: post))
        = Analyze.analyze_jsonl_file (file_of n mtime (pre ++ post)))
  /\ (Extract.record_timestamp e = Ret None ->
      forall pre post n mtime project all_entries,
        Extract.scan_file project (file_of n mtime (pre ++ Decoded e :: post))
          all_entries
        = Extract.scan_file project (file_of n mtime (pre ++ post)) all_entries).
Proof.
  repeat split.
  - intros H data. apply summary_scan_keeps_data, H.
  - intros H project all_entries. apply detail_scan_keeps_entries, H.
  - intros H pre post n mtime. apply summary_file_scan_skip.
    intro data. apply summary_scan_skips_undated, H.
  - intros H pre post n mtime project all_entries. apply detail_file_scan_skip.
    intro s. apply detail_scan_skips_undated, H.
Qed.

Lemma record_without_instant_witness :
  (Analyze.analyze_jsonl_file
     (file_of "a.jsonl" (Sample.noon 1)
        ([SampleLines.first] ++ Decoded SampleLines.undated :: [SampleLines.second]))
   = Analyze.analyze_jsonl_file
       (file_of "a.jsonl" (Sample.noon 1)
          ([SampleLines.first] ++ [SampleLines.second])))
  /\ (Extract.scan_file "p"
        (file_of "a.jsonl" (Sample.noon 1)
           ([SampleLines.first] ++ Decoded SampleLines.misdated :: [SampleLines.second]))
        []
      = Extract.scan_file "p"
          (file_of "a.jsonl" (Sample.noon 1)
             ([SampleLines.first] ++ [SampleLines.second])) [])
  /\ snd (Analyze.scan_line (Decoded SampleLines.misdated) Analyze.empty_data)
     = Analyze.empty_data
  /\ snd (Extract.scan_line "p" (Decoded SampleLines.undated) []) = [].
Proof.
  split; [|split; [|split]].
  - apply (proj1 (proj2 (proj2
      (record_without_instant_contributes_nothing SampleLines.undated)))).
    reflexivity.
  - apply (proj2 (proj2 (proj2
      (record_without_instant_contributes_nothing SampleLines.misdated)))).
    reflexivity.
  - apply (proj1 (record_without_instant_contributes_nothing SampleLines.misdated)).
    intros t H. discriminate H.
  - apply (proj1 (proj2
      (record_without_instant_contributes_nothing SampleLines.undated))).
    intros t H. discriminate H.
Defined.

(** ** Truncation in the flat export *)

Lemma length_append (s t : string) :
  String.length (s ++ t) = (String.length s + String.length t)%nat.
Proof. induction s as [|c r IH]; simpl; [reflexivity|rewrite IH; reflexivity]. Qed.

Lemma length_take (n : nat) (s : string) :
  (n <= String.length s)%nat -> String.length (PyStr.take n s) = n.
Proof.
  revert s. induction n as [|k IH]; intros s H.
  - destruct s; reflexivity.
  - destruct s as [|c r]; simpl in *; [lia|]. rewrite IH; lia.
Qed.

Lemma lstrip_append (s m : string) (c : ascii) (r : string) :
  m = String c r -> PyStr.is_space c = false ->
  PyStr.lstrip (s ++ m) = PyStr.lstrip s ++ m.
Proof.
  intros -> Hc. induction s as [|a s' IH]; simpl.
  - rewrite Hc. reflexivity.
  - destruct (PyStr.is_space a); [exact IH|reflexivity].
Qed.

Lemma rstrip_append (s m : string) :
  m <> EmptyString -> PyStr.rstrip m = m -> PyStr.rstrip (s ++ m) = s ++ m.
Proof.
  intros Hm Hr. induction s as [|a s' IH]; simpl.
  - exact Hr.
  - rewrite IH. destruct (s' ++ m) eqn:E; [|reflexivity].
    destruct s'; simpl in E; [contradiction|discriminate].
Qed.

Lemma lstrip_take_keep (n : nat) (c : ascii) (r : string) :
  (0 < n)%nat -> PyStr.is_space c = false ->
  PyStr.lstrip (PyStr.take n (String c r)) = PyStr.take n (String c r).
Proof.
  destruct n as [|k]; [lia|]. intros _ Hc. simpl. rewrite Hc. reflexivity.
Qed.

Lemma strip_before_marker (s : string) :
  PyStr.strip (s ++ Extract.marker) = PyStr.lstrip s ++ Extract.marker.
Proof.
  unfold PyStr.strip.
  rewrite (lstrip_append s Extract.marker "." "..[truncated]" eq_refl eq_refl).
  apply rstrip_append; [discriminate|reflexivity].
Qed.

(** C3, as stated, fails for a text that starts with whitespace: the body
    is cut to 10000 characters first and stripped afterwards, so the entry
    is shorter than the cap plus the marker. *)
Lemma truncation_strips_leading_whitespace :
  Extract.extract_message_content SampleText.indented_record
    = Ret (SampleText.indented_text, Some "user")
  /\ PyStr.len SampleText.indented_text = 10001
  /\ map Extract.message
       (snd (Extract.scan_line "p" (Decoded SampleText.indented_record) []))
     = [repeat_char "a" (Z.to_nat 9999) ++ Extract.marker]
  /\ map (fun e => PyStr.len (Extract.message e))
       (snd (Extract.scan_line "p" (Decoded SampleText.indented_record) []))
     = [10013]
  /\ repeat_char "a" (Z.to_nat 9999) ++ Extract.marker
     <> PyStr.take (Z.to_nat Extract.cap) SampleText.indented_text ++ Extract.marker.
Proof.
  split; [vm_compute; reflexivity|].
  split; [vm_compute; reflexivity|].
  split; [vm_compute; reflexivity|].
  split; [vm_compute; reflexivity|].
  intro H. apply (f_equal PyStr.len) in H. vm_compute in H. discriminate H.
Qed.

(** C3, amended. A record with an instant whose extracted text is longer
    than 10000 characters and not blank gives one entry; its message is the
    first 10000 characters, leading whitespace removed, followed by the
    marker.  When the text does not start with whitespace the message is
    the first 10000 characters followed by the marker, 10014 characters. *)
Theorem truncated_message (entry : json) (project : string)
    (ts : Datetime.datetime) (content : string) (role : option string)
    (all_entries : list Extract.flat_entry) :
  Extract.record_timestamp entry = Ret (Some ts) ->
  Extract.extract_message_content entry = Ret (content, role) ->
  PyStr.len content > Extract.cap ->
  PyStr.truthy (PyStr.strip content) = true ->
  exists e,
    Extract.scan_line project (Decoded entry) all_entries
      = (Ret tt, (all_entries ++ [e])%list)
    /\ Extract.message e
       = PyStr.lstrip (PyStr.take (Z.to_nat Extract.cap) content) ++ Extract.marker
    /\ (forall c r, content = String c r -> PyStr.is_space c = false ->
          Extract.message e
            = PyStr.take (Z.to_nat Extract.cap) content ++ Extract.marker
          /\ PyStr.len (Extract.message e)
             = Extract.cap + PyStr.len Extract.marker).
Proof.
  intros Hts Hext Hlen Hstrip.
  assert (Hne : PyStr.truthy content = true).
  { destruct content; [discriminate Hstrip|reflexivity]. }
  assert (Hcut : Extract.truncate content
                 = PyStr.take (Z.to_nat Extract.cap) content ++ Extract.marker).
  { unfold Extract.truncate.
    destruct (PyStr.len content >? Extract.cap) eqn:E; [reflexivity|lia]. }
  exists (Extract.mk_flat_entry (Datetime.isoformat ts)
            (Datetime.strftime_date ts) (Datetime.strftime_time ts)
            project role (PyStr.strip (Extract.truncate content))).
  split; [|split].
  - unfold Extract.scan_line, try_except, sbind, lift, modify.
    cbn [line_strip_truthy negb json_loads].
    rewrite Hts, Hext, Hne, Hstrip. reflexivity.
  - cbn [Extract.message]. rewrite Hcut. apply strip_before_marker.
  - intros c r Hcontent Hc. cbn [Extract.message].
    rewrite Hcut, strip_before_marker, Hcontent.
    rewrite (lstrip_take_keep (Z.to_nat Extract.cap) c r);
      [|unfold Extract.cap; lia|exact Hc].
    split; [reflexivity|].
    unfold PyStr.len in *. rewrite length_append, length_take.
    + rewrite Nat2Z.inj_add, Z2Nat.id; [reflexivity|discriminate].
    + apply Nat2Z.inj_le. rewrite Z2Nat.id; [|discriminate].
      rewrite <- Hcontent. lia.
Qed.

Lemma truncated_message_witness :
  exists e,
    Extract.scan_line "p" (Decoded SampleText.long_record) []
      = (Ret tt, ([] ++ [e])%list)
    /\ Extract.message e
       = PyStr.lstrip (PyStr.take (Z.to_nat Extract.cap) SampleText.long_text)
         ++ Extract.marker
    /\ (forall c r, SampleText.long_text = String c r ->
          PyStr.is_space c = false ->
          Extract.message e
            = PyStr.take (Z.to_nat Extract.cap) SampleText.long_text
              ++ Extract.marker
          /\ PyStr.len (Extract.message e)
             = Extract.cap + PyStr.len Extract.marker).
Proof.
  apply (truncated_message SampleText.long_record "p"
           (Sample.instant 2024 1 1 10 0 0 None) SampleText.long_text
           (Some "user") []).
  - reflexivity.
  - vm_compute; reflexivity.
  - vm_compute; reflexivity.
  - vm_compute; reflexivity.
Defined.

(** ** The bounds kept by the summary scan *)

Lemma scan_line_bounds (l : line) (s : Analyze.file_data) :
  bounds_set s -> bounds_set (snd (Analyze.scan_line l s)).
Proof.
  intro Hs. destruct l as [| |e]; try exact Hs.
  unfold Analyze.scan_line, try_except, sbind, lift, modify, get, sret. simpl.
  destruct (Analyze.record_timestamp e) as [[ts|]|err]; simpl.
  2: exact Hs.
  2: { destruct (exn_isinstance err JSONDecodeError); exact Hs. }
  destruct (Py.get e "type" (JStr "unknown")) as [ty|err]; simpl.
  2: { destruct (exn_isinstance err JSONDecodeError); exact Hs. }
  destruct (Py.get e "messageId" (JStr "")) as [mid|err]; simpl.
  2: { destruct (exn_isinstance err JSONDecodeError); exact Hs. }
  destruct s as [es f l c]. unfold bounds_set in *. simpl in *.
  destruct Hs as [(-> & -> & ->)|(Hf & Hl & Hc)]; simpl.
  - right. repeat split; try discriminate.
  - destruct f as [f|]; [|congruence]. destruct l as [l|]; [|congruence]. simpl.
    right.
    destruct (Datetime.lt ts f) as [[|]|err]; simpl;
      try (destruct (exn_isinstance err JSONDecodeError); simpl);
      try (destruct (Datetime.gt ts l) as [[|]|err']; simpl);
      try (destruct (exn_isinstance err' JSONDecodeError); simpl);
      repeat split; try discriminate; lia.
Qed.

Lemma analyze_jsonl_file_bounds (f : log_file) :
  bounds_set (Analyze.analyze_jsonl_file f).
Proof.
  assert (H0 : bounds_set Analyze.empty_data) by (left; repeat split).
  rewrite !analyze_jsonl_file_lines. unfold try_except_all, sbind, lift, Analyze.open_lines.
  destruct (file_lines f) as [ls|]; simpl; [|exact H0].
  pose proof (for_each_invariant Analyze.scan_line bounds_set scan_line_bounds
                ls Analyze.empty_data H0) as H.
  destruct (for_each Analyze.scan_line ls Analyze.empty_data) as [[[]|e] s'];
    exact H.
Qed.

(** A file with a positive message count has a first and a last instant. *)
Lemma counted_file_has_bounds (f : log_file) :
  Analyze.message_count (Analyze.analyze_jsonl_file f) > 0 ->
  exists a b,
    Analyze.first_timestamp (Analyze.analyze_jsonl_file f) = Some a
    /\ Analyze.last_timestamp (Analyze.analyze_jsonl_file f) = Some b.
Proof.
  intro Hpos. destruct (analyze_jsonl_file_bounds f) as [(_ & _ & H0)|(Hf & Hl & _)].
  - lia.
  - destruct (Analyze.first_timestamp (Analyze.analyze_jsonl_file f)) as [a|];
      [|congruence].
    destruct (Analyze.last_timestamp (Analyze.analyze_jsonl_file f)) as [b|];
      [|congruence].
    eauto.
Qed.

Lemma merge_bound_present (rel : Datetime.datetime -> Datetime.datetime -> outcome bool)
    (c : Datetime.datetime) (current r : option Datetime.datetime) :
  Analyze.merge_bound rel (Some c) current = Ret r -> r <> None.
Proof.
  unfold Analyze.merge_bound, Analyze.unset_or.
  destruct current as [o|]; simpl.
  - destruct (rel c o) as [[|]|e]; simpl; intro H; inversion H; discriminate.
  - intro H; inversion H; discriminate.
Qed.

Lemma fold_outcome_invariant {A B : Type} (f : B -> A -> outcome B)
    (P : B -> Prop) :
  (forall b x b', P b -> f b x = Ret b' -> P b') ->
  forall xs b b', P b -> fold_outcome f xs b = Ret b' -> P b'.
Proof.
  intros Hstep xs. induction xs as [|x xs IH]; simpl; intros b b' Hb H.
  - inversion H. subst. exact Hb.
  - destruct (f b x) as [b1|e] eqn:E; simpl in H; [|discriminate].
    eapply IH; [eapply Hstep; eassumption|exact H].
Qed.

Lemma scan_file_bounds (now : Datetime.clock) (acc acc' : Analyze.project_acc)
    (f : log_file) :
  acc_bounds_set acc -> Analyze.scan_file now acc f = Ret acc' ->
  acc_bounds_set acc'.
Proof.
  intros Hacc. unfold Analyze.scan_file, Analyze.get_file_age_days, Analyze.getmtime.
  destruct (file_mtime f) as [mtime|];
    cbn [obind fst snd Datetime.fields Datetime.naive]; [|discriminate].
  destruct (Datetime.days_between now mtime <=? Analyze.WEEK_DAYS);
    [|intro H; inversion H; subst; exact Hacc].
  destruct (Analyze.message_count (Analyze.analyze_jsonl_file f) >? 0) eqn:Hpos;
    [|intro H; inversion H; subst; exact Hacc].
  destruct (counted_file_has_bounds f) as (a & b & Ha & Hb);
    [apply Z.gtb_lt in Hpos; lia|].
  rewrite Ha, Hb.
  destruct (Analyze.merge_bound Datetime.lt (Some a) (Analyze.earliest_ts acc))
    as [e1|err] eqn:E1; cbn [obind]; [|discriminate].
  destruct (Analyze.merge_bound Datetime.gt (Some b) (Analyze.latest_ts acc))
    as [l1|err] eqn:E2; cbn [obind]; [|discriminate].
  intro H; inversion H; subst. right. simpl. split.
  - eapply merge_bound_present, E1.
  - eapply merge_bound_present, E2.
Qed.

Lemma scan_project_activity (now : Datetime.clock) (ps ps' : list Analyze.project)
    (d : dir_entry) :
  Forall has_activity ps -> Analyze.scan_project now ps d = Ret ps' ->
  Forall has_activity ps'.
Proof.
  intros Hps. unfold Analyze.scan_project.
  destruct (entry_is_dir d && negb (PyStr.startswith (entry_name d) "."));
    [|intro H; inversion H; subst; exact Hps].
  destruct (fold_outcome (Analyze.scan_file now) (Analyze.all_files d)
              Analyze.empty_acc) as [acc|e] eqn:E; simpl; [|discriminate].
  assert (Hacc : acc_bounds_set acc).
  { eapply (fold_outcome_invariant (Analyze.scan_file now) acc_bounds_set);
      [intros; eapply scan_file_bounds; eassumption| |exact E].
    left. reflexivity. }
  destruct (Analyze.recent_activity acc) as [|fi rest] eqn:Hra;
    [intro H; inversion H; subst; exact Hps|].
  destruct (sort_desc Analyze.by_modified (fi :: rest)) as [sorted|e];
    simpl; [|discriminate].
  intro H; inversion H; subst. apply Forall_app. split; [exact Hps|].
  constructor; [|constructor].
  destruct Hacc as [Hnil|[He Hl]]; [congruence|].
  unfold has_activity, Analyze.latest_or_min. simpl.
  destruct (Analyze.earliest_ts acc) as [e1|]; [|congruence].
  destruct (Analyze.latest_ts acc) as [l1|]; [|congruence].
  eauto.
Qed.

(** C10. Every project in the output of the summary scan has an earliest
    and a latest activity instant, so the key of the final sort is the
    latest activity itself and never [datetime.min]; this holds for the
    list handed to the sort and for the sorted list the scan returns. *)
Theorem included_projects_have_activity (tree : list dir_entry)
    (now : Datetime.clock) :
  (forall ps, Analyze.collect_projects tree now = Ret ps ->
              Forall has_activity ps)
  /\ (forall ps, Analyze.scan_all_projects tree now = Ret ps ->
                 Forall has_activity ps).
Proof.
  assert (Hc : forall ps, Analyze.collect_projects tree now = Ret ps ->
                          Forall has_activity ps).
  { intros ps H. unfold Analyze.collect_projects in H.
    eapply (fold_outcome_invariant (Analyze.scan_project now)
              (Forall has_activity));
      [intros; eapply scan_project_activity; eassumption| |exact H].
    constructor. }
  split; [exact Hc|].
  intros ps H. unfold Analyze.scan_all_projects in H.
  destruct (Analyze.collect_projects tree now) as [ps0|e] eqn:E; simpl in H;
    [|discriminate].
  apply Forall_forall. intros p Hp.
  pose proof (Hc ps0 eq_refl) as H0. rewrite Forall_forall in H0. apply H0.
  eapply Permutation_in;
    [apply Permutation_sym, (sort_desc_perm Analyze.by_latest_activity), H|exact Hp].
Qed.

Lemma included_projects_witness :
  exists ps, Analyze.scan_all_projects (SampleTree.demo 1) Sample.now = Ret ps
             /\ List.length ps = 1%nat /\ Forall has_activity ps.
Proof.
  eexists. split; [vm_compute; reflexivity|]. split; [reflexivity|].
  apply (proj2 (included_projects_have_activity (SampleTree.demo 1) Sample.now)).
  vm_compute; reflexivity.
Defined.

(** ** The age cutoff *)

(** A file older than the cutoff is passed over by the project loop. *)
Lemma scan_file_excluded (now : Datetime.clock) (acc : Analyze.project_acc)
    (f : log_file) (age : Z) (file_date : Datetime.datetime) :
  Analyze.get_file_age_days now f = Ret (age, file_date) ->
  Analyze.WEEK_DAYS < age ->
  Analyze.scan_file now acc f = Ret acc.
Proof.
  intros Hstat H. unfold Analyze.scan_file. rewrite Hstat. cbn [obind].
  destruct (age <=? Analyze.WEEK_DAYS) eqn:E;
    [apply Z.leb_le in E; lia|reflexivity].
Qed.

(** A file within the cutoff with a positive count is appended to
    [recent_activity] whenever the loop body returns. *)
Lemma scan_file_retained (now : Datetime.clock) (acc acc' : Analyze.project_acc)
    (f : log_file) (age : Z) (file_date : Datetime.datetime) :
  Analyze.get_file_age_days now f = Ret (age, file_date) ->
  age <= Analyze.WEEK_DAYS ->
  Analyze.message_count (Analyze.analyze_jsonl_file f) > 0 ->
  Analyze.scan_file now acc f = Ret acc' ->
  Analyze.recent_activity acc'
  = (Analyze.recent_activity acc
     ++ [Analyze.mk_file_info (file_name f) age file_date
           (Analyze.message_count (Analyze.analyze_jsonl_file f))
           (Analyze.first_timestamp (Analyze.analyze_jsonl_file f))
           (Analyze.last_timestamp (Analyze.analyze_jsonl_file f))])%list.
Proof.
  intros Hstat Hage Hpos. unfold Analyze.scan_file. rewrite Hstat. cbn [obind].
  destruct (age <=? Analyze.WEEK_DAYS) eqn:E;
    [|apply Z.leb_gt in E; lia].
  destruct (Analyze.message_count (Analyze.analyze_jsonl_file f) >? 0) eqn:P;
    [|rewrite Z.gtb_ltb in P; apply Z.ltb_ge in P; lia].
  destruct (Analyze.merge_bound Datetime.lt
              (Analyze.first_timestamp (Analyze.analyze_jsonl_file f))
              (Analyze.earliest_ts acc)) as [e1|err]; cbn [obind]; [|discriminate].
  destruct (Analyze.merge_bound Datetime.gt
              (Analyze.last_timestamp (Analyze.analyze_jsonl_file f))
              (Analyze.latest_ts acc)) as [l1|err]; cbn [obind]; [|discriminate].
  intro H; inversion H. reflexivity.
Qed.

(** On the first file of a project the loop body returns whenever the
    modification time of the file can be read. *)
Lemma scan_file_first_returns (now : Datetime.clock) (f : log_file)
    (aged : Z * Datetime.datetime) :
  Analyze.get_file_age_days now f = Ret aged ->
  exists acc', Analyze.scan_file now Analyze.empty_acc f = Ret acc'.
Proof.
  intro Hstat. unfold Analyze.scan_file. rewrite Hstat. cbn [obind].
  destruct aged as [age file_date].
  destruct (age <=? Analyze.WEEK_DAYS);
    [|eauto].
  destruct (Analyze.message_count (Analyze.analyze_jsonl_file f) >? 0); [|eauto].
  destruct (Analyze.first_timestamp (Analyze.analyze_jsonl_file f)),
    (Analyze.last_timestamp (Analyze.analyze_jsonl_file f)); simpl; eauto.
Qed.

(** C7. In the summary pipeline a file whose age in whole days is 7 is
    retained: it is scanned and, with a positive message count, its File
    Summary is appended with age 7.  A file whose age is 8 is excluded: the
    loop body leaves the project untouched. *)
Theorem age_cutoff_boundary (now : Datetime.clock) (f : log_file)
    (acc : Analyze.project_acc) (file_date : Datetime.datetime) :
  (Analyze.get_file_age_days now f = Ret (7, file_date) ->
   Analyze.message_count (Analyze.analyze_jsonl_file f) > 0 ->
   (exists first_file, Analyze.scan_file now Analyze.empty_acc f = Ret first_file)
   /\ forall acc',
        Analyze.scan_file now acc f = Ret acc' ->
        Analyze.recent_activity acc'
        = (Analyze.recent_activity acc
           ++ [Analyze.mk_file_info (file_name f) 7 file_date
                 (Analyze.message_count (Analyze.analyze_jsonl_file f))
                 (Analyze.first_timestamp (Analyze.analyze_jsonl_file f))
                 (Analyze.last_timestamp (Analyze.analyze_jsonl_file f))])%list)
  /\ (Analyze.get_file_age_days now f = Ret (8, file_date) ->
      Analyze.scan_file now acc f = Ret acc).
Proof.
  split.
  - intros Hage Hpos. split; [eapply scan_file_first_returns, Hage|].
    intros acc' H. eapply scan_file_retained; try eassumption.
    unfold Analyze.WEEK_DAYS. lia.
  - intro Hage. eapply scan_file_excluded; [exact Hage|].
    unfold Analyze.WEEK_DAYS. lia.
Qed.

Lemma age_cutoff_boundary_witness :
  ((exists first_file,
      Analyze.scan_file Sample.now Analyze.empty_acc (SampleTree.demo_file 1)
      = Ret first_file)
   /\ forall acc',
        Analyze.scan_file Sample.now Analyze.empty_acc (SampleTree.demo_file 1)
        = Ret acc' ->
        Analyze.recent_activity acc'
        = (Analyze.recent_activity Analyze.empty_acc
           ++ [Analyze.mk_file_info (file_name (SampleTree.demo_file 1)) 7
                 (Datetime.naive (Sample.noon 1))
                 (Analyze.message_count
                    (Analyze.analyze_jsonl_file (SampleTree.demo_file 1)))
                 (Analyze.first_timestamp
                    (Analyze.analyze_jsonl_file (SampleTree.demo_file 1)))
                 (Analyze.last_timestamp
                    (Analyze.analyze_jsonl_file (SampleTree.demo_file 1)))])%list)
  /\ Analyze.scan_file Sample.now Analyze.empty_acc SampleTree.old_file
     = Ret Analyze.empty_acc.
Proof.
  split.
  - apply (proj1 (age_cutoff_boundary Sample.now (SampleTree.demo_file 1)
                    Analyze.empty_acc (Datetime.naive (Sample.noon 1))));
      reflexivity.
  - apply (proj2 (age_cutoff_boundary Sample.now SampleTree.old_file
                    Analyze.empty_acc
                    (Datetime.naive (Datetime.mk_clock 2023 12 31 12 0 0 0))));
      reflexivity.
Defined.

(** The boundary seen from the output: the project whose log is 7 days old
    is reported with its two messages, the project whose log is 8 days old
    is not reported at all. *)
Example age_cutoff_on_projects :
  (exists p, Analyze.scan_all_projects (SampleTree.demo 1) Sample.now = Ret [p]
             /\ map Analyze.age_days (Analyze.files p) = [7]
             /\ Analyze.total_messages p = 2)
  /\ Analyze.scan_all_projects
       [mk_dir_entry Sample.demo_dir true [SampleTree.old_file]] Sample.now
     = Ret [].
Proof. split; [eexists; split; [vm_compute; reflexivity|]|]; repeat split. Qed.

(** ** The size of the chronology *)

Lemma file_timeline_length (project_name : string) (fi : Analyze.file_info) :
  (List.length (Analyze.file_timeline project_name fi) <= 2)%nat.
Proof.
  unfold Analyze.file_timeline.
  destruct (Analyze.first_ts fi), (Analyze.last_ts fi); simpl; lia.
Qed.

(** A project contributes at most two entries for each of its File
    Summaries. *)
Lemma project_timeline_length (p : Analyze.project) :
  (List.length (Analyze.project_timeline p) <= 2 * List.length (Analyze.files p))%nat.
Proof.
  unfold Analyze.project_timeline.
  induction (Analyze.files p) as [|fi rest IH]; simpl; [lia|].
  rewrite length_app.
  pose proof (file_timeline_length (Analyze.name p) fi). lia.
Qed.

(** C6. A project with one retained log file named [agent-1.jsonl] gets
    four Timeline Entries, not at most two: the file is matched by both
    glob patterns, scanned twice and summarised twice. *)
Theorem agent_file_is_listed_twice :
  List.length (entry_files (mk_dir_entry "p" true [SampleTree.agent_file])) = 1%nat
  /\ map file_name (Analyze.all_files (mk_dir_entry "p" true [SampleTree.agent_file]))
     = ["agent-1.jsonl"; "agent-1.jsonl"]
  /\ exists ps timeline,
       Analyze.summary SampleTree.agent_only Sample.now = Ret (ps, timeline)
       /\ map Analyze.files_count ps = [2]
       /\ map Analyze.total_messages ps = [4]
       /\ List.length timeline = 4%nat.
Proof.
  split; [reflexivity|]. split; [reflexivity|].
  eexists. eexists. split; [vm_compute; reflexivity|]. repeat split.
Qed.

(** ** The order of the chronology and of the flat export *)

Lemma timeline_instants (p : Analyze.project) :
  map Analyze.tl_timestamp (Analyze.project_timeline p) = project_instants p.
Proof.
  unfold Analyze.project_timeline, project_instants.
  induction (Analyze.files p) as [|fi rest IH]; simpl; [reflexivity|].
  rewrite map_app, IH. f_equal.
  unfold Analyze.file_timeline, file_instants.
  destruct (Analyze.first_ts fi), (Analyze.last_ts fi); reflexivity.
Qed.

Lemma timeline_instants_all (pd : list Analyze.project) :
  map Analyze.tl_timestamp (flat_map Analyze.project_timeline pd)
  = flat_map project_instants pd.
Proof.
  induction pd as [|p rest IH]; simpl; [reflexivity|].
  rewrite map_app, IH, timeline_instants. reflexivity.
Qed.

Lemma same_awareness_comparable (l : list Datetime.datetime)
    (a b : Datetime.datetime) :
  same_awareness l -> In a l -> In b l -> exists r, Datetime.lt a b = Ret r.
Proof.
  intros [H|H] Ha Hb; rewrite Forall_forall in H;
    apply datetime_lt_returns; [left|right]; split; apply H; assumption.
Qed.

(** The chronology sort completes on instants of one kind. *)
Lemma build_timeline_returns (pd : list Analyze.project) :
  same_awareness (flat_map project_instants pd) ->
  exists timeline, Analyze.build_timeline pd = Ret timeline.
Proof.
  intro H. unfold Analyze.build_timeline. apply sort_desc_returns.
  intros x y Hx Hy. unfold Analyze.by_timestamp.
  apply (same_awareness_comparable _ _ _ H);
    rewrite <- timeline_instants_all; apply in_map; assumption.
Qed.

Lemma build_timeline_descending (pd : list Analyze.project)
    (timeline : list Analyze.timeline_entry) :
  Analyze.build_timeline pd = Ret timeline ->
  descending Analyze.by_timestamp timeline.
Proof.
  apply sort_desc_descending. intros x y. apply datetime_lt_asym.
Qed.

Section NeverRaises.
Context {S A : Type} (body : A -> stmt S unit).
Hypothesis body_returns : forall x s, fst (body x s) = Ret tt.

Lemma for_each_returns (xs : list A) (s : S) :
  fst (for_each body xs s) = Ret tt.
Proof.
  revert s. induction xs as [|x xs IH]; intro s; simpl; [reflexivity|].
  unfold sbind. specialize (body_returns x s).
  destruct (body x s) as [[[]|e] s']; simpl in *; [apply IH|discriminate].
Qed.
End NeverRaises.

Lemma detail_scan_file_returns (project : string) (f : log_file)
    (s : list Extract.flat_entry) :
  fst (Extract.scan_file project f s) = Ret tt.
Proof.
  rewrite !detail_scan_file_lines. unfold try_except_all.
  destruct ((sbind (lift (Analyze.open_lines f))
               (fun lines => for_each (Extract.scan_line project) lines)) s)
    as [[[]|e] s']; reflexivity.
Qed.

Lemma detail_scan_project_returns (d : dir_entry) (s : list Extract.flat_entry) :
  fst (Extract.scan_project d s) = Ret tt.
Proof.
  unfold Extract.scan_project.
  destruct (entry_is_dir d && negb (PyStr.startswith (entry_name d) "."));
    [|reflexivity].
  apply for_each_returns. intros. apply detail_scan_file_returns.
Qed.

(** The flat export never raises, and is in descending order of the ISO
    text of its entries. *)
Lemma flat_export_descending (tree : list dir_entry) :
  exists all_entries,
    Extract.extract_all_conversations tree = Ret all_entries
    /\ descending Extract.by_datetime all_entries.
Proof.
  unfold Extract.extract_all_conversations.
  pose proof (for_each_returns Extract.scan_project detail_scan_project_returns
                tree []) as H.
  destruct (for_each Extract.scan_project tree []) as [[[]|e] s]; simpl in H;
    [|discriminate].
  destruct (sort_desc_returns Extract.by_datetime s) as [r Hr].
  { intros x y _ _. unfold Extract.by_datetime. eauto. }
  exists r. split; [exact Hr|].
  apply (sort_desc_descending Extract.by_datetime) with (l := s); [|exact Hr].
  intros x y. unfold Extract.by_datetime. intro Hxy. inversion Hxy as [Hlt].
  rewrite (string_ltb_asym _ _ Hlt). reflexivity.
Qed.

(** C5, as stated, fails.  With aware instants in one project and naive
    ones in another the summary pipeline raises [TypeError] and gives no
    chronology, and the chronology sort raises on the two projects put
    together.  With two different offsets the flat export is sorted on the
    ISO text: its first entry (05:00 UTC) is earlier than its second (08:00
    UTC). *)
Lemma sorting_fails_on_mixed_zone_forms :
  Analyze.scan_all_projects [mk_dir_entry "a" true [SampleZones.utc_file]] Sample.now
    = Ret [SampleZones.aware_project]
  /\ Analyze.scan_all_projects [mk_dir_entry "b" true [SampleTree.demo_file 7]]
       Sample.now
     = Ret [SampleZones.naive_project]
  /\ Analyze.summary SampleZones.mixed Sample.now = Raise TypeError
  /\ Analyze.build_timeline [SampleZones.aware_project; SampleZones.naive_project]
     = Raise TypeError
  /\ obind (Extract.extract_all_conversations SampleZones.offsets)
       (fun es => Ret (map Extract.datetime es))
     = Ret ["2024-01-01T10:00:00+05:00"; "2024-01-01T09:00:00+01:00"]
  /\ Datetime.fromisoformat "2024-01-01T10:00:00+05:00"
     = Ret (Sample.instant 2024 1 1 10 0 0 (SampleZones.hours 5))
  /\ Datetime.fromisoformat "2024-01-01T09:00:00+01:00"
     = Ret (Sample.instant 2024 1 1 9 0 0 (SampleZones.hours 1))
  /\ Datetime.lt (Sample.instant 2024 1 1 10 0 0 (SampleZones.hours 5))
       (Sample.instant 2024 1 1 9 0 0 (SampleZones.hours 1))
     = Ret true.
Proof. repeat split; vm_compute; reflexivity. Qed.

(** ** A completed scan has instants of one form *)

Lemma cmp_returns_same_form (a b : Datetime.datetime) (c : comparison) :
  Datetime.cmp a b = Ret c -> aware_flag a = aware_flag b.
Proof.
  unfold Datetime.cmp, aware_flag.
  destruct (Datetime.tzinfo a), (Datetime.tzinfo b); intro H;
    try discriminate; reflexivity.
Qed.

Lemma lt_returns_same_form (a b : Datetime.datetime) (r : bool) :
  Datetime.lt a b = Ret r -> aware_flag a = aware_flag b.
Proof.
  unfold Datetime.lt. destruct (Datetime.cmp a b) as [c|e] eqn:E; [|discriminate].
  intros _. eapply cmp_returns_same_form, E.
Qed.

Lemma gt_returns_same_form (a b : Datetime.datetime) (r : bool) :
  Datetime.gt a b = Ret r -> aware_flag a = aware_flag b.
Proof.
  unfold Datetime.gt. destruct (Datetime.cmp a b) as [c|e] eqn:E; [|discriminate].
  intros _. eapply cmp_returns_same_form, E.
Qed.

Lemma same_form_same_awareness (l : list Datetime.datetime) :
  (forall x y, In x l -> In y l -> aware_flag x = aware_flag y) ->
  same_awareness l.
Proof.
  intro H. destruct l as [|d rest]; [left; constructor|].
  destruct (aware_flag d) eqn:E; [right|left]; apply Forall_forall; intros x Hx;
    pose proof (H x d Hx (or_introl eq_refl)) as Hxd; rewrite E in Hxd;
    unfold aware_flag, is_aware, is_naive in *;
    destruct (Datetime.tzinfo x); congruence.
Qed.

Lemma scan_line_agree (l : line) (s : Analyze.file_data) :
  bounds_agree s -> bounds_agree (snd (Analyze.scan_line l s)).
Proof.
  intro Hs. destruct l as [| |e]; try exact Hs.
  unfold Analyze.scan_line, try_except, sbind, lift, modify, get, sret. simpl.
  destruct (Analyze.record_timestamp e) as [[ts|]|err]; simpl.
  2: exact Hs.
  2: { destruct (exn_isinstance err JSONDecodeError); exact Hs. }
  destruct (Py.get e "type" (JStr "unknown")) as [ty|err]; simpl.
  2: { destruct (exn_isinstance err JSONDecodeError); exact Hs. }
  destruct (Py.get e "messageId" (JStr "")) as [mid|err]; simpl.
  2: { destruct (exn_isinstance err JSONDecodeError); exact Hs. }
  destruct s as [es [f|] [l|] c]; unfold bounds_agree in *; simpl in *;
    try contradiction; [|reflexivity].
  destruct (Datetime.lt ts f) as [[|]|err] eqn:Elt; simpl;
    try (destruct (exn_isinstance err JSONDecodeError); simpl; exact Hs);
    apply lt_returns_same_form in Elt;
    destruct (Datetime.gt ts l) as [[|]|err'] eqn:Egt; simpl;
    try (destruct (exn_isinstance err' JSONDecodeError); simpl);
    try (apply gt_returns_same_form in Egt); congruence.
Qed.

Lemma analyze_jsonl_file_agree (f : log_file) :
  bounds_agree (Analyze.analyze_jsonl_file f).
Proof.
  assert (H0 : bounds_agree Analyze.empty_data) by exact I.
  rewrite !analyze_jsonl_file_lines. unfold try_except_all, sbind, lift, Analyze.open_lines.
  destruct (file_lines f) as [ls|]; simpl; [|exact H0].
  pose proof (for_each_invariant Analyze.scan_line bounds_agree scan_line_agree
                ls Analyze.empty_data H0) as H.
  destruct (for_each Analyze.scan_line ls Analyze.empty_data) as [[[]|e] s'];
    exact H.
Qed.

Lemma scan_file_agrees (now : Datetime.clock) (acc acc' : Analyze.project_acc)
    (f : log_file) :
  acc_agrees acc -> Analyze.scan_file now acc f = Ret acc' -> acc_agrees acc'.
Proof.
  intros Hacc. unfold Analyze.scan_file, Analyze.get_file_age_days, Analyze.getmtime.
  destruct (file_mtime f) as [mtime|];
    cbn [obind fst snd Datetime.fields Datetime.naive]; [|discriminate].
  destruct (Datetime.days_between now mtime <=? Analyze.WEEK_DAYS);
    [|intro H; inversion H; subst; exact Hacc].
  destruct (Analyze.message_count (Analyze.analyze_jsonl_file f) >? 0) eqn:Hpos;
    [|intro H; inversion H; subst; exact Hacc].
  destruct (counted_file_has_bounds f) as (a & b & Ha & Hb);
    [apply Z.gtb_lt in Hpos; lia|].
  pose proof (analyze_jsonl_file_agree f) as Hab. unfold bounds_agree in Hab.
  rewrite Ha, Hb in *. unfold Analyze.merge_bound, Analyze.unset_or.
  unfold acc_agrees in Hacc.
  destruct (Analyze.earliest_ts acc) as [e0|], (Analyze.latest_ts acc) as [l0|];
    try contradiction.
  - destruct Hacc as [Hel Hall].
    destruct (Datetime.lt a e0) as [r1|err] eqn:E1; cbn [obind]; [|discriminate].
    destruct (Datetime.gt b l0) as [r2|err] eqn:E2; cbn [obind]; [|discriminate].
    apply lt_returns_same_form in E1. apply gt_returns_same_form in E2.
    intro H; inversion H; subst. unfold acc_agrees. simpl.
    assert (Hl : aware_flag (if r2 then b else l0) = aware_flag l0)
      by (destruct r2; congruence).
    destruct r1, r2; (split; [congruence|]);
      intros x Hx; rewrite flat_map_app in Hx; apply in_app_or in Hx;
      (destruct Hx as [Hx|Hx];
       [rewrite (Hall x Hx); congruence
       |simpl in Hx; unfold file_instants in Hx; simpl in Hx;
        destruct Hx as [<-|[<-|[]]]; congruence]).
  - cbn [obind]. intro H; inversion H; subst. unfold acc_agrees. simpl.
    split; [exact Hab|]. rewrite Hacc. simpl. unfold file_instants. simpl.
    intros x [<-|[<-|[]]]; congruence.
Qed.

Lemma scan_project_agrees (now : Datetime.clock) (ps ps' : list Analyze.project)
    (d : dir_entry) :
  Forall project_agrees ps -> Analyze.scan_project now ps d = Ret ps' ->
  Forall project_agrees ps'.
Proof.
  intros Hps. unfold Analyze.scan_project.
  destruct (entry_is_dir d && negb (PyStr.startswith (entry_name d) "."));
    [|intro H; inversion H; subst; exact Hps].
  destruct (fold_outcome (Analyze.scan_file now) (Analyze.all_files d)
              Analyze.empty_acc) as [acc|e] eqn:E; simpl; [|discriminate].
  assert (Hacc : acc_agrees acc).
  { eapply (fold_outcome_invariant (Analyze.scan_file now) acc_agrees);
      [intros; eapply scan_file_agrees; eassumption| |exact E].
    reflexivity. }
  destruct (Analyze.recent_activity acc) as [|fi rest] eqn:Hra;
    [intro H; inversion H; subst; exact Hps|].
  destruct (sort_desc Analyze.by_modified (fi :: rest)) as [sorted|e] eqn:Es;
    simpl; [|discriminate].
  intro H; inversion H; subst. apply Forall_app. split; [exact Hps|].
  constructor; [|constructor].
  unfold acc_agrees in Hacc. rewrite Hra in Hacc.
  destruct (Analyze.earliest_ts acc) as [e1|], (Analyze.latest_ts acc) as [l1|];
    try contradiction; [|discriminate].
  destruct Hacc as [_ Hall].
  unfold project_agrees, project_instants, Analyze.latest_or_min. simpl.
  intros x Hx. apply Hall.
  eapply Permutation_in; [|exact Hx].
  apply Permutation_flat_map, Permutation_sym.
  eapply sort_desc_perm, Es.
Qed.

Section SortClasses.
Context {A : Type} (lt : A -> A -> outcome bool) (cls : A -> bool).
Hypothesis lt_same_class : forall x y r, lt x y = Ret r -> cls x = cls y.

(** A sort that completes has compared, directly or through others, every
    two of its elements: they are all of one class. *)
Lemma sort_desc_one_class (l l' : list A) :
  sort_desc lt l = Ret l' ->
  forall x y, In x l -> In y l -> cls x = cls y.
Proof.
  revert l'. induction l as [|x0 rest IH]; simpl; intros l' H x y Hx Hy.
  - contradiction.
  - destruct (sort_desc lt rest) as [r|e] eqn:Er; simpl in H; [|discriminate].
    assert (Hhead : forall z, In z rest -> cls x0 = cls z).
    { intros z Hz.
      assert (Hzr : In z r)
        by (eapply Permutation_in; [eapply sort_desc_perm, Er|exact Hz]).
      destruct r as [|h t]; [contradiction|]. simpl in H.
      destruct (lt x0 h) as [b|e] eqn:Eh; [|discriminate].
      rewrite (lt_same_class _ _ _ Eh).
      apply (IH (h :: t) eq_refl); [|exact Hz].
      eapply Permutation_in;
        [apply Permutation_sym; eapply sort_desc_perm, Er|left; reflexivity]. }
    destruct Hx as [<-|Hx], Hy as [<-|Hy].
    + reflexivity.
    + apply Hhead, Hy.
    + symmetry. apply Hhead, Hx.
    + apply (IH r eq_refl); assumption.
Qed.
End SortClasses.

(** When the project scan returns, every instant it reports is of one
    form, so the chronology sort that follows cannot raise. *)
Lemma scanned_projects_same_awareness (tree : list dir_entry)
    (now : Datetime.clock) (ps : list Analyze.project) :
  Analyze.scan_all_projects tree now = Ret ps ->
  same_awareness (flat_map project_instants ps).
Proof.
  intro H. unfold Analyze.scan_all_projects in H.
  destruct (Analyze.collect_projects tree now) as [ps0|e] eqn:E; simpl in H;
    [|discriminate].
  assert (Hagree : Forall project_agrees ps0).
  { unfold Analyze.collect_projects in E.
    eapply (fold_outcome_invariant (Analyze.scan_project now)
              (Forall project_agrees));
      [intros; eapply scan_project_agrees; eassumption| |exact E].
    constructor. }
  rewrite Forall_forall in Hagree.
  pose proof (sort_desc_perm Analyze.by_latest_activity ps0 ps H) as Hperm.
  assert (Hkeys : forall p q, In p ps0 -> In q ps0 ->
            aware_flag (Analyze.latest_or_min p)
            = aware_flag (Analyze.latest_or_min q)).
  { apply (sort_desc_one_class Analyze.by_latest_activity
             (fun p => aware_flag (Analyze.latest_or_min p))) with (l' := ps);
      [|exact H].
    intros p q r. unfold Analyze.by_latest_activity. apply lt_returns_same_form. }
  apply same_form_same_awareness. intros x y Hx Hy.
  apply in_flat_map in Hx. destruct Hx as (p & Hp & Hxp).
  apply in_flat_map in Hy. destruct Hy as (q & Hq & Hyq).
  apply (Permutation_in _ (Permutation_sym Hperm)) in Hp.
  apply (Permutation_in _ (Permutation_sym Hperm)) in Hq.
  rewrite (Hagree p Hp x Hxp), (Hagree q Hq y Hyq). apply Hkeys; assumption.
Qed.

(** ** ISO texts and the instants they stand for *)

Lemma digit_compare (a b : Z) :
  0 <= a < 10 -> 0 <= b < 10 ->
  Ascii.compare (ascii_of_nat (48 + Z.to_nat a)) (ascii_of_nat (48 + Z.to_nat b))
  = (a ?= b).
Proof.
  intros Ha Hb.
  assert (Ea : a = 0 \/ a = 1 \/ a = 2 \/ a = 3 \/ a = 4 \/ a = 5 \/ a = 6
               \/ a = 7 \/ a = 8 \/ a = 9) by lia.
  assert (Eb : b = 0 \/ b = 1 \/ b = 2 \/ b = 3 \/ b = 4 \/ b = 5 \/ b = 6
               \/ b = 7 \/ b = 8 \/ b = 9) by lia.
  repeat (destruct Ea as [->|Ea]); try subst a;
    repeat (destruct Eb as [->|Eb]); try subst b; reflexivity.
Qed.

Lemma compare_append (s1 s2 t1 t2 : string) :
  String.length s1 = String.length s2 ->
  String.compare (s1 ++ t1) (s2 ++ t2)
  = match String.compare s1 s2 with Eq => String.compare t1 t2 | c => c end.
Proof.
  revert s2. induction s1 as [|c1 r1 IH]; intros [|c2 r2] H; simpl in *;
    try discriminate; [reflexivity|].
  destruct (Ascii.compare c1 c2); try reflexivity. apply IH. lia.
Qed.

Lemma pad_length (w : nat) (n : Z) : String.length (PyStr.pad w n) = w.
Proof.
  revert n. induction w as [|k IH]; intro n; simpl; [reflexivity|].
  rewrite length_append, IH. simpl. lia.
Qed.

Lemma decimal_compare (a b : Z) :
  match a / 10 ?= b / 10 with
  | Eq => a mod 10 ?= b mod 10
  | c => c
  end = (a ?= b).
Proof.
  pose proof (Z.div_mod a 10) as Da. pose proof (Z.div_mod b 10) as Db.
  pose proof (Z.mod_pos_bound a 10 eq_refl) as Ba.
  pose proof (Z.mod_pos_bound b 10 eq_refl) as Bb.
  destruct (Z.compare_spec (a / 10) (b / 10));
    [destruct (Z.compare_spec (a mod 10) (b mod 10))|..]; symmetry;
    first [apply Z.compare_eq_iff; lia | apply Z.compare_lt_iff; lia
          | apply Z.compare_gt_iff; lia].
Qed.

Lemma pad_compare (w : nat) (a b : Z) :
  0 <= a < 10 ^ Z.of_nat w -> 0 <= b < 10 ^ Z.of_nat w ->
  String.compare (PyStr.pad w a) (PyStr.pad w b) = (a ?= b).
Proof.
  revert a b. induction w as [|k IH]; intros a b Ha Hb.
  - simpl in *. assert (a = 0) by lia. assert (b = 0) by lia. subst. reflexivity.
  - rewrite Nat2Z.inj_succ, Z.pow_succ_r in Ha, Hb by lia.
    cbn [PyStr.pad]. rewrite compare_append by (rewrite !pad_length; reflexivity).
    rewrite IH by (split; [apply Z.div_pos; lia|apply Z.div_lt_upper_bound; lia]).
    rewrite <- (decimal_compare a b). destruct (a / 10 ?= b / 10); try reflexivity.
    cbn [String.compare]. unfold PyStr.digit.
    pose proof (Z.mod_pos_bound a 10 eq_refl). pose proof (Z.mod_pos_bound b 10 eq_refl).
    rewrite (digit_compare _ _ H H0). destruct (a mod 10 ?= b mod 10); reflexivity.
Qed.

Lemma compare_same_head (c : ascii) (s t : string) :
  String.compare (String c s) (String c t) = String.compare s t.
Proof.
  cbn [String.compare].
  replace (Ascii.compare c c) with Eq; [reflexivity|].
  symmetry. unfold Ascii.compare. apply N.compare_refl.
Qed.

Lemma zero_pad_in_range (w : nat) (n : Z) :
  n < 10 ^ Z.of_nat w -> PyStr.zero_pad w n = PyStr.pad w n.
Proof.
  intro H. unfold PyStr.zero_pad.
  destruct (n <? 10 ^ Z.of_nat w) eqn:E; [reflexivity|].
  apply Z.ltb_ge in E. lia.
Qed.

Lemma append_empty (s : string) : s ++ "" = s.
Proof. induction s as [|c r IH]; simpl; [reflexivity|rewrite IH; reflexivity]. Qed.

Lemma fraction_compare (a b : Z) :
  0 <= a < 10 ^ 6 -> 0 <= b < 10 ^ 6 ->
  String.compare
    (if a =? 0 then "" else "." ++ PyStr.pad 6 a)
    (if b =? 0 then "" else "." ++ PyStr.pad 6 b)
  = (a ?= b).
Proof.
  intros Ha Hb.
  destruct (Z.eqb_spec a 0) as [->|Na], (Z.eqb_spec b 0) as [->|Nb].
  - reflexivity.
  - cbn [append String.compare]. symmetry. apply Z.compare_lt_iff. lia.
  - cbn [append String.compare]. symmetry. apply Z.compare_gt_iff. lia.
  - cbn [append]. rewrite compare_same_head. apply (pad_compare 6); assumption.
Qed.

Lemma days_in_month_bound (y m : Z) : Datetime.days_in_month y m <= 31.
Proof.
  unfold Datetime.days_in_month.
  destruct (m =? 2); [destruct (Datetime.is_leap y); lia|].
  destruct ((m =? 4) || (m =? 6) || (m =? 9) || (m =? 11)); lia.
Qed.

Lemma naive_text_compare (a b : Datetime.clock) :
  valid_clock a -> valid_clock b ->
  String.compare (naive_text a) (naive_text b) = Datetime.fields_compare a b.
Proof.
  unfold valid_clock, Datetime.valid_fields. intros Ha Hb.
  repeat (apply andb_prop in Ha; destruct Ha as [Ha ?]).
  repeat (apply andb_prop in Hb; destruct Hb as [Hb ?]).
  repeat match goal with
         | H : (_ <=? _) = true |- _ => apply Z.leb_le in H
         end.
  pose proof (days_in_month_bound (Datetime.year a) (Datetime.month a)).
  pose proof (days_in_month_bound (Datetime.year b) (Datetime.month b)).
  unfold naive_text, Datetime.isoformat, Datetime.fields_compare.
  cbn [Datetime.fields Datetime.naive Datetime.tzinfo].
  rewrite !append_empty.
  rewrite !(zero_pad_in_range 4) by (change (10 ^ Z.of_nat 4) with 10000; lia).
  rewrite !(zero_pad_in_range 6) by (change (10 ^ Z.of_nat 6) with 1000000; lia).
  rewrite !(zero_pad_in_range 2) by (change (10 ^ Z.of_nat 2) with 100; lia).
  rewrite compare_append by (rewrite !pad_length; reflexivity).
  rewrite (pad_compare 4) by (change (10 ^ Z.of_nat 4) with 10000; lia).
  destruct (Datetime.year a ?= Datetime.year b); try reflexivity.
  cbn [append]. rewrite compare_same_head.
  repeat (rewrite compare_append by (rewrite !pad_length; reflexivity);
          rewrite (pad_compare 2) by (change (10 ^ Z.of_nat 2) with 100; lia);
          match goal with
          | |- match match ?c with _ => _ end with _ => _ end = _ =>
              destruct c; try reflexivity
          | |- match ?c with _ => _ end = _ => destruct c; try reflexivity
          end;
          cbn [append]; rewrite ?compare_same_head).
  apply fraction_compare; change (10 ^ 6) with 1000000; lia.
Qed.

(** For naive instants the order of the ISO texts is the order of the
    instants. *)
Lemma iso_text_order (a b : Datetime.datetime) :
  valid_clock (Datetime.fields a) -> valid_clock (Datetime.fields b) ->
  is_naive a -> is_naive b ->
  String.ltb (Datetime.isoformat a) (Datetime.isoformat b) = false ->
  Datetime.lt a b = Ret false.
Proof.
  destruct a as [ca oa], b as [cb ob]. unfold is_naive. simpl.
  intros Ha Hb -> -> H. unfold Datetime.lt, Datetime.cmp. simpl.
  unfold String.ltb in H.
  change (Datetime.isoformat (Datetime.mk_datetime ca None)) with (naive_text ca) in H.
  change (Datetime.isoformat (Datetime.mk_datetime cb None)) with (naive_text cb) in H.
  rewrite (naive_text_compare ca cb Ha Hb) in H.
  destruct (Datetime.fields_compare ca cb); [reflexivity|discriminate|reflexivity].
Qed.

Lemma descending_instants (es : list Extract.flat_entry)
    (ds : list Datetime.datetime) :
  Forall2 exported_from es ds -> Forall is_naive ds ->
  descending Extract.by_datetime es -> descending Datetime.lt ds.
Proof.
  intro H. induction H as [|e d es' ds' Hed Hrest IH]; intros Hn Hd.
  - constructor.
  - inversion Hrest as [|e' d' es'' ds'' Hed' Hrest']; subst; [constructor|].
    inversion Hd as [| |x y l Hxy Hd']; subst.
    inversion Hn as [|? ? Hnd Hn']; subst.
    constructor; [|apply IH; assumption].
    destruct Hed as [He Hv], Hed' as [He' Hv'].
    apply iso_text_order; try assumption; [inversion Hn'; assumption|].
    unfold Extract.by_datetime in Hxy. rewrite He, He' in Hxy.
    injection Hxy as Hxy. exact Hxy.
Qed.

Lemma fromisoformat_valid (s : string) (d : Datetime.datetime) :
  Datetime.fromisoformat s = Ret d -> valid_clock (Datetime.fields d).
Proof.
  unfold Datetime.fromisoformat.
  destruct (Datetime.parse_isoformat_date (PyStr.take 10 s)) as [[[y mo] dd]|];
    [|discriminate].
  destruct (if (String.length s <=? 10)%nat
            then Some (0, 0, 0, 0, None)
            else Datetime.parse_isoformat_time (PyStr.drop 11 s))
    as [[[[[h mi] sec] us] tz]|];
    [|discriminate].
  destruct (Datetime.valid_fields y mo dd h mi sec us) eqn:E; [|discriminate].
  intro H. injection H as <-. exact E.
Qed.

Lemma detail_timestamp_valid (e : json) (ts : Datetime.datetime) :
  Extract.record_timestamp e = Ret (Some ts) ->
  valid_clock (Datetime.fields ts).
Proof.
  unfold Extract.record_timestamp.
  destruct (Extract.timestamp_field e) as [v|err]; [|discriminate].
  cbn [obind]. unfold Extract.parse_timestamp.
  destruct (Analyze.str_replace v "Z" "+00:00") as [r|err]; [|discriminate].
  cbn [obind].
  destruct (Datetime.fromisoformat (PyStr.replace "+00:00" "" r)) as [d|err] eqn:E;
    [|discriminate].
  intro H. injection H as <-. eapply fromisoformat_valid, E.
Qed.

Lemma detail_scan_line_exports (project : string) (l : line)
    (s : list Extract.flat_entry) :
  Forall has_instant s ->
  Forall has_instant (snd (Extract.scan_line project l s)).
Proof.
  intro Hs. destruct l as [| |e]; try exact Hs.
  unfold Extract.scan_line, try_except, sbind, lift, modify, sret.
  cbn [line_strip_truthy negb json_loads].
  destruct (Extract.record_timestamp e) as [[ts|]|err] eqn:Ets.
  - destruct (Extract.extract_message_content e) as [[content role]|err].
    + destruct (PyStr.truthy content && PyStr.truthy (PyStr.strip content));
        [|exact Hs].
      cbn [snd]. apply Forall_app. split; [exact Hs|].
      constructor; [|constructor].
      exists ts. split; [reflexivity|eapply detail_timestamp_valid, Ets].
    + destruct (existsb (exn_isinstance err) [JSONDecodeError; KeyError; ValueError]);
        exact Hs.
  - exact Hs.
  - destruct (existsb (exn_isinstance err) [JSONDecodeError; KeyError; ValueError]);
      exact Hs.
Qed.

Lemma detail_scan_file_exports (project : string) (f : log_file)
    (s : list Extract.flat_entry) :
  Forall has_instant s ->
  Forall has_instant (snd (Extract.scan_file project f s)).
Proof.
  intro Hs. rewrite !detail_scan_file_lines. unfold try_except_all, sbind, lift, Analyze.open_lines.
  destruct (file_lines f) as [ls|]; [|exact Hs].
  pose proof (for_each_invariant (Extract.scan_line project) (Forall has_instant)
                (detail_scan_line_exports project) ls s Hs) as H.
  destruct (for_each (Extract.scan_line project) ls s) as [[[]|e] s']; exact H.
Qed.

Lemma detail_scan_project_exports (d : dir_entry) (s : list Extract.flat_entry) :
  Forall has_instant s -> Forall has_instant (snd (Extract.scan_project d s)).
Proof.
  intro Hs. unfold Extract.scan_project.
  destruct (entry_is_dir d && negb (PyStr.startswith (entry_name d) "."));
    [|exact Hs].
  apply for_each_invariant; [|exact Hs].
  intros f s0. apply detail_scan_file_exports.
Qed.

Lemma instants_of_entries (es : list Extract.flat_entry) :
  Forall has_instant es -> exists ds, Forall2 exported_from es ds.
Proof.
  induction 1 as [|e es' [d Hd] _ [ds Hds]].
  - exists []. constructor.
  - exists (d :: ds). constructor; assumption.
Qed.

(** Every entry of the flat export carries the ISO text of a parsed instant;
    when these instants are all naive the export is in descending order of
    instant. *)
Lemma flat_export_chronological (tree : list dir_entry) :
  exists all_entries instants,
    Extract.extract_all_conversations tree = Ret all_entries
    /\ descending Extract.by_datetime all_entries
    /\ Forall2 exported_from all_entries instants
    /\ (Forall is_naive instants -> descending Datetime.lt instants).
Proof.
  destruct (flat_export_descending tree) as (es & Hes & Hd).
  assert (Hall : Forall has_instant es).
  { unfold Extract.extract_all_conversations in Hes.
    pose proof (for_each_invariant Extract.scan_project (Forall has_instant)
                  (fun d s => detail_scan_project_exports d s) tree []
                  (Forall_nil _)) as H.
    destruct (for_each Extract.scan_project tree []) as [[[]|e] s];
      [|discriminate].
    cbn [snd] in H. rewrite Forall_forall in *. intros x Hx. apply H.
    eapply Permutation_in;
      [apply Permutation_sym; eapply sort_desc_perm, Hes|exact Hx]. }
  destruct (instants_of_entries es Hall) as [ds Hds].
  exists es, ds. repeat split; try assumption.
  intro Hn. eapply descending_instants; eassumption.
Qed.

(** C5, amended.  Whenever the project scan of the summary pipeline returns,
    the chronology sort returns too and the chronology is in descending
    order of instant; so it is for any projects whose instants are all
    naive or all aware.  The flat export always returns, in descending
    order of the ISO text of its entries, and that is descending order of
    instant when the instants of its entries are all naive. *)
Theorem chronology_and_export_order :
  (forall tree now ps,
     Analyze.scan_all_projects tree now = Ret ps ->
     exists timeline,
       Analyze.build_timeline ps = Ret timeline
       /\ descending Analyze.by_timestamp timeline)
  /\ (forall pd,
        same_awareness (flat_map project_instants pd) ->
        exists timeline,
          Analyze.build_timeline pd = Ret timeline
          /\ descending Analyze.by_timestamp timeline)
  /\ (forall tree,
        exists all_entries instants,
          Extract.extract_all_conversations tree = Ret all_entries
          /\ descending Extract.by_datetime all_entries
          /\ Forall2 exported_from all_entries instants)
  /\ (forall tree all_entries instants,
        Extract.extract_all_conversations tree = Ret all_entries ->
        Forall2 exported_from all_entries instants ->
        Forall is_naive instants ->
        descending Datetime.lt instants).
Proof.
  assert (Hsame : forall pd,
            same_awareness (flat_map project_instants pd) ->
            exists timeline,
              Analyze.build_timeline pd = Ret timeline
              /\ descending Analyze.by_timestamp timeline).
  { intros pd H. destruct (build_timeline_returns pd H) as [tl Htl].
    exists tl. split; [exact Htl|]. eapply build_timeline_descending, Htl. }
  split; [|split; [|split]].
  - intros tree now ps H. apply Hsame.
    eapply scanned_projects_same_awareness, H.
  - exact Hsame.
  - intro tree.
    destruct (flat_export_chronological tree) as (es & ds & H1 & H2 & H3 & _).
    exists es, ds. repeat split; assumption.
  - intros tree es ds Hes Hds Hn.
    destruct (flat_export_descending tree) as (es' & Hes' & Hd).
    rewrite Hes in Hes'. injection Hes' as <-.
    eapply descending_instants; eassumption.
Qed.

Lemma chronology_and_export_order_witness :
  (exists timeline,
     Analyze.build_timeline [SampleZones.naive_project] = Ret timeline
     /\ descending Analyze.by_timestamp timeline)
  /\ (exists timeline,
        Analyze.build_timeline [SampleZones.aware_project] = Ret timeline
        /\ descending Analyze.by_timestamp timeline)
  /\ descending Datetime.lt
       [Sample.instant 2024 1 1 12 0 0 None; Sample.instant 2024 1 1 10 0 0 None].
Proof.
  split; [|split].
  - apply (proj1 chronology_and_export_order
             [mk_dir_entry "b" true [SampleTree.demo_file 7]] Sample.now
             [SampleZones.naive_project]).
    vm_compute; reflexivity.
  - apply (proj1 (proj2 chronology_and_export_order) [SampleZones.aware_project]).
    right. repeat constructor; discriminate.
  - apply (proj2 (proj2 (proj2 chronology_and_export_order))
             (SampleTree.demo 7) SampleExport.demo_export).
    + vm_compute; reflexivity.
    + repeat constructor.
    + repeat constructor.
Defined.

(** The spec's example: two records at 10:00 and 12:00 in one retained file
    give a count of 2, the two bounds, and two chronology entries, the later
    one first. *)
Example two_records_example :
  exists p t1 t2,
    Analyze.summary (SampleTree.demo 7) Sample.now = Ret ([p], [t1; t2])
    /\ Analyze.total_messages p = 2
    /\ Analyze.earliest_activity p = Some (Sample.instant 2024 1 1 10 0 0 None)
    /\ Analyze.latest_activity p = Some (Sample.instant 2024 1 1 12 0 0 None)
    /\ Analyze.tl_type t1 = "last_activity"
    /\ Analyze.tl_type t2 = "conversation_start".
Proof.
  eexists. eexists. eexists. split; [vm_compute; reflexivity|]. repeat split.
Qed.

(** * Further properties of the code *)

(** ** One step of the summary scan *)

(** What the loop body of [analyze_jsonl_file] does to [data]: nothing, or
    it records the entry, counts it, and then moves the first and the last
    bound, stopping where a comparison raises. *)
Lemma summary_scan_line_step (l : line) (d : Analyze.file_data) :
  snd (Analyze.scan_line l d) = d
  \/ exists ts ty mid,
       let d1 := Analyze.count_message
                   (Analyze.append_entry (Analyze.mk_scan_entry ts ty mid) d) in
       (exists err, Analyze.unset_or Datetime.lt ts (Analyze.first_timestamp d)
                    = Raise err
                    /\ snd (Analyze.scan_line l d) = d1)
       \/ exists b1,
            Analyze.unset_or Datetime.lt ts (Analyze.first_timestamp d) = Ret b1
            /\ let d2 := if b1 then Analyze.set_first ts d1 else d1 in
               (exists err,
                  Analyze.unset_or Datetime.gt ts (Analyze.last_timestamp d)
                  = Raise err
                  /\ snd (Analyze.scan_line l d) = d2)
               \/ exists b2,
                    Analyze.unset_or Datetime.gt ts (Analyze.last_timestamp d)
                    = Ret b2
                    /\ snd (Analyze.scan_line l d)
                       = if b2 then Analyze.set_last ts d2 else d2.
Proof.
  destruct l as [| |e]; try (left; reflexivity).
  unfold Analyze.scan_line, try_except, sbind, lift, modify, get, sret.
  cbn [line_strip_truthy json_loads].
  destruct (Analyze.record_timestamp e) as [[ts|]|err].
  2: left; reflexivity.
  2: { left. destruct (existsb (exn_isinstance err) [JSONDecodeError]); reflexivity. }
  destruct (Py.get e "type" (JStr "unknown")) as [ty|err].
  2: { left. destruct (existsb (exn_isinstance err) [JSONDecodeError]); reflexivity. }
  destruct (Py.get e "messageId" (JStr "")) as [mid|err].
  2: { left. destruct (existsb (exn_isinstance err) [JSONDecodeError]); reflexivity. }
  right. exists ts, ty, mid. cbv zeta.
  set (d1 := Analyze.count_message
               (Analyze.append_entry (Analyze.mk_scan_entry ts ty mid) d)).
  change (Analyze.first_timestamp d1) with (Analyze.first_timestamp d).
  destruct (Analyze.unset_or Datetime.lt ts (Analyze.first_timestamp d))
    as [b1|err] eqn:E1.
  2: { left. exists err. split; [reflexivity|].
       destruct (existsb (exn_isinstance err) [JSONDecodeError]); reflexivity. }
  right. exists b1. split; [reflexivity|].
  assert (Hlast : Analyze.last_timestamp
                    (if b1 then Analyze.set_first ts d1 else d1)
                  = Analyze.last_timestamp d) by (destruct b1; reflexivity).
  destruct (Analyze.unset_or Datetime.gt ts (Analyze.last_timestamp d))
    as [b2|err] eqn:E2.
  - right. exists b2. split; [reflexivity|].
    destruct b1; cbn [snd fst]; unfold d1 at 1;
      cbn [Analyze.last_timestamp Analyze.set_first Analyze.count_message
           Analyze.append_entry]; rewrite E2; destruct b2; reflexivity.
  - left. exists err. split; [reflexivity|].
    destruct b1; cbn [snd fst]; unfold d1 at 1;
      cbn [Analyze.last_timestamp Analyze.set_first Analyze.count_message
           Analyze.append_entry]; rewrite E2;
      destruct (existsb (exn_isinstance err) [JSONDecodeError]); reflexivity.
Qed.

(** ** The count and the bounds of a file scan *)

Lemma scan_line_consistent (l : line) (d : Analyze.file_data) :
  scan_consistent d -> scan_consistent (snd (Analyze.scan_line l d)).
Proof.
  intros (Hc & Hf & Hl).
  assert (Hstep : forall ts ty mid,
            scan_consistent
              (Analyze.count_message
                 (Analyze.append_entry (Analyze.mk_scan_entry ts ty mid) d))).
  { intros ts ty mid. unfold scan_consistent, recorded_instants. simpl.
    rewrite length_app, Nat2Z.inj_add, Hc, map_app. simpl.
    repeat split; [intros a Ha|intros b Hb]; apply in_or_app; left; auto. }
  assert (Hfirst : forall ts d0,
            In ts (recorded_instants d0) -> scan_consistent d0 ->
            scan_consistent (Analyze.set_first ts d0)).
  { intros ts d0 Hin (H1 & H2 & H3). unfold scan_consistent, recorded_instants.
    simpl. repeat split; [exact H1| |exact H3].
    intros a Ha. injection Ha as <-. exact Hin. }
  assert (Hlast : forall ts d0,
            In ts (recorded_instants d0) -> scan_consistent d0 ->
            scan_consistent (Analyze.set_last ts d0)).
  { intros ts d0 Hin (H1 & H2 & H3). unfold scan_consistent, recorded_instants.
    simpl. repeat split; [exact H1|exact H2|].
    intros a Ha. injection Ha as <-. exact Hin. }
  destruct (summary_scan_line_step l d) as [->|(ts & ty & mid & H)];
    [repeat split; assumption|].
  cbv zeta in H.
  assert (Hin : In ts (recorded_instants
                   (Analyze.count_message
                      (Analyze.append_entry (Analyze.mk_scan_entry ts ty mid) d)))).
  { unfold recorded_instants. simpl. rewrite map_app. apply in_or_app. right.
    left. reflexivity. }
  destruct H as [(err & _ & ->)|(b1 & _ & [(err & _ & ->)|(b2 & _ & ->)])].
  - apply Hstep.
  - destruct b1; [apply Hfirst; [exact Hin|]|]; apply Hstep.
  - destruct b1, b2;
      repeat first [exact Hin | exact (Hstep ts ty mid) | apply Hlast | apply Hfirst].
Qed.

(** X1. After the scan of a file the message count is the number of
    recorded entries, and the first and the last instant are instants of
    recorded entries. *)
Theorem file_scan_consistent (f : log_file) :
  scan_consistent (Analyze.analyze_jsonl_file f).
Proof.
  assert (H0 : scan_consistent Analyze.empty_data).
  { repeat split; intros a Ha; discriminate Ha. }
  rewrite !analyze_jsonl_file_lines. unfold try_except_all, sbind, lift, Analyze.open_lines.
  destruct (file_lines f) as [ls|]; cbn [snd]; [|exact H0].
  pose proof (for_each_invariant Analyze.scan_line scan_consistent
                scan_line_consistent ls Analyze.empty_data H0) as H.
  destruct (for_each Analyze.scan_line ls Analyze.empty_data) as [[[]|e] s'];
    exact H.
Qed.

(** Earlier-than on the clock fields, spelled out. *)
Lemma fields_compare_lt (a b : Datetime.clock) :
  Datetime.fields_compare a b = Lt <->
  Datetime.year a < Datetime.year b
  \/ Datetime.year a = Datetime.year b /\
     (Datetime.month a < Datetime.month b
      \/ Datetime.month a = Datetime.month b /\
         (Datetime.day a < Datetime.day b
          \/ Datetime.day a = Datetime.day b /\
             (Datetime.hour a < Datetime.hour b
              \/ Datetime.hour a = Datetime.hour b /\
                 (Datetime.minute a < Datetime.minute b
                  \/ Datetime.minute a = Datetime.minute b /\
                     (Datetime.second a < Datetime.second b
                      \/ Datetime.second a = Datetime.second b /\
                         Datetime.microsecond a < Datetime.microsecond b))))).
Proof.
  unfold Datetime.fields_compare.
  destruct (Z.compare_spec (Datetime.year a) (Datetime.year b));
    [|split; [lia|reflexivity]|split; [discriminate|lia]].
  destruct (Z.compare_spec (Datetime.month a) (Datetime.month b));
    [|split; [lia|reflexivity]|split; [discriminate|lia]].
  destruct (Z.compare_spec (Datetime.day a) (Datetime.day b));
    [|split; [lia|reflexivity]|split; [discriminate|lia]].
  destruct (Z.compare_spec (Datetime.hour a) (Datetime.hour b));
    [|split; [lia|reflexivity]|split; [discriminate|lia]].
  destruct (Z.compare_spec (Datetime.minute a) (Datetime.minute b));
    [|split; [lia|reflexivity]|split; [discriminate|lia]].
  destruct (Z.compare_spec (Datetime.second a) (Datetime.second b));
    [|split; [lia|reflexivity]|split; [discriminate|lia]].
  rewrite Z.compare_lt_iff. lia.
Qed.

Lemma fields_compare_lt_trans (a b c : Datetime.clock) :
  Datetime.fields_compare a b = Lt -> Datetime.fields_compare b c = Lt ->
  Datetime.fields_compare a c = Lt.
Proof. rewrite !fields_compare_lt. lia. Qed.

Lemma fields_compare_refl (a : Datetime.clock) : Datetime.fields_compare a a = Eq.
Proof. unfold Datetime.fields_compare. rewrite !Z.compare_refl. reflexivity. Qed.

Lemma fields_compare_gt (a b : Datetime.clock) :
  Datetime.fields_compare a b = Gt <-> Datetime.fields_compare b a = Lt.
Proof.
  rewrite (fields_compare_antisym b a).
  destruct (Datetime.fields_compare b a); simpl; split; congruence.
Qed.

(** In one zone form [<] and [>] are decided by the clock fields. *)
Lemma lt_in_zone (a b : Datetime.datetime) :
  Datetime.tzinfo a = Datetime.tzinfo b ->
  Datetime.lt a b
  = Ret (match Datetime.fields_compare (Datetime.fields a) (Datetime.fields b)
         with Lt => true | _ => false end)
  /\ Datetime.gt a b
     = Ret (match Datetime.fields_compare (Datetime.fields a) (Datetime.fields b)
            with Gt => true | _ => false end).
Proof.
  unfold Datetime.lt, Datetime.gt, Datetime.cmp. intros <-.
  destruct (Datetime.tzinfo a) as [o|]; [rewrite Z.eqb_refl|]; split; reflexivity.
Qed.

Lemma scan_line_zone_invariant (z : option Z) (l : line) (d : Analyze.file_data) :
  zone_invariant z d -> zone_invariant z (snd (Analyze.scan_line l d)).
Proof.
  intros (Hb & Hc & He).
  split; [apply scan_line_bounds, Hb|]. split; [apply scan_line_consistent, Hc|].
  destruct (summary_scan_line_step l d) as [->|(ts & ty & mid & H)]; [exact He|].
  cbv zeta in H.
  set (d1 := Analyze.count_message
               (Analyze.append_entry (Analyze.mk_scan_entry ts ty mid) d)) in *.
  assert (Hinst : forall d', Analyze.entries d' = Analyze.entries d1 ->
            recorded_instants d' = (recorded_instants d ++ [ts])%list).
  { intros d' E. unfold recorded_instants. rewrite E. unfold d1. simpl.
    rewrite map_app. reflexivity. }
  assert (Hentries : Analyze.entries (snd (Analyze.scan_line l d))
                     = Analyze.entries d1).
  { destruct H as [(err & _ & ->)|(b1 & _ & [(err & _ & ->)|(b2 & _ & ->)])];
      [reflexivity|destruct b1; reflexivity|destruct b1, b2; reflexivity]. }
  intro Hz. rewrite (Hinst _ Hentries) in Hz. unfold in_zone in Hz.
  apply Forall_app in Hz. destruct Hz as [Hzd Hzts].
  pose proof (Forall_inv Hzts) as Hts. cbv beta in Hts. clear Hzts.
  specialize (He Hzd). destruct Hc as (Hcount & Hfin & Hlin).
  unfold extremal_fields. rewrite (Hinst _ Hentries).
  destruct Hb as [(Hf & Hl & H0)|(Hf & Hl & _)].
  - (* the first dated record of the file *)
    assert (Hnil : recorded_instants d = []).
    { unfold recorded_instants. rewrite H0 in Hcount.
      destruct (Analyze.entries d); [reflexivity|simpl in Hcount; lia]. }
    rewrite Hf, Hl in H. cbn [Analyze.unset_or] in H.
    destruct H as [(err & E & _)|(b1 & E1 & [(err & E & _)|(b2 & E2 & ->)])];
      try discriminate.
    injection E1 as <-. injection E2 as <-. cbn.
    intros a b Ha Hb t Ht. injection Ha as <-. injection Hb as <-.
    rewrite Hnil in Ht. destruct Ht as [<-|[]].
    rewrite fields_compare_refl. split; discriminate.
  - (* a later one: both bounds are set and in the zone *)
    destruct (Analyze.first_timestamp d) as [f|] eqn:Ef; [|congruence].
    destruct (Analyze.last_timestamp d) as [l0|] eqn:El; [|congruence].
    assert (Hzf : Datetime.tzinfo ts = Datetime.tzinfo f).
    { rewrite Forall_forall in Hzd. rewrite (Hzd f (Hfin f eq_refl)). exact Hts. }
    assert (Hzl : Datetime.tzinfo ts = Datetime.tzinfo l0).
    { rewrite Forall_forall in Hzd. rewrite (Hzd l0 (Hlin l0 eq_refl)). exact Hts. }
    cbn [Analyze.unset_or] in H.
    rewrite (proj1 (lt_in_zone ts f Hzf)), (proj2 (lt_in_zone ts l0 Hzl)) in H.
    destruct H as [(err & E & _)|(b1 & E1 & [(err & E & _)|(b2 & E2 & ->)])];
      try discriminate.
    injection E1 as <-. injection E2 as <-.
    specialize (He f l0 Ef El).
    intros a b Ha Hb t Ht.
    assert (Ha' : a = if match Datetime.fields_compare (Datetime.fields ts)
                               (Datetime.fields f) with Lt => true | _ => false end
                      then ts else f).
    { destruct (Datetime.fields_compare (Datetime.fields ts) (Datetime.fields f)),
        (Datetime.fields_compare (Datetime.fields ts) (Datetime.fields l0));
        cbn in Ha; unfold d1 in Ha; cbn in Ha; rewrite ?Ef in Ha; congruence. }
    assert (Hb' : b = if match Datetime.fields_compare (Datetime.fields ts)
                               (Datetime.fields l0) with Gt => true | _ => false end
                      then ts else l0).
    { destruct (Datetime.fields_compare (Datetime.fields ts) (Datetime.fields f)),
        (Datetime.fields_compare (Datetime.fields ts) (Datetime.fields l0));
        cbn in Hb; unfold d1 in Hb; cbn in Hb; rewrite ?El in Hb; congruence. }
    clear Ha Hb. subst a b.
    apply in_app_or in Ht. destruct Ht as [Ht|[<-|[]]].
    + destruct (He t Ht) as [Hlo Hhi]. split.
      * destruct (Datetime.fields_compare (Datetime.fields ts) (Datetime.fields f))
          eqn:E; try exact Hlo.
        intro Hlt. apply Hlo. eapply fields_compare_lt_trans; eassumption.
      * destruct (Datetime.fields_compare (Datetime.fields ts) (Datetime.fields l0))
          eqn:E; try exact Hhi.
        intro Hgt. apply Hhi. apply fields_compare_gt.
        apply fields_compare_gt in E. apply fields_compare_gt in Hgt.
        eapply fields_compare_lt_trans; eassumption.
    + split.
      * destruct (Datetime.fields_compare (Datetime.fields ts) (Datetime.fields f))
          eqn:E; [rewrite E; discriminate|rewrite fields_compare_refl; discriminate
                 |rewrite E; discriminate].
      * destruct (Datetime.fields_compare (Datetime.fields ts) (Datetime.fields l0))
          eqn:E; [rewrite E; discriminate|rewrite E; discriminate
                 |rewrite fields_compare_refl; discriminate].
Qed.

Lemma file_scan_zone_invariant (z : option Z) (f : log_file) :
  zone_invariant z (Analyze.analyze_jsonl_file f).
Proof.
  assert (H0 : zone_invariant z Analyze.empty_data).
  { split; [left; repeat split|]. split; [repeat split; intros a Ha; discriminate Ha|].
    intros _ a b Ha. discriminate Ha. }
  rewrite !analyze_jsonl_file_lines. unfold try_except_all, sbind, lift, Analyze.open_lines.
  destruct (file_lines f) as [ls|]; cbn [snd]; [|exact H0].
  pose proof (for_each_invariant Analyze.scan_line (zone_invariant z)
                (scan_line_zone_invariant z) ls Analyze.empty_data H0) as H.
  destruct (for_each Analyze.scan_line ls Analyze.empty_data) as [[[]|e] s'];
    exact H.
Qed.

(** X2. When the instants recorded from a file are written in one zone
    form (all naive, or all with the same offset), no recorded instant is
    earlier than the file's first instant or later than its last one. *)
Theorem file_bounds_are_extremal (f : log_file) (z : option Z) :
  in_zone z (recorded_instants (Analyze.analyze_jsonl_file f)) ->
  bounds_extremal (Analyze.analyze_jsonl_file f).
Proof.
  intro Hz. destruct (file_scan_zone_invariant z f) as (_ & (_ & Hfin & Hlin) & He).
  specialize (He Hz). intros a b Ha Hb t Ht.
  destruct (He a b Ha Hb t Ht) as [Hlo Hhi].
  unfold in_zone in Hz. rewrite Forall_forall in Hz.
  assert (Hta : Datetime.tzinfo t = Datetime.tzinfo a)
    by (rewrite (Hz t Ht), (Hz a (Hfin a Ha)); reflexivity).
  assert (Htb : Datetime.tzinfo t = Datetime.tzinfo b)
    by (rewrite (Hz t Ht), (Hz b (Hlin b Hb)); reflexivity).
  rewrite (proj1 (lt_in_zone t a Hta)), (proj2 (lt_in_zone t b Htb)).
  destruct (Datetime.fields_compare (Datetime.fields t) (Datetime.fields a)),
    (Datetime.fields_compare (Datetime.fields t) (Datetime.fields b));
    split; congruence.
Qed.

(** ** The accounts of the project scan *)

Lemma sum_messages_app (l1 l2 : list Analyze.file_info) :
  sum_messages (l1 ++ l2) = sum_messages l1 + sum_messages l2.
Proof.
  induction l1 as [|fi rest IH]; simpl; [reflexivity|]. rewrite IH. lia.
Qed.

Lemma sum_messages_perm (l1 l2 : list Analyze.file_info) :
  Permutation l1 l2 -> sum_messages l1 = sum_messages l2.
Proof.
  induction 1; simpl; lia.
Qed.

Lemma merge_bound_choice (rel : Datetime.datetime -> Datetime.datetime -> outcome bool)
    (candidate current r : option Datetime.datetime) :
  Analyze.merge_bound rel candidate current = Ret r ->
  r = candidate \/ r = current.
Proof.
  unfold Analyze.merge_bound. destruct candidate as [c|]; [|intro H; right; congruence].
  destruct (Analyze.unset_or rel c current) as [[|]|e]; simpl; intro H;
    inversion H; auto.
Qed.

Lemma scan_file_accounts (now : Datetime.clock) (acc acc' : Analyze.project_acc)
    (f : log_file) :
  acc_accounts acc -> Analyze.scan_file now acc f = Ret acc' ->
  acc_accounts acc'.
Proof.
  intros (Ht & Hr & He & Hl).
  unfold Analyze.scan_file, Analyze.get_file_age_days, Analyze.getmtime.
  destruct (file_mtime f) as [mtime|];
    cbn [obind fst snd Datetime.fields Datetime.naive]; [|discriminate].
  destruct (Datetime.days_between now mtime <=? Analyze.WEEK_DAYS) eqn:Eage;
    [|intro H; inversion H; subst; repeat split; assumption].
  destruct (Analyze.message_count (Analyze.analyze_jsonl_file f) >? 0) eqn:Hpos;
    [|intro H; inversion H; subst; repeat split; assumption].
  apply Z.leb_le in Eage. apply Z.gtb_lt in Hpos.
  destruct (counted_file_has_bounds f) as (a & b & Ha & Hb); [lia|].
  rewrite Ha, Hb.
  destruct (Analyze.merge_bound Datetime.lt (Some a) (Analyze.earliest_ts acc))
    as [e1|err] eqn:E1; cbn [obind]; [|discriminate].
  destruct (Analyze.merge_bound Datetime.gt (Some b) (Analyze.latest_ts acc))
    as [l1|err] eqn:E2; cbn [obind]; [|discriminate].
  intro H; inversion H; subst. clear H. unfold acc_accounts. simpl.
  split; [rewrite sum_messages_app, Ht; simpl; lia|].
  split.
  { apply Forall_app. split; [exact Hr|]. constructor; [|constructor].
    unfold retained_summary. simpl. repeat split; try discriminate; lia. }
  split.
  - intros e Ee. subst e1.
    destruct (merge_bound_choice _ _ _ _ E1) as [E|E].
    + eexists. split; [apply in_or_app; right; left; reflexivity|]. simpl.
      symmetry. exact E.
    + destruct (He e (eq_sym E)) as (fi & Hin & Hfi).
      exists fi. split; [apply in_or_app; left; exact Hin|exact Hfi].
  - intros l El. subst l1.
    destruct (merge_bound_choice _ _ _ _ E2) as [E|E].
    + eexists. split; [apply in_or_app; right; left; reflexivity|]. simpl.
      symmetry. exact E.
    + destruct (Hl l (eq_sym E)) as (fi & Hin & Hfi).
      exists fi. split; [apply in_or_app; left; exact Hin|exact Hfi].
Qed.

Lemma by_modified_returns (l : list Analyze.file_info) :
  Forall retained_summary l ->
  forall x y, In x l -> In y l -> exists b, Analyze.by_modified x y = Ret b.
Proof.
  intros H x y Hx Hy. rewrite Forall_forall in H.
  unfold Analyze.by_modified. apply datetime_lt_returns. left.
  split; [apply (H x Hx)|apply (H y Hy)].
Qed.

Lemma scan_project_accounts (now : Datetime.clock) (ps ps' : list Analyze.project)
    (d : dir_entry) :
  Forall project_accounts ps -> Analyze.scan_project now ps d = Ret ps' ->
  Forall project_accounts ps'.
Proof.
  intros Hps. unfold Analyze.scan_project.
  destruct (entry_is_dir d && negb (PyStr.startswith (entry_name d) "."));
    [|intro H; inversion H; subst; exact Hps].
  destruct (fold_outcome (Analyze.scan_file now) (Analyze.all_files d)
              Analyze.empty_acc) as [acc|e] eqn:E; cbn [obind]; [|discriminate].
  assert (Hacc : acc_accounts acc).
  { eapply (fold_outcome_invariant (Analyze.scan_file now) acc_accounts);
      [intros; eapply scan_file_accounts; eassumption| |exact E].
    repeat split; [constructor|intros x Hx; discriminate Hx
                  |intros x Hx; discriminate Hx]. }
  destruct Hacc as (Ht & Hr & He & Hl).
  destruct (Analyze.recent_activity acc) as [|fi rest] eqn:Hra;
    [intro H; inversion H; subst; exact Hps|].
  destruct (sort_desc Analyze.by_modified (fi :: rest)) as [sorted|e] eqn:Es;
    cbn [obind]; [|discriminate].
  intro H; inversion H; subst. clear H. apply Forall_app. split; [exact Hps|].
  constructor; [|constructor].
  pose proof (sort_desc_perm Analyze.by_modified _ _ Es) as Hperm.
  unfold project_accounts. simpl. repeat split.
  - intro Hnil. subst sorted. apply Permutation_sym, Permutation_nil in Hperm.
    discriminate Hperm.
  - rewrite <- (Permutation_length Hperm). reflexivity.
  - rewrite Ht. apply sum_messages_perm, Hperm.
  - eapply Permutation_Forall; eassumption.
  - intros e0 He0. destruct (He e0 He0) as (x & Hx & Hxe).
    exists x. split; [eapply Permutation_in; eassumption|exact Hxe].
  - intros l0 Hl0. destruct (Hl l0 Hl0) as (x & Hx & Hxl).
    exists x. split; [eapply Permutation_in; eassumption|exact Hxl].
  - eapply (sort_desc_descending Analyze.by_modified); [|exact Es].
    intros x y. apply datetime_lt_asym.
Qed.

Lemma scan_projects_accounted (tree : list dir_entry) (now : Datetime.clock)
    (ps : list Analyze.project) :
  Analyze.scan_all_projects tree now = Ret ps ->
  Forall project_accounts ps /\ descending Analyze.by_latest_activity ps.
Proof.
  intro H. unfold Analyze.scan_all_projects in H.
  destruct (Analyze.collect_projects tree now) as [ps0|e] eqn:E; cbn [obind] in H;
    [|discriminate].
  split.
  - eapply Permutation_Forall;
      [eapply (sort_desc_perm Analyze.by_latest_activity), H|].
    unfold Analyze.collect_projects in E.
    eapply (fold_outcome_invariant (Analyze.scan_project now)
              (Forall project_accounts));
      [intros; eapply scan_project_accounts; eassumption| |exact E].
    constructor.
  - eapply (sort_desc_descending Analyze.by_latest_activity); [|exact H].
    intros x y. apply datetime_lt_asym.
Qed.

(** X3. Every project the summary scan reports has at least one File
    Summary; each of them is within the 7-day cutoff, has a positive count
    and both instants; [files_count] is their number and [total_messages]
    the sum of their counts; the earliest and latest activity are the first
    and last instant of one of them; they are listed from the most recently
    modified; and the projects themselves come from the most recently
    active. *)
Theorem reported_projects_account (tree : list dir_entry) (now : Datetime.clock)
    (ps : list Analyze.project) :
  Analyze.scan_all_projects tree now = Ret ps ->
  Forall project_accounts ps /\ descending Analyze.by_latest_activity ps.
Proof. exact (scan_projects_accounted tree now ps). Qed.

Lemma reported_projects_account_witness :
  exists ps,
    Analyze.scan_all_projects SampleTree.agent_only Sample.now = Ret ps
    /\ Forall project_accounts ps
    /\ descending Analyze.by_latest_activity ps
    /\ map Analyze.total_messages ps = [4].
Proof.
  eexists. split; [vm_compute; reflexivity|].
  split; [|split; [|reflexivity]];
    apply (reported_projects_account SampleTree.agent_only Sample.now);
    vm_compute; reflexivity.
Defined.

Lemma file_bounds_are_extremal_witness :
  bounds_extremal (Analyze.analyze_jsonl_file (SampleTree.demo_file 1))
  /\ bounds_extremal (Analyze.analyze_jsonl_file SampleZones.utc_file).
Proof.
  split.
  - apply (file_bounds_are_extremal (SampleTree.demo_file 1) None).
    vm_compute. repeat constructor.
  - apply (file_bounds_are_extremal SampleZones.utc_file (Some 0)).
    vm_compute. repeat constructor.
Defined.

(** ** The size of the chronology of a scan *)

Lemma timeline_messages_app (l1 l2 : list Analyze.timeline_entry) :
  timeline_messages (l1 ++ l2) = timeline_messages l1 + timeline_messages l2.
Proof.
  induction l1 as [|t rest IH]; simpl; [reflexivity|]. rewrite IH. lia.
Qed.

Lemma timeline_messages_perm (l1 l2 : list Analyze.timeline_entry) :
  Permutation l1 l2 -> timeline_messages l1 = timeline_messages l2.
Proof. induction 1; simpl; lia. Qed.

Lemma retained_files_timeline (n : string) (l : list Analyze.file_info) :
  Forall retained_summary l ->
  Z.of_nat (List.length (flat_map (Analyze.file_timeline n) l))
    = 2 * Z.of_nat (List.length l)
  /\ timeline_messages (flat_map (Analyze.file_timeline n) l)
     = 2 * sum_messages l.
Proof.
  induction 1 as [|fi rest (_ & _ & Hf & Hl & _) _ [IH1 IH2]]; [split; reflexivity|].
  cbn [flat_map]. rewrite length_app, timeline_messages_app, Nat2Z.inj_add, IH1, IH2.
  unfold Analyze.file_timeline.
  destruct (Analyze.first_ts fi); [|congruence].
  destruct (Analyze.last_ts fi); [|congruence].
  cbn [app List.length timeline_messages sum_messages fold_right
       Analyze.tl_messages].
  fold (sum_messages rest). split; lia.
Qed.

Lemma accounted_projects_timeline (ps : list Analyze.project) :
  Forall project_accounts ps ->
  Z.of_nat (List.length (flat_map Analyze.project_timeline ps))
    = 2 * sum_files_count ps
  /\ timeline_messages (flat_map Analyze.project_timeline ps)
     = 2 * sum_total_messages ps.
Proof.
  induction 1 as [|p rest (_ & Hc & Ht & Hr & _) _ [IH1 IH2]]; [split; reflexivity|].
  cbn [flat_map]. rewrite length_app, timeline_messages_app, Nat2Z.inj_add, IH1, IH2.
  unfold Analyze.project_timeline.
  destruct (retained_files_timeline (Analyze.name p) (Analyze.files p) Hr) as [-> ->].
  cbn [sum_files_count sum_total_messages fold_right].
  fold (sum_files_count rest). fold (sum_total_messages rest).
  rewrite Hc, Ht. split; lia.
Qed.

Lemma summary_timeline_size (tree : list dir_entry) (now : Datetime.clock)
    (ps : list Analyze.project) (timeline : list Analyze.timeline_entry) :
  Analyze.summary tree now = Ret (ps, timeline) ->
  Z.of_nat (List.length timeline) = 2 * sum_files_count ps
  /\ timeline_messages timeline = 2 * sum_total_messages ps.
Proof.
  unfold Analyze.summary.
  destruct (Analyze.scan_all_projects tree now) as [ps0|e] eqn:E; cbn [obind];
    [|discriminate].
  destruct (Analyze.build_timeline ps0) as [tl|e] eqn:Et; cbn [obind];
    [|discriminate].
  intro H. injection H as <- <-.
  destruct (scan_projects_accounted tree now ps0 E) as [Hacc _].
  destruct (accounted_projects_timeline ps0 Hacc) as [H1 H2].
  pose proof (sort_desc_perm Analyze.by_timestamp _ _ Et) as Hperm.
  rewrite <- (Permutation_length Hperm), <- (timeline_messages_perm _ _ Hperm).
  split; assumption.
Qed.

(** X4. The chronology built from the result of a project scan has exactly
    two entries for every File Summary, and the message counts its entries
    carry add up to twice the total of the projects. *)
Theorem chronology_of_scan_size (tree : list dir_entry) (now : Datetime.clock)
    (ps : list Analyze.project) (timeline : list Analyze.timeline_entry) :
  Analyze.summary tree now = Ret (ps, timeline) ->
  Z.of_nat (List.length timeline) = 2 * sum_files_count ps
  /\ timeline_messages timeline = 2 * sum_total_messages ps.
Proof. exact (summary_timeline_size tree now ps timeline). Qed.

Lemma chronology_of_scan_size_witness :
  exists ps timeline,
    Analyze.summary (SampleTree.demo 7) Sample.now = Ret (ps, timeline)
    /\ Z.of_nat (List.length timeline) = 2 * sum_files_count ps
    /\ timeline_messages timeline = 2 * sum_total_messages ps
    /\ sum_total_messages ps = 2.
Proof.
  eexists. eexists. split; [vm_compute; reflexivity|].
  split; [|split; [|reflexivity]];
    apply (chronology_of_scan_size (SampleTree.demo 7) Sample.now);
    vm_compute; reflexivity.
Defined.

(** ** Entries of the projects directory that are passed over *)

Lemma fold_outcome_app {A B : Type} (f : B -> A -> outcome B) (xs ys : list A)
    (b : B) :
  fold_outcome f (xs ++ ys) b = obind (fold_outcome f xs b) (fold_outcome f ys).
Proof.
  revert b. induction xs as [|x xs IH]; intro b; simpl; [reflexivity|].
  destruct (f b x) as [b1|e]; simpl; [apply IH|reflexivity].
Qed.

Lemma fold_outcome_skip {A B : Type} (f : B -> A -> outcome B) (xs ys : list A)
    (x : A) :
  (forall b, f b x = Ret b) ->
  forall b, fold_outcome f (xs ++ x :: ys) b = fold_outcome f (xs ++ ys) b.
Proof.
  intros Hskip b. rewrite !fold_outcome_app.
  destruct (fold_outcome f xs b) as [b1|e]; simpl; [|reflexivity].
  rewrite Hskip. reflexivity.
Qed.

(** X5. An entry of the projects directory that is not a directory, or
    whose name starts with a dot, changes the result of neither pipeline:
    the scans give what they give without it. *)
Theorem ignored_entries_change_nothing (d : dir_entry)
    (pre post : list dir_entry) (now : Datetime.clock) :
  ignored_entry d ->
  Analyze.summary (pre ++ d :: post) now = Analyze.summary (pre ++ post) now
  /\ Extract.extract_all_conversations (pre ++ d :: post)
     = Extract.extract_all_conversations (pre ++ post).
Proof.
  intro Hd.
  assert (Hcond : entry_is_dir d && negb (PyStr.startswith (entry_name d) ".")
                  = false).
  { destruct Hd as [-> | ->]; [reflexivity|apply andb_false_r]. }
  split.
  - unfold Analyze.summary, Analyze.scan_all_projects, Analyze.collect_projects.
    rewrite (fold_outcome_skip (Analyze.scan_project now) pre post d);
      [reflexivity|].
    intro ps. unfold Analyze.scan_project. rewrite Hcond. reflexivity.
  - unfold Extract.extract_all_conversations.
    rewrite (for_each_skip Extract.scan_project pre post d); [reflexivity|].
    intro s. unfold Extract.scan_project. rewrite Hcond. reflexivity.
Qed.

Lemma ignored_entries_witness :
  (Analyze.summary
     ([] ++ mk_dir_entry ".cache" true [SampleTree.demo_file 7]
         :: SampleTree.demo 7) Sample.now
   = Analyze.summary ([] ++ SampleTree.demo 7) Sample.now
   /\ Extract.extract_all_conversations
        ([] ++ mk_dir_entry ".cache" true [SampleTree.demo_file 7]
            :: SampleTree.demo 7)
      = Extract.extract_all_conversations ([] ++ SampleTree.demo 7))
  /\ (Analyze.summary
        (SampleTree.demo 7 ++ mk_dir_entry "notes.jsonl" false [] :: [])
        Sample.now
      = Analyze.summary (SampleTree.demo 7 ++ []) Sample.now
      /\ Extract.extract_all_conversations
           (SampleTree.demo 7 ++ mk_dir_entry "notes.jsonl" false [] :: [])
         = Extract.extract_all_conversations (SampleTree.demo 7 ++ [])).
Proof.
  split.
  - apply ignored_entries_change_nothing. right. reflexivity.
  - apply ignored_entries_change_nothing. left. reflexivity.
Defined.

(** ** Files without anything to report *)

Section SkipAll.
Context {S A : Type} (body : A -> stmt S unit) (P : A -> Prop).
Hypothesis body_skips : forall x s, P x -> body x s = (Ret tt, s).

Lemma for_each_skip_all (xs : list A) (s : S) :
  Forall P xs -> for_each body xs s = (Ret tt, s).
Proof.
  induction 1 as [|x rest Hx _ IH]; simpl; [reflexivity|].
  unfold sbind. rewrite (body_skips x s Hx). exact IH.
Qed.
End SkipAll.

Lemma undated_line_skipped (l : line) (d : Analyze.file_data) :
  undated_line l -> Analyze.scan_line l d = (Ret tt, d).
Proof.
  intros [->|[->|(e & -> & H)]]; try reflexivity.
  apply summary_scan_skips_undated, H.
Qed.

Lemma strip_of_empty_content (c : string) :
  PyStr.truthy (PyStr.strip c) = false ->
  PyStr.truthy c && PyStr.truthy (PyStr.strip c) = false.
Proof. intros ->. apply andb_false_r. Qed.

Lemma unexported_line_skipped (project : string) (l : line)
    (s : list Extract.flat_entry) :
  unexported_line l -> Extract.scan_line project l s = (Ret tt, s).
Proof.
  intros [->|[->|(e & -> & [H|(ts & c & r & Hts & Hc & Hs)])]]; try reflexivity.
  - apply detail_scan_skips_undated, H.
  - unfold Extract.scan_line, try_except, sbind, lift.
    cbn [line_strip_truthy negb json_loads].
    rewrite Hts, Hc, (strip_of_empty_content c Hs). reflexivity.
Qed.

Lemma no_dated_record_count (f : log_file) :
  no_dated_record f -> Analyze.analyze_jsonl_file f = Analyze.empty_data.
Proof.
  rewrite analyze_jsonl_file_lines.
  unfold no_dated_record, try_except_all, sbind, lift, Analyze.open_lines.
  destruct (file_lines f) as [ls|]; intro H; [|reflexivity].
  rewrite (for_each_skip_all Analyze.scan_line undated_line
             (fun x s => undated_line_skipped x s) ls Analyze.empty_data H).
  reflexivity.
Qed.

Lemma no_dated_record_skipped (now : Datetime.clock) (acc : Analyze.project_acc)
    (f : log_file) (mtime : Datetime.clock) :
  file_mtime f = Some mtime ->
  no_dated_record f -> Analyze.scan_file now acc f = Ret acc.
Proof.
  intros Hstat H.
  unfold Analyze.scan_file, Analyze.get_file_age_days, Analyze.getmtime.
  rewrite Hstat. cbn [obind fst snd Datetime.fields Datetime.naive].
  rewrite (no_dated_record_count f H).
  destruct (Datetime.days_between now mtime <=? Analyze.WEEK_DAYS);
    reflexivity.
Qed.

Lemma no_exported_record_skipped (project : string) (f : log_file)
    (s : list Extract.flat_entry) :
  no_exported_record f -> Extract.scan_file project f s = (Ret tt, s).
Proof.
  rewrite detail_scan_file_lines.
  unfold no_exported_record, try_except_all, sbind, lift, Analyze.open_lines, sret.
  destruct (file_lines f) as [ls|]; intro H; [|reflexivity].
  rewrite (for_each_skip_all (Extract.scan_line project) unexported_line
             (fun x s0 => unexported_line_skipped project x s0) ls s H).
  reflexivity.
Qed.

Section FilterSkip.
Context {A B : Type} (f : B -> A -> outcome B) (x : A).
Hypothesis skip : forall b, f b x = Ret b.

Lemma fold_outcome_filter_skip (keep : A -> bool) (pre post tail : list A)
    (b : B) :
  fold_outcome f (filter keep (pre ++ x :: post) ++ tail) b
  = fold_outcome f (filter keep (pre ++ post) ++ tail) b.
Proof.
  rewrite !filter_app. cbn [filter]. destruct (keep x); [|reflexivity].
  rewrite <- !app_assoc. cbn [app]. apply fold_outcome_skip, skip.
Qed.

Lemma fold_outcome_filter_skip_tail (keep : A -> bool) (head pre post : list A)
    (b : B) :
  fold_outcome f (head ++ filter keep (pre ++ x :: post)) b
  = fold_outcome f (head ++ filter keep (pre ++ post)) b.
Proof.
  rewrite !filter_app. cbn [filter]. destruct (keep x); [|reflexivity].
  rewrite !app_assoc. apply fold_outcome_skip, skip.
Qed.
End FilterSkip.

(** X6. A log file whose modification time can be read and that cannot be
    opened, or that yields no dated record (only blank lines, malformed
    lines and records without an instant, however its reading ends), never
    shows in the summary: whatever its name and age, the scan of the project
    gives what it gives without the file. *)
Theorem file_without_dated_record_unreported (f : log_file)
    (mtime : Datetime.clock) (n : string)
    (is_dir : bool) (pre post : list log_file) (now : Datetime.clock)
    (ps : list Analyze.project) :
  file_mtime f = Some mtime ->
  no_dated_record f ->
  Analyze.scan_project now ps (mk_dir_entry n is_dir (pre ++ f :: post))
  = Analyze.scan_project now ps (mk_dir_entry n is_dir (pre ++ post)).
Proof.
  intros Hstat H. unfold Analyze.scan_project, Analyze.all_files.
  cbn [entry_is_dir entry_name entry_files].
  destruct (is_dir && negb (PyStr.startswith n ".")); [|reflexivity].
  rewrite (fold_outcome_filter_skip (Analyze.scan_file now) f
             (fun b => no_dated_record_skipped now b f mtime Hstat H)).
  rewrite (fold_outcome_filter_skip_tail (Analyze.scan_file now) f
             (fun b => no_dated_record_skipped now b f mtime Hstat H)).
  reflexivity.
Qed.

Lemma file_without_dated_record_witness :
  Analyze.scan_project Sample.now []
    (mk_dir_entry "p" true
       ([SampleTree.demo_file 7]
        ++ mk_log_file "locked.jsonl" (Some (Sample.noon 7)) None None :: []))
  = Analyze.scan_project Sample.now []
      (mk_dir_entry "p" true ([SampleTree.demo_file 7] ++ []))
  /\ Analyze.scan_project Sample.now []
       (mk_dir_entry "p" true
          ([] ++ mk_log_file "agent-0.jsonl" (Some (Sample.noon 7))
                   (Some [Blank; Malformed; Decoded SampleLines.undated])
                   (Some UnicodeDecodeError)
              :: [SampleTree.demo_file 7]))
     = Analyze.scan_project Sample.now []
         (mk_dir_entry "p" true ([] ++ [SampleTree.demo_file 7])).
Proof.
  split.
  - apply (file_without_dated_record_unreported _ (Sample.noon 7));
      [reflexivity|exact I].
  - apply (file_without_dated_record_unreported _ (Sample.noon 7));
      [reflexivity|].
    constructor; [left; reflexivity|].
    constructor; [right; left; reflexivity|].
    constructor; [|constructor].
    right. right. exists SampleLines.undated. split; reflexivity.
Defined.

(** X7. A log file that cannot be opened, or in which no record is dated
    and has text left after stripping, adds nothing to the flat export and
    does not stop it: the scan of the project gives what it gives without
    the file. *)
Theorem file_without_text_unexported (f : log_file) (n : string)
    (is_dir : bool) (pre post : list log_file) (s : list Extract.flat_entry) :
  no_exported_record f ->
  Extract.scan_project (mk_dir_entry n is_dir (pre ++ f :: post)) s
  = Extract.scan_project (mk_dir_entry n is_dir (pre ++ post)) s.
Proof.
  intro H. unfold Extract.scan_project.
  cbn [entry_is_dir entry_name entry_files].
  destruct (is_dir && negb (PyStr.startswith n ".")); [|reflexivity].
  rewrite !filter_app. cbn [filter].
  destruct (PyPath.matches_jsonl (file_name f)); [|reflexivity].
  apply for_each_skip. intro s0. apply no_exported_record_skipped, H.
Qed.

Lemma file_without_text_witness :
  Extract.scan_project
    (mk_dir_entry "p" true
       ([SampleTree.demo_file 7]
        ++ mk_log_file "locked.jsonl" None None None :: [])) []
  = Extract.scan_project
      (mk_dir_entry "p" true ([SampleTree.demo_file 7] ++ [])) []
  /\ Extract.scan_project
       (mk_dir_entry "p" true
          ([] ++ file_of "blank.jsonl" (Sample.noon 7)
                   [Blank; Decoded SampleLines.misdated;
                    Decoded (Sample.record "user" "2024-01-01T10:00:00" "  ")]
              :: [SampleTree.demo_file 7])) []
     = Extract.scan_project
         (mk_dir_entry "p" true ([] ++ [SampleTree.demo_file 7])) [].
Proof.
  split.
  - apply file_without_text_unexported. exact I.
  - apply file_without_text_unexported.
    constructor; [left; reflexivity|].
    constructor; [right; right; exists SampleLines.misdated; split;
                  [reflexivity|left; reflexivity]|].
    constructor; [|constructor].
    right. right. eexists. split; [reflexivity|]. right.
    exists (Sample.instant 2024 1 1 10 0 0 None), "  ", (Some "user").
    repeat split; reflexivity.
Defined.

(** ** Stripping *)

Lemma lstrip_length (s : string) :
  (String.length (PyStr.lstrip s) <= String.length s)%nat.
Proof.
  induction s as [|c r IH]; simpl; [lia|]. destruct (PyStr.is_space c); simpl; lia.
Qed.

Lemma rstrip_length (s : string) :
  (String.length (PyStr.rstrip s) <= String.length s)%nat.
Proof.
  induction s as [|c r IH]; simpl; [lia|].
  destruct (PyStr.rstrip r); [destruct (PyStr.is_space c)|]; simpl in *; lia.
Qed.

Lemma strip_length (s : string) :
  (String.length (PyStr.strip s) <= String.length s)%nat.
Proof.
  unfold PyStr.strip. pose proof (rstrip_length (PyStr.lstrip s)).
  pose proof (lstrip_length s). lia.
Qed.

Lemma rstrip_idempotent (s : string) :
  PyStr.rstrip (PyStr.rstrip s) = PyStr.rstrip s.
Proof.
  induction s as [|c r IH]; [reflexivity|]. cbn [PyStr.rstrip].
  destruct (PyStr.rstrip r) as [|c' r'] eqn:E.
  - destruct (PyStr.is_space c) eqn:Ec; [reflexivity|]. simpl. rewrite Ec.
    reflexivity.
  - cbn [PyStr.rstrip]. cbn [PyStr.rstrip] in IH. rewrite IH. reflexivity.
Qed.

Lemma lstrip_head (s : string) :
  PyStr.lstrip s = EmptyString
  \/ exists c r, PyStr.lstrip s = String c r /\ PyStr.is_space c = false.
Proof.
  induction s as [|c r IH]; [left; reflexivity|]. simpl.
  destruct (PyStr.is_space c) eqn:E; [exact IH|right; eauto].
Qed.

Lemma rstrip_keeps_head (c : ascii) (r : string) :
  PyStr.is_space c = false -> exists r', PyStr.rstrip (String c r) = String c r'.
Proof.
  intro Hc. cbn [PyStr.rstrip]. destruct (PyStr.rstrip r); [rewrite Hc|]; eauto.
Qed.

(** Stripping twice is stripping once. *)
Lemma strip_idempotent (s : string) :
  PyStr.strip (PyStr.strip s) = PyStr.strip s.
Proof.
  unfold PyStr.strip.
  destruct (lstrip_head s) as [->|(c & r & -> & Hc)]; [reflexivity|].
  destruct (rstrip_keeps_head c r Hc) as [r' Hr].
  assert (Hl : PyStr.lstrip (PyStr.rstrip (String c r)) = PyStr.rstrip (String c r)).
  { rewrite Hr. simpl. rewrite Hc. reflexivity. }
  rewrite Hl. apply rstrip_idempotent.
Qed.

(** ** The Record Extractor *)

Lemma extract_role_cases (entry : json) (content : string)
    (role : option string) :
  Extract.extract_message_content entry = Ret (content, role) ->
  role = Some "user" \/ role = Some "assistant"
  \/ (role = None /\ content = EmptyString).
Proof.
  unfold Extract.extract_message_content.
  destruct (Py.get entry "type" JNull) as [ty|e]; cbn [obind]; [|discriminate].
  destruct (Py.eq_str ty "user").
  - destruct (Py.get entry "message" (JDict [])) as [msg|e]; cbn [obind];
      [|discriminate].
    destruct (Py.get msg "content" (JStr "")) as [cont|e]; cbn [obind];
      [|discriminate].
    intro H. injection H as _ <-. left. reflexivity.
  - destruct (Py.eq_str ty "assistant" || Py.eq_str ty "message").
    + destruct (Py.get entry "message" (JDict [])) as [msg|e]; cbn [obind];
        [|discriminate].
      match goal with
      | |- obind ?m _ = _ -> _ => destruct m as [c|e]; cbn [obind]; [|discriminate]
      end.
      intro H. injection H as _ <-. right. left. reflexivity.
    + intro H. injection H as <- <-. right. right. split; reflexivity.
Qed.

(** X8. Whatever record it is given, [extract_message_content] answers with
    the role [user], the role [assistant], or no role at all, and without a
    role the text is empty. *)
Theorem extracted_role_is_closed (entry : json) (content : string)
    (role : option string) :
  Extract.extract_message_content entry = Ret (content, role) ->
  role = Some "user" \/ role = Some "assistant"
  \/ (role = None /\ content = EmptyString).
Proof. exact (extract_role_cases entry content role). Qed.

Lemma extracted_role_witness :
  Some "assistant" = Some "user" \/ Some "assistant" = Some "assistant"
  \/ (Some "assistant" = None /\ "second" = EmptyString).
Proof.
  apply (extracted_role_is_closed
           (Sample.record "assistant" "2024-01-01T12:00:00" "second")).
  reflexivity.
Defined.

(** ** The entries of the flat export *)

Lemma take_append (k n : nat) (s t : string) :
  String.length s = k -> PyStr.take (k + n) (s ++ t) = s ++ PyStr.take n t.
Proof.
  revert k. induction s as [|c r IH]; intros k <-; simpl; [reflexivity|].
  rewrite (IH _ eq_refl). reflexivity.
Qed.

Lemma drop_append (k n : nat) (s t : string) :
  String.length s = k -> PyStr.drop (k + n) (s ++ t) = PyStr.drop n t.
Proof.
  revert k. induction s as [|c r IH]; intros k <-; simpl; [reflexivity|].
  apply (IH _ eq_refl).
Qed.

Lemma take_cons (n : nat) (c : ascii) (s : string) :
  PyStr.take (S n) (String c s) = String c (PyStr.take n s).
Proof. reflexivity. Qed.

Lemma drop_cons (n : nat) (c : ascii) (s : string) :
  PyStr.drop (S n) (String c s) = PyStr.drop n s.
Proof. reflexivity. Qed.

Lemma take_none (s : string) : PyStr.take 0 s = EmptyString.
Proof. destruct s; reflexivity. Qed.

Lemma drop_none (s : string) : PyStr.drop 0 s = s.
Proof. destruct s; reflexivity. Qed.

Lemma take_all (s : string) : PyStr.take (String.length s) s = s.
Proof. induction s as [|c r IH]; simpl; [reflexivity|rewrite IH; reflexivity]. Qed.

(** The date and time texts of a parsed instant are slices of its ISO
    text. *)
Lemma iso_slices (d : Datetime.datetime) :
  valid_clock (Datetime.fields d) ->
  Datetime.strftime_date d = PyStr.take 10 (Datetime.isoformat d)
  /\ Datetime.strftime_time d = PyStr.take 5 (PyStr.drop 11 (Datetime.isoformat d)).
Proof.
  unfold valid_clock, Datetime.valid_fields. intro Ha.
  repeat (apply andb_prop in Ha; destruct Ha as [Ha ?]).
  repeat match goal with
         | H : (_ <=? _) = true |- _ => apply Z.leb_le in H
         end.
  pose proof (days_in_month_bound (Datetime.year (Datetime.fields d))
                (Datetime.month (Datetime.fields d))).
  unfold Datetime.strftime_date, Datetime.strftime_time, Datetime.isoformat.
  cbv zeta.
  rewrite !(zero_pad_in_range 4) by (change (10 ^ Z.of_nat 4) with 10000; lia).
  rewrite !(zero_pad_in_range 2) by (change (10 ^ Z.of_nat 2) with 100; lia).
  set (rest := (if Datetime.microsecond (Datetime.fields d) =? 0 then ""
                else "." ++ PyStr.zero_pad 6 (Datetime.microsecond (Datetime.fields d)))
               ++ match Datetime.tzinfo d with
                  | Some off => Datetime.offset_text off
                  | None => ""
                  end).
  split.
  - rewrite (take_append 4 6) by apply pad_length. cbn [append].
    rewrite (take_cons 5), (take_append 2 3) by apply pad_length. cbn [append].
    rewrite (take_cons 2), (take_append 2 0) by apply pad_length.
    rewrite take_none, append_empty. reflexivity.
  - rewrite (drop_append 4 7) by apply pad_length. cbn [append].
    rewrite (drop_cons 6), (drop_append 2 4) by apply pad_length. cbn [append].
    rewrite (drop_cons 3), (drop_append 2 1) by apply pad_length. cbn [append].
    rewrite (drop_cons 0), drop_none.
    rewrite (take_append 2 3) by apply pad_length. cbn [append].
    rewrite (take_cons 2), (take_append 2 0) by apply pad_length.
    rewrite take_none, append_empty. reflexivity.
Qed.

Lemma length_take_le (n : nat) (s : string) :
  (String.length (PyStr.take n s) <= n)%nat.
Proof.
  revert s. induction n as [|k IH]; intros [|c r]; simpl; try lia.
  specialize (IH r). lia.
Qed.

Lemma truncate_length (content : string) :
  PyStr.len (Extract.truncate content) <= Extract.cap + PyStr.len Extract.marker.
Proof.
  unfold Extract.truncate, PyStr.len.
  destruct (Z.of_nat (String.length content) >? Extract.cap) eqn:E.
  - rewrite length_append, Nat2Z.inj_add.
    pose proof (length_take_le (Z.to_nat Extract.cap) content).
    unfold Extract.cap in *. lia.
  - rewrite Z.gtb_ltb in E. apply Z.ltb_ge in E.
    change (Z.of_nat (String.length Extract.marker)) with 14. lia.
Qed.

Lemma truncate_strip_not_empty (content : string) :
  PyStr.truthy (PyStr.strip content) = true ->
  PyStr.strip (Extract.truncate content) <> EmptyString.
Proof.
  intro H. unfold Extract.truncate.
  destruct (PyStr.len content >? Extract.cap).
  - rewrite strip_before_marker.
    destruct (PyStr.lstrip (PyStr.take (Z.to_nat Extract.cap) content));
      discriminate.
  - destruct (PyStr.strip content); [discriminate H|discriminate].
Qed.

(** The entry the detail scan appends for a dated record with text. *)
Lemma exported_entry_ok (entry : json) (project : string)
    (ts : Datetime.datetime) (content : string) (role : option string) :
  Extract.record_timestamp entry = Ret (Some ts) ->
  Extract.extract_message_content entry = Ret (content, role) ->
  PyStr.truthy content && PyStr.truthy (PyStr.strip content) = true ->
  let e := Extract.mk_flat_entry (Datetime.isoformat ts)
             (Datetime.strftime_date ts) (Datetime.strftime_time ts)
             project role (PyStr.strip (Extract.truncate content)) in
  entry_text_ok e /\ entry_slices_ok e.
Proof.
  intros Hts Hext Hc. apply andb_prop in Hc. destruct Hc as [Hne Hstrip].
  cbv zeta. split.
  - unfold entry_text_ok. cbn [Extract.message Extract.role].
    split; [apply truncate_strip_not_empty, Hstrip|].
    split; [apply strip_idempotent|]. split.
    + pose proof (strip_length (Extract.truncate content)).
      pose proof (truncate_length content). unfold PyStr.len in *. lia.
    + destruct (extract_role_cases entry content role Hext)
        as [Hr|[Hr|[_ Hempty]]]; [left; exact Hr|right; exact Hr|].
      subst content. discriminate Hne.
  - unfold entry_slices_ok. cbn [Extract.date Extract.time Extract.datetime].
    apply iso_slices. eapply detail_timestamp_valid, Hts.
Qed.

Lemma detail_scan_line_entries (P : Extract.flat_entry -> Prop)
    (project : string) (l : line) (s : list Extract.flat_entry) :
  (forall e, Extract.project e = project ->
             entry_text_ok e -> entry_slices_ok e -> P e) ->
  Forall P s -> Forall P (snd (Extract.scan_line project l s)).
Proof.
  intros HP Hs. destruct l as [| |e]; try exact Hs.
  unfold Extract.scan_line, try_except, sbind, lift, modify, sret.
  cbn [line_strip_truthy negb json_loads].
  destruct (Extract.record_timestamp e) as [[ts|]|err] eqn:Ets.
  - destruct (Extract.extract_message_content e) as [[content role]|err] eqn:Eext.
    + destruct (PyStr.truthy content && PyStr.truthy (PyStr.strip content)) eqn:Ec;
        [|exact Hs].
      cbn [snd]. apply Forall_app. split; [exact Hs|].
      constructor; [|constructor].
      destruct (exported_entry_ok e project ts content role Ets Eext Ec).
      apply HP; [reflexivity|assumption|assumption].
    + destruct (existsb (exn_isinstance err) [JSONDecodeError; KeyError; ValueError]);
        exact Hs.
  - exact Hs.
  - destruct (existsb (exn_isinstance err) [JSONDecodeError; KeyError; ValueError]);
      exact Hs.
Qed.

Lemma detail_scan_file_entries (P : Extract.flat_entry -> Prop)
    (project : string) (f : log_file) (s : list Extract.flat_entry) :
  (forall e, Extract.project e = project ->
             entry_text_ok e -> entry_slices_ok e -> P e) ->
  Forall P s -> Forall P (snd (Extract.scan_file project f s)).
Proof.
  intros HP Hs.
  rewrite !detail_scan_file_lines. unfold try_except_all, sbind, lift, Analyze.open_lines.
  destruct (file_lines f) as [ls|]; [|exact Hs].
  pose proof (for_each_invariant (Extract.scan_line project) (Forall P)
                (fun l s0 => detail_scan_line_entries P project l s0 HP) ls s Hs)
    as H.
  destruct (for_each (Extract.scan_line project) ls s) as [[[]|e] s']; exact H.
Qed.

Section InvariantIn.
Context {S A : Type} (body : A -> stmt S unit) (P : S -> Prop) (xs : list A).
Hypothesis step : forall x s, In x xs -> P s -> P (snd (body x s)).

Lemma for_each_invariant_in (ys : list A) (s : S) :
  incl ys xs -> P s -> P (snd (for_each body ys s)).
Proof.
  revert s. induction ys as [|y ys IH]; intros s Hincl Hs; simpl; [exact Hs|].
  unfold sbind.
  assert (Hy : In y xs) by (apply Hincl; left; reflexivity).
  specialize (step y s Hy Hs).
  destruct (body y s) as [[[]|e] s']; simpl in *; [|exact step].
  apply IH; [|exact step]. intros z Hz. apply Hincl. right. exact Hz.
Qed.
End InvariantIn.

Lemma flat_export_entries (tree : list dir_entry)
    (all_entries : list Extract.flat_entry) :
  Extract.extract_all_conversations tree = Ret all_entries ->
  Forall (fun e => entry_text_ok e /\ entry_slices_ok e /\ entry_project_ok tree e)
    all_entries.
Proof.
  intro H. unfold Extract.extract_all_conversations in H.
  set (P := fun e => entry_text_ok e /\ entry_slices_ok e /\ entry_project_ok tree e).
  assert (Hall : Forall P (snd (for_each Extract.scan_project tree []))).
  { apply (for_each_invariant_in Extract.scan_project (Forall P) tree);
      [|apply incl_refl|constructor].
    intros d s Hd Hs. unfold Extract.scan_project.
    destruct (entry_is_dir d) eqn:Edir; [|exact Hs].
    destruct (PyStr.startswith (entry_name d) ".") eqn:Ehid; [exact Hs|].
    cbn [andb negb]. apply for_each_invariant; [|exact Hs].
    intros f s0 Hs0. apply detail_scan_file_entries; [|exact Hs0].
    intros e Hproj Ht Hsl. split; [exact Ht|]. split; [exact Hsl|].
    exists d. repeat split; assumption. }
  destruct (for_each Extract.scan_project tree []) as [[[]|e] s]; [|discriminate].
  cbn [snd] in Hall.
  eapply Permutation_Forall; [eapply sort_desc_perm, H|exact Hall].
Qed.

(** X9. Every entry of the flat export has a message that is not empty,
    has no whitespace at either end and is at most 10000 characters plus
    the marker long, and its role is [user] or [assistant]. *)
Theorem exported_messages_are_clean (tree : list dir_entry)
    (all_entries : list Extract.flat_entry) :
  Extract.extract_all_conversations tree = Ret all_entries ->
  Forall entry_text_ok all_entries.
Proof.
  intro H. eapply Forall_impl; [|apply (flat_export_entries tree), H].
  intros e (Ht & _). exact Ht.
Qed.

(** X10. In every entry of the flat export the date is the first ten
    characters of the ISO text of the instant and the time of day its
    characters 11 to 15, and the project label is the display name of a
    directory of the tree that is not hidden. *)
Theorem exported_fields_agree (tree : list dir_entry)
    (all_entries : list Extract.flat_entry) :
  Extract.extract_all_conversations tree = Ret all_entries ->
  Forall (fun e => entry_slices_ok e /\ entry_project_ok tree e) all_entries.
Proof.
  intro H. eapply Forall_impl; [|apply (flat_export_entries tree), H].
  intros e (_ & Hs). exact Hs.
Qed.

Lemma exported_messages_witness :
  Forall entry_text_ok SampleExport.demo_export.
Proof.
  apply (exported_messages_are_clean (SampleTree.demo 7)).
  vm_compute; reflexivity.
Defined.

Lemma exported_fields_witness :
  Forall (fun e => entry_slices_ok e /\ entry_project_ok (SampleTree.demo 7) e)
    SampleExport.demo_export.
Proof.
  apply (exported_fields_agree (SampleTree.demo 7)).
  vm_compute; reflexivity.
Defined.

(** ** Files of well-formed records *)

Lemma dated_record_is_object (e : json) (r : option Datetime.datetime) :
  Analyze.record_timestamp e = Ret r -> exists fs, e = JDict fs.
Proof.
  unfold Analyze.record_timestamp, Analyze.timestamp_field.
  destruct e; try discriminate. eauto.
Qed.

Lemma dated_step (z : option Z) (e : json) (ts : Datetime.datetime)
    (d : Analyze.file_data) :
  dated e ts -> Datetime.tzinfo ts = z -> zone_bounds z d ->
  exists d',
    Analyze.scan_line (Decoded e) d = (Ret tt, d')
    /\ recorded_instants d' = (recorded_instants d ++ [ts])%list
    /\ Analyze.message_count d' = Analyze.message_count d + 1
    /\ zone_bounds z d'.
Proof.
  intros Hts Hz [Hf Hl]. destruct (dated_record_is_object e _ Hts) as [fs ->].
  unfold dated in Hts.
  unfold Analyze.scan_line, try_except, sbind, lift, modify, get, sret.
  cbn [line_strip_truthy json_loads]. rewrite Hts. cbn [Py.get].
  assert (Hzone : forall a b : Datetime.datetime, zone_bounds z
            (Analyze.mk_file_data
               (Analyze.entries d ++ [Analyze.mk_scan_entry ts
                  match Py.lookup "type" fs with Some x => x | None => JStr "unknown" end
                  match Py.lookup "messageId" fs with Some x => x | None => JStr "" end])
               (Some a) (Some b) (Analyze.message_count d + 1)) <->
            Datetime.tzinfo a = z /\ Datetime.tzinfo b = z).
  { intros a b. unfold zone_bounds. simpl. split.
    - intros [H1 H2]. split; [apply H1|apply H2]; reflexivity.
    - intros [H1 H2]. split; intros x Hx; injection Hx as <-; assumption. }
  assert (Hdone : forall d',
            recorded_instants d' = (recorded_instants d ++ [ts])%list
            /\ Analyze.message_count d' = Analyze.message_count d + 1
            /\ zone_bounds z d' ->
            exists d'',
              (Ret tt, d') = (Ret tt, d'')
              /\ recorded_instants d'' = (recorded_instants d ++ [ts])%list
              /\ Analyze.message_count d'' = Analyze.message_count d + 1
              /\ zone_bounds z d'').
  { intros d' H. exists d'. split; [reflexivity|exact H]. }
  destruct d as [es [f|] [l|] c]; cbn in *.
  - pose proof (Hf f eq_refl) as Hzf. pose proof (Hl l eq_refl) as Hzl.
    rewrite (proj1 (lt_in_zone ts f (eq_trans Hz (eq_sym Hzf)))).
    destruct (Datetime.fields_compare (Datetime.fields ts) (Datetime.fields f));
      cbn; rewrite (proj2 (lt_in_zone ts l (eq_trans Hz (eq_sym Hzl))));
      destruct (Datetime.fields_compare (Datetime.fields ts) (Datetime.fields l));
      cbn; apply Hdone; (split; [unfold recorded_instants; cbn; rewrite map_app; reflexivity|]); (split; [reflexivity|]);
      apply Hzone; auto.
  - pose proof (Hf f eq_refl) as Hzf.
    rewrite (proj1 (lt_in_zone ts f (eq_trans Hz (eq_sym Hzf)))).
    destruct (Datetime.fields_compare (Datetime.fields ts) (Datetime.fields f));
      cbn; apply Hdone; (split; [unfold recorded_instants; cbn; rewrite map_app; reflexivity|]); (split; [reflexivity|]);
      apply Hzone; auto.
  - pose proof (Hl l eq_refl) as Hzl.
    rewrite (proj2 (lt_in_zone ts l (eq_trans Hz (eq_sym Hzl)))).
    destruct (Datetime.fields_compare (Datetime.fields ts) (Datetime.fields l));
      cbn; apply Hdone; (split; [unfold recorded_instants; cbn; rewrite map_app; reflexivity|]); (split; [reflexivity|]);
      apply Hzone; auto.
  - apply Hdone. split; [unfold recorded_instants; cbn; rewrite map_app; reflexivity|]. split; [reflexivity|]. apply Hzone; auto.
Qed.

Lemma dated_records_scan (z : option Z) (es : list json)
    (tss : list Datetime.datetime) (d : Analyze.file_data) :
  Forall2 dated es tss -> in_zone z tss -> zone_bounds z d ->
  exists d',
    for_each Analyze.scan_line (map Decoded es) d = (Ret tt, d')
    /\ recorded_instants d' = (recorded_instants d ++ tss)%list
    /\ Analyze.message_count d'
       = Analyze.message_count d + Z.of_nat (List.length es)
    /\ zone_bounds z d'.
Proof.
  intro H. revert d. induction H as [|e ts es' tss' Hd _ IH]; intros d Hz Hb.
  - exists d. cbn. rewrite app_nil_r, Z.add_0_r. repeat split; try apply Hb.
  - unfold in_zone in Hz. pose proof (Forall_inv Hz) as Hts.
    pose proof (Forall_inv_tail Hz) as Hz'. cbv beta in Hts.
    destruct (dated_step z e ts d Hd Hts Hb) as (d1 & E1 & I1 & C1 & B1).
    destruct (IH d1 Hz' B1) as (d2 & E2 & I2 & C2 & B2).
    exists d2. cbn [map for_each]. unfold sbind. rewrite E1, E2.
    split; [reflexivity|]. split; [rewrite I2, I1, <- app_assoc; reflexivity|].
    split; [|exact B2].
    rewrite C2, C1. cbn [List.length]. lia.
Qed.

(** X11. A file whose lines are all records with an instant, the instants
    written in one zone form, is scanned to the end: the message count is
    the number of lines and the recorded instants are those of the records,
    in file order. *)
Theorem dated_records_are_all_counted (z : option Z) (es : list json)
    (tss : list Datetime.datetime) (n : string) (mtime : Datetime.clock) :
  Forall2 dated es tss -> in_zone z tss ->
  let data := Analyze.analyze_jsonl_file (file_of n mtime (map Decoded es)) in
  Analyze.message_count data = Z.of_nat (List.length es)
  /\ recorded_instants data = tss.
Proof.
  intros H Hz.
  destruct (dated_records_scan z es tss Analyze.empty_data H Hz)
    as (d' & E & I & C & _).
  { split; intros a Ha; discriminate Ha. }
  cbv zeta. rewrite !analyze_jsonl_file_lines. unfold try_except_all, sbind, lift.
  cbn [Analyze.open_lines file_of file_lines]. rewrite E. cbn [snd].
  split; [rewrite C; reflexivity|exact I].
Qed.

Lemma dated_records_witness :
  let data := Analyze.analyze_jsonl_file
                (file_of "a.jsonl" (Sample.noon 1)
                   (map Decoded
                      [Sample.record "user" "2024-01-01T12:00:00Z" "b";
                       Sample.record "user" "2024-01-01T10:00:00Z" "a"])) in
  Analyze.message_count data = Z.of_nat 2
  /\ recorded_instants data
     = [Sample.instant 2024 1 1 12 0 0 (Some 0);
        Sample.instant 2024 1 1 10 0 0 (Some 0)].
Proof.
  apply (dated_records_are_all_counted (Some 0)
           [Sample.record "user" "2024-01-01T12:00:00Z" "b";
            Sample.record "user" "2024-01-01T10:00:00Z" "a"]).
  - repeat constructor.
  - repeat constructor.
Defined.

Lemma exports_step (project : string) (e : json) (x : Extract.flat_entry)
    (s : list Extract.flat_entry) :
  exports project e x ->
  Extract.scan_line project (Decoded e) s = (Ret tt, (s ++ [x])%list).
Proof.
  intros (ts & c & r & Hts & Hc & Hs & ->).
  assert (Hne : PyStr.truthy c = true) by (destruct c; [discriminate Hs|reflexivity]).
  unfold Extract.scan_line, try_except, sbind, lift, modify.
  cbn [line_strip_truthy negb json_loads].
  rewrite Hts, Hc, Hne, Hs. reflexivity.
Qed.

(** X12. A file whose lines are all records with an instant and a text
    that is not blank gives the flat export one entry for each line, in
    file order, after the entries that were there. *)
Theorem exportable_records_are_all_exported (project : string)
    (es : list json) (xs : list Extract.flat_entry) (n : string)
    (mtime : Datetime.clock) (s : list Extract.flat_entry) :
  Forall2 (exports project) es xs ->
  Extract.scan_file project (file_of n mtime (map Decoded es)) s
  = (Ret tt, (s ++ xs)%list).
Proof.
  intro H.
  assert (Hloop : forall s0,
            for_each (Extract.scan_line project) (map Decoded es) s0
            = (Ret tt, (s0 ++ xs)%list)).
  { induction H as [|e x es' xs' Hx _ IH]; intro s0.
    - cbn. rewrite app_nil_r. reflexivity.
    - cbn [map for_each]. unfold sbind. rewrite (exports_step project e x s0 Hx).
      rewrite IH, <- app_assoc. reflexivity. }
  rewrite !detail_scan_file_lines. unfold try_except_all, sbind, lift.
  cbn [Analyze.open_lines file_of file_lines]. rewrite Hloop. reflexivity.
Qed.

Lemma exportable_records_witness :
  Extract.scan_file Sample.demo_dir
    (file_of "session.jsonl" (Sample.noon 7)
       (map Decoded
          [Sample.record "assistant" "2024-01-01T12:00:00" "second";
           Sample.record "user" "2024-01-01T10:00:00" "first"])) []
  = (Ret tt, ([] ++ SampleExport.demo_export)%list).
Proof.
  apply exportable_records_are_all_exported.
  constructor; [|constructor; [|constructor]].
  - exists (Sample.instant 2024 1 1 12 0 0 None), "second", (Some "assistant").
    repeat split; reflexivity.
  - exists (Sample.instant 2024 1 1 10 0 0 None), "first", (Some "user").
    repeat split; reflexivity.
Defined.

(** ** The figures of the reports *)

Lemma fold_left_invariant {A B : Type} (f : B -> A -> B) (P : B -> Prop) :
  (forall b x, P b -> P (f b x)) ->
  forall xs b, P b -> P (fold_left f xs b).
Proof.
  intros Hstep xs. induction xs as [|x xs IH]; intros b Hb; simpl; auto.
Qed.

Lemma set_add_nodup (x : string) (s : list string) :
  NoDup s -> NoDup (Report.set_add x s) /\ Report.set_add x s <> [].
Proof.
  intro Hs. unfold Report.set_add, PyStr.contains.
  destruct (existsb (String.eqb x) s) eqn:E.
  - split; [exact Hs|]. destruct s; [discriminate E|discriminate].
  - split; [|destruct s; discriminate].
    apply NoDup_app; [exact Hs|constructor; [intros []|constructor]|].
    intros y Hy [<-|[]].
    assert (Ht : existsb (String.eqb x) s = true)
      by (apply existsb_exists; exists x; split; [exact Hy|apply String.eqb_refl]).
    congruence.
Qed.

Lemma record_item_keys (k p : string) (m : Z)
    (daily : list (string * Report.day_data)) :
  (In k (map fst daily) ->
   map fst (Report.record_item k p m daily) = map fst daily)
  /\ (~ In k (map fst daily) ->
      map fst (Report.record_item k p m daily) = (map fst daily ++ [k])%list).
Proof.
  induction daily as [|[k0 v] rest [IH1 IH2]]; simpl.
  - split; [intros []|reflexivity].
  - destruct (String.eqb_spec k0 k) as [->|Hne]; simpl.
    + split; [reflexivity|]. intro H. exfalso. apply H. left. reflexivity.
    + split.
      * intros [H|H]; [contradiction|]. rewrite (IH1 H). reflexivity.
      * intro H. rewrite IH2; [reflexivity|]. intro Hin. apply H. right. exact Hin.
Qed.

Lemma record_item_ok (k p : string) (m : Z)
    (daily : list (string * Report.day_data)) :
  days_ok daily -> days_ok (Report.record_item k p m daily).
Proof.
  intros [Hk Hv]. split.
  - destruct (in_dec string_dec k (map fst daily)) as [Hin|Hout].
    + rewrite (proj1 (record_item_keys k p m daily) Hin). exact Hk.
    + rewrite (proj2 (record_item_keys k p m daily) Hout).
      apply NoDup_app; [exact Hk|constructor; [intros []|constructor]|].
      intros y Hy [<-|[]]. contradiction.
  - clear Hk. induction Hv as [|[k0 v] rest [Hne Hnd] Hrest IH]; simpl.
    + constructor; [|constructor]. simpl.
      destruct (set_add_nodup p [] (NoDup_nil _)). split; assumption.
    + destruct (String.eqb k0 k).
      * constructor; [|assumption]. simpl.
        destruct (set_add_nodup p (Report.projects v) Hnd). split; assumption.
      * constructor; [split; assumption|exact IH].
Qed.

Lemma record_item_sum (k p : string) (m : Z)
    (daily : list (string * Report.day_data)) :
  sum_days (Report.record_item k p m daily) = sum_days daily + m.
Proof.
  induction daily as [|[k0 v] rest IH]; simpl; [lia|].
  destruct (String.eqb k0 k); simpl; [|rewrite IH]; lia.
Qed.

Lemma record_item_length (k p : string) (m : Z)
    (daily : list (string * Report.day_data)) :
  (List.length (Report.record_item k p m daily) <= S (List.length daily))%nat.
Proof.
  induction daily as [|[k0 v] rest IH]; simpl; [lia|].
  destruct (String.eqb k0 k); simpl; lia.
Qed.

Lemma daily_activity_from (timeline : list Analyze.timeline_entry)
    (daily : list (string * Report.day_data)) :
  let result :=
    fold_left
      (fun daily item =>
         Report.record_item (Datetime.strftime_date (Analyze.tl_timestamp item))
           (Analyze.tl_project item) (Analyze.tl_messages item) daily)
      timeline daily in
  (days_ok daily -> days_ok result)
  /\ sum_days result = sum_days daily + timeline_messages timeline
  /\ (List.length result <= List.length daily + List.length timeline)%nat.
Proof.
  revert daily. induction timeline as [|item rest IH]; intro daily;
    cbn [fold_left timeline_messages fold_right List.length]; cbv zeta.
  - split; [auto|]. split; lia.
  - destruct (IH (Report.record_item
                    (Datetime.strftime_date (Analyze.tl_timestamp item))
                    (Analyze.tl_project item) (Analyze.tl_messages item) daily))
      as (H1 & H2 & H3).
    cbv zeta in H1, H2, H3. split; [|split].
    + intro H. apply H1, record_item_ok, H.
    + rewrite H2, record_item_sum. fold (timeline_messages rest). lia.
    + pose proof (record_item_length
                    (Datetime.strftime_date (Analyze.tl_timestamp item))
                    (Analyze.tl_project item) (Analyze.tl_messages item) daily).
      lia.
Qed.

Lemma daily_activity_sound (timeline : list Analyze.timeline_entry) :
  days_ok (Report.daily_activity timeline)
  /\ sum_days (Report.daily_activity timeline) = timeline_messages timeline
  /\ (List.length (Report.daily_activity timeline) <= List.length timeline)%nat.
Proof.
  destruct (daily_activity_from timeline []) as (H1 & H2 & H3).
  cbv zeta in H1, H2, H3. unfold Report.daily_activity.
  split; [apply H1; split; constructor|]. split; [rewrite H2; reflexivity|exact H3].
Qed.

Lemma table_lookup_none {V : Type} (key : string) (table : list (string * V)) :
  table_lookup key table = None <-> ~ In key (map fst table).
Proof.
  unfold table_lookup. induction table as [|[k v] rest IH]; cbn [find map fst].
  - split; [intros _ []|reflexivity].
  - destruct (String.eqb_spec k key) as [->|Hne]; cbn [option_map].
    + split; [discriminate|]. intro H. exfalso. apply H. left. reflexivity.
    + rewrite IH. split.
      * intros H [Hk|Hin]; [contradiction|exact (H Hin)].
      * intros H Hin. apply H. right. exact Hin.
Qed.

Lemma table_lookup_in {V : Type} (key : string) (v : V)
    (table : list (string * V)) :
  NoDup (map fst table) -> In (key, v) table -> table_lookup key table = Some v.
Proof.
  unfold table_lookup. induction table as [|[k0 v0] rest IH];
    cbn [find map fst]; intros Hnd Hin; [destruct Hin|].
  inversion Hnd as [|? ? Hout Hrest]; subst.
  destruct Hin as [Heq|Hin].
  - injection Heq as -> ->. rewrite String.eqb_refl. reflexivity.
  - destruct (String.eqb_spec k0 key) as [->|Hne]; [|apply IH; assumption].
    exfalso. apply Hout. apply in_map_iff. exists (key, v). split; [reflexivity|exact Hin].
Qed.

Lemma set_add_in (x q : string) (s : list string) :
  In q (Report.set_add x s) <-> q = x \/ In q s.
Proof.
  unfold Report.set_add, PyStr.contains.
  destruct (existsb (String.eqb x) s) eqn:E.
  - split; [auto|]. intros [->|H]; [|exact H].
    apply existsb_exists in E. destruct E as (y & Hy & Heq).
    apply String.eqb_eq in Heq. subst y. exact Hy.
  - rewrite in_app_iff. cbn [In]. split.
    + intros [H|[<-|[]]]; auto.
    + intros [->|H]; auto.
Qed.

(** What the day table holds for a day after one more entry is booked. *)
Lemma record_item_lookup (k p : string) (m : Z) (day : string)
    (daily : list (string * Report.day_data)) :
  table_lookup day (Report.record_item k p m daily)
  = if String.eqb k day
    then Some (match table_lookup day daily with
               | Some v => Report.mk_day_data
                             (Report.set_add p (Report.projects v))
                             (Report.total_messages v + m)
               | None => Report.mk_day_data (Report.set_add p []) (0 + m)
               end)
    else table_lookup day daily.
Proof.
  unfold table_lookup. induction daily as [|[k0 v] rest IH];
    cbn [Report.record_item find fst].
  - destruct (String.eqb k day); reflexivity.
  - destruct (String.eqb_spec k0 k) as [->|Hne]; cbn [find fst].
    + destruct (String.eqb k day); reflexivity.
    + destruct (String.eqb_spec k0 day) as [->|Hne2]; cbn [option_map snd].
      * destruct (String.eqb_spec k day) as [->|_]; [contradiction|reflexivity].
      * exact IH.
Qed.

Lemma on_day_snoc (day : string) (timeline : list Analyze.timeline_entry)
    (item : Analyze.timeline_entry) :
  on_day day (timeline ++ [item])
  = (on_day day timeline
     ++ if String.eqb (day_of item) day then [item] else [])%list.
Proof. unfold on_day. rewrite filter_app. reflexivity. Qed.

Lemma record_item_accounts (timeline : list Analyze.timeline_entry)
    (item : Analyze.timeline_entry) (daily : list (string * Report.day_data)) :
  (forall day, day_row_accounts timeline daily day) ->
  forall day,
    day_row_accounts (timeline ++ [item])
      (Report.record_item (day_of item) (Analyze.tl_project item)
         (Analyze.tl_messages item) daily) day.
Proof.
  intros H day. specialize (H day). unfold day_row_accounts, day_accounts in *.
  cbn [fst snd] in *. rewrite record_item_lookup, !on_day_snoc.
  destruct (String.eqb (day_of item) day).
  - split; [intro E; apply app_eq_nil in E; destruct E; discriminate|].
    rewrite timeline_messages_app, map_app.
    cbn [timeline_messages fold_right map].
    destruct (table_lookup day daily) as [v|].
    + destruct H as (_ & Ht & Hp). cbn [Report.total_messages Report.projects].
      split; [rewrite Ht; lia|].
      intro q. rewrite set_add_in, in_app_iff, Hp. cbn [In]. intuition congruence.
    + rewrite H. cbn [Report.total_messages Report.projects app map].
      split; [cbn [timeline_messages fold_right]; lia|].
      intro q. rewrite set_add_in. cbn [In]. intuition congruence.
  - rewrite !app_nil_r. exact H.
Qed.

Lemma daily_activity_rows (rest timeline : list Analyze.timeline_entry)
    (daily : list (string * Report.day_data)) :
  (forall day, day_row_accounts timeline daily day) ->
  forall day,
    day_row_accounts (timeline ++ rest)
      (fold_left
         (fun daily item =>
            Report.record_item (Datetime.strftime_date (Analyze.tl_timestamp item))
              (Analyze.tl_project item) (Analyze.tl_messages item) daily)
         rest daily) day.
Proof.
  revert timeline daily. induction rest as [|item rest IH]; intros timeline daily H.
  - rewrite app_nil_r. exact H.
  - cbn [fold_left].
    replace (timeline ++ item :: rest)%list with ((timeline ++ [item]) ++ rest)%list
      by (rewrite <- app_assoc; reflexivity).
    apply IH. apply (record_item_accounts timeline item daily H).
Qed.

Lemma on_day_empty (day : string) (timeline : list Analyze.timeline_entry) :
  on_day day timeline = [] <-> ~ In day (map day_of timeline).
Proof.
  unfold on_day. induction timeline as [|item rest IH]; cbn [filter map].
  - split; [intros _ []|reflexivity].
  - destruct (String.eqb_spec (day_of item) day) as [->|Hne].
    + split; [discriminate|]. intro H. exfalso. apply H. left. reflexivity.
    + rewrite IH. cbn [In]. tauto.
Qed.

(** X13. The day table of the report has one row for each day on which
    the chronology has an entry, and no other row.  The total of a row is
    the sum of the message counts of the entries of its day, and its
    projects are the projects of those entries, none twice.  So the table
    has no more rows than the chronology has entries, and its totals add up
    to the messages carried by the entries of the chronology. *)
Theorem daily_activity_accounts (timeline : list Analyze.timeline_entry) :
  days_ok (Report.daily_activity timeline)
  /\ (forall day, In day (map fst (Report.daily_activity timeline))
                  <-> In day (map day_of timeline))
  /\ Forall (day_accounts timeline) (Report.daily_activity timeline)
  /\ sum_days (Report.daily_activity timeline) = timeline_messages timeline
  /\ (List.length (Report.daily_activity timeline) <= List.length timeline)%nat.
Proof.
  destruct (daily_activity_sound timeline) as (Hok & Hsum & Hlen).
  assert (Hrows : forall day,
             day_row_accounts timeline (Report.daily_activity timeline) day).
  { intro day. apply (daily_activity_rows timeline [] []). intro d. reflexivity. }
  split; [exact Hok|]. split; [|split; [|split; assumption]].
  - intro day. specialize (Hrows day). unfold day_row_accounts in Hrows.
    destruct (table_lookup day (Report.daily_activity timeline)) as [v|] eqn:E.
    + destruct Hrows as [Hne _]. split; intros _.
      * destruct (in_dec string_dec day (map day_of timeline)) as [Hin|Hout];
          [exact Hin|]. apply on_day_empty in Hout. contradiction.
      * destruct (in_dec string_dec day
                    (map fst (Report.daily_activity timeline))) as [Hin|Hout];
          [exact Hin|]. apply table_lookup_none in Hout. congruence.
    + apply table_lookup_none in E. apply on_day_empty in Hrows. tauto.
  - apply Forall_forall. intros [day v] Hin.
    pose proof (table_lookup_in day v _ (proj1 Hok) Hin) as E.
    specialize (Hrows day). unfold day_row_accounts in Hrows. rewrite E in Hrows.
    apply Hrows.
Qed.

(** X14. In the report of a scan the message totals of the days add up to
    twice the header figure of all messages: each retained file is counted
    on the day of its first instant and again on the day of its last. *)
Theorem daily_totals_are_twice_the_header (tree : list dir_entry)
    (now : Datetime.clock) (ps : list Analyze.project)
    (timeline : list Analyze.timeline_entry) :
  Analyze.summary tree now = Ret (ps, timeline) ->
  sum_days (Report.daily_activity timeline)
  = 2 * Report.all_messages (Report.header_of ps timeline)
  /\ Report.conversation_files (Report.header_of ps timeline) * 2
     = Z.of_nat (List.length timeline)
  /\ Report.active_days (Report.header_of ps timeline)
     <= Z.of_nat (List.length timeline).
Proof.
  intro H. destruct (summary_timeline_size tree now ps timeline H) as [H1 H2].
  destruct (daily_activity_sound timeline) as (_ & H3 & H4).
  cbn [Report.header_of Report.all_messages Report.conversation_files
       Report.active_days].
  fold (sum_total_messages ps). fold (sum_files_count ps).
  rewrite H3, H2, H1. repeat split; lia.
Qed.

Lemma daily_totals_witness :
  sum_days (Report.daily_activity
              [Analyze.mk_timeline_entry (Sample.instant 2024 1 1 12 0 0 None)
                 Sample.demo_dir "session.jsonl" "last_activity" 2;
               Analyze.mk_timeline_entry (Sample.instant 2024 1 1 10 0 0 None)
                 Sample.demo_dir "session.jsonl" "conversation_start" 2])
  = 2 * 2.
Proof.
  refine (proj1 (daily_totals_are_twice_the_header (SampleTree.demo 7) Sample.now
                   [Analyze.mk_project Sample.demo_dir
                      "/Users/larry/.claude/projects/-Users-larry-demo-project"
                      2 1 (Some (Sample.instant 2024 1 1 10 0 0 None))
                      (Some (Sample.instant 2024 1 1 12 0 0 None))
                      [Analyze.mk_file_info "session.jsonl" 1
                         (Datetime.naive (Sample.noon 7)) 2
                         (Some (Sample.instant 2024 1 1 10 0 0 None))
                         (Some (Sample.instant 2024 1 1 12 0 0 None))]]
                   _ _)).
  vm_compute; reflexivity.
Defined.

(** X15. The days of the report are sorted without raising: the sorted
    table holds the days of the day table, each once, from the latest day
    to the earliest. *)
Theorem sorted_days_lists_each_day_once (timeline : list Analyze.timeline_entry) :
  exists days,
    Report.sorted_days timeline = Ret days
    /\ Permutation (Report.daily_activity timeline) days
    /\ NoDup (map fst days)
    /\ descending Report.by_day days.
Proof.
  unfold Report.sorted_days.
  destruct (sort_desc_returns Report.by_day (Report.daily_activity timeline))
    as [days Hdays].
  { intros x y _ _. unfold Report.by_day. eauto. }
  exists days. split; [exact Hdays|].
  pose proof (sort_desc_perm Report.by_day _ _ Hdays) as Hperm.
  split; [exact Hperm|]. split.
  - eapply Permutation_NoDup; [apply Permutation_map, Hperm|].
    apply (daily_activity_sound timeline).
  - eapply (sort_desc_descending Report.by_day); [|exact Hdays].
    intros x y. unfold Report.by_day. intro H. injection H as H.
    rewrite (string_ltb_asym _ _ H). reflexivity.
Qed.

Lemma count_date_keys (d : string) (by_date : list (string * Z)) :
  (In d (map fst by_date) ->
   map fst (Report.count_date d by_date) = map fst by_date)
  /\ (~ In d (map fst by_date) ->
      map fst (Report.count_date d by_date) = (map fst by_date ++ [d])%list).
Proof.
  induction by_date as [|[k n] rest [IH1 IH2]]; simpl.
  - split; [intros []|reflexivity].
  - destruct (String.eqb_spec k d) as [->|Hne]; simpl.
    + split; [reflexivity|]. intro H. exfalso. apply H. left. reflexivity.
    + split.
      * intros [H|H]; [contradiction|]. rewrite (IH1 H). reflexivity.
      * intro H. rewrite IH2; [reflexivity|]. intro Hin. apply H. right. exact Hin.
Qed.

Lemma count_date_ok (d : string) (by_date : list (string * Z)) :
  dates_ok by_date -> dates_ok (Report.count_date d by_date).
Proof.
  intros [Hk Hv]. split.
  - destruct (in_dec string_dec d (map fst by_date)) as [Hin|Hout].
    + rewrite (proj1 (count_date_keys d by_date) Hin). exact Hk.
    + rewrite (proj2 (count_date_keys d by_date) Hout).
      apply NoDup_app; [exact Hk|constructor; [intros []|constructor]|].
      intros y Hy [<-|[]]. contradiction.
  - clear Hk. induction Hv as [|[k n] rest Hn Hrest IH]; simpl.
    + constructor; [simpl; lia|constructor].
    + destruct (String.eqb k d).
      * constructor; [simpl in *; lia|assumption].
      * constructor; [exact Hn|exact IH].
Qed.

Lemma count_date_sum (d : string) (by_date : list (string * Z)) :
  sum_counts (Report.count_date d by_date) = sum_counts by_date + 1.
Proof.
  induction by_date as [|[k n] rest IH]; simpl; [lia|].
  destruct (String.eqb k d); simpl; [|rewrite IH]; lia.
Qed.

Lemma count_date_in (d x : string) (by_date : list (string * Z)) :
  In x (map fst (Report.count_date d by_date)) -> x = d \/ In x (map fst by_date).
Proof.
  destruct (in_dec string_dec d (map fst by_date)) as [Hin|Hout].
  - rewrite (proj1 (count_date_keys d by_date) Hin). auto.
  - rewrite (proj2 (count_date_keys d by_date) Hout). intro H.
    apply in_app_or in H. destruct H as [H|[<-|[]]]; auto.
Qed.

Lemma by_date_from (entries : list Extract.flat_entry)
    (acc : list (string * Z)) :
  let result :=
    fold_left (fun acc e => Report.count_date (Extract.date e) acc) entries acc in
  (dates_ok acc -> dates_ok result)
  /\ sum_counts result = sum_counts acc + Z.of_nat (List.length entries)
  /\ (forall x, In x (map fst result) ->
        In x (map fst acc) \/ In x (map Extract.date entries)).
Proof.
  revert acc. induction entries as [|e rest IH]; intro acc;
    cbn [fold_left List.length map]; cbv zeta.
  - split; [auto|]. split; [cbn; lia|auto].
  - destruct (IH (Report.count_date (Extract.date e) acc)) as (H1 & H2 & H3).
    cbv zeta in H1, H2, H3. split; [|split].
    + intro H. apply H1, count_date_ok, H.
    + rewrite H2, count_date_sum, Nat2Z.inj_succ. lia.
    + intros x Hx. destruct (H3 x Hx) as [Hc|Hr]; [|right; right; exact Hr].
      destruct (count_date_in _ _ _ Hc) as [->|Ha];
        [right; left; reflexivity|left; exact Ha].
Qed.

Lemma by_date_sound (entries : list Extract.flat_entry) :
  dates_ok (Report.by_date entries)
  /\ sum_counts (Report.by_date entries) = Z.of_nat (List.length entries)
  /\ (forall d, In d (map fst (Report.by_date entries)) ->
                In d (map Extract.date entries)).
Proof.
  destruct (by_date_from entries []) as (H1 & H2 & H3).
  cbv zeta in H1, H2, H3. unfold Report.by_date.
  split; [apply H1; split; constructor|]. split; [rewrite H2; reflexivity|].
  intros d Hd. destruct (H3 d Hd) as [[]|H]. exact H.
Qed.

(** The count the date table holds for a date after one more entry. *)
Lemma count_date_lookup (d day : string) (by_date : list (string * Z)) :
  count_lookup day (Report.count_date d by_date)
  = count_lookup day by_date + (if String.eqb d day then 1 else 0).
Proof.
  unfold count_lookup, table_lookup. induction by_date as [|[k n] rest IH];
    cbn [Report.count_date find fst].
  - destruct (String.eqb d day); reflexivity.
  - destruct (String.eqb_spec k d) as [->|Hne]; cbn [find fst].
    + destruct (String.eqb d day); cbn [option_map snd]; lia.
    + destruct (String.eqb_spec k day) as [->|Hne2]; cbn [option_map snd].
      * destruct (String.eqb_spec d day) as [->|_]; [contradiction|lia].
      * exact IH.
Qed.

Lemma by_date_counts (entries : list Extract.flat_entry)
    (acc : list (string * Z)) (day : string) :
  count_lookup day
    (fold_left (fun acc e => Report.count_date (Extract.date e) acc) entries acc)
  = count_lookup day acc + Z.of_nat (List.length (entries_on day entries)).
Proof.
  revert acc. induction entries as [|e rest IH]; intro acc;
    cbn [fold_left entries_on filter List.length]; [cbn; lia|].
  rewrite IH, count_date_lookup. fold (entries_on day rest).
  destruct (String.eqb (Extract.date e) day);
    cbn [List.length]; rewrite ?Nat2Z.inj_succ; lia.
Qed.

Lemma entries_on_empty (day : string) (entries : list Extract.flat_entry) :
  entries_on day entries = [] <-> ~ In day (map Extract.date entries).
Proof.
  unfold entries_on. induction entries as [|e rest IH]; cbn [filter map].
  - split; [intros _ []|reflexivity].
  - destruct (String.eqb_spec (Extract.date e) day) as [->|Hne].
    + split; [discriminate|]. intro H. exfalso. apply H. left. reflexivity.
    + rewrite IH. cbn [In]. tauto.
Qed.

(** X16. The date table of [main] in extract.py has one row for each date
    that an entry carries, and no other row; the count of a row is the
    number of entries with its date, which is at least one; and the counts
    add up to the number of entries. *)
Theorem by_date_accounts (entries : list Extract.flat_entry) :
  dates_ok (Report.by_date entries)
  /\ (forall d, In d (map fst (Report.by_date entries))
                <-> In d (map Extract.date entries))
  /\ (forall d n, In (d, n) (Report.by_date entries) ->
                  n = Z.of_nat (List.length (entries_on d entries)))
  /\ sum_counts (Report.by_date entries) = Z.of_nat (List.length entries).
Proof.
  destruct (by_date_sound entries) as (Hok & Hsum & Hsub).
  assert (Hcount : forall d,
             count_lookup d (Report.by_date entries)
             = Z.of_nat (List.length (entries_on d entries))).
  { intro d. unfold Report.by_date. rewrite by_date_counts. reflexivity. }
  split; [exact Hok|]. split; [|split; [|exact Hsum]].
  - intro d. split; [apply Hsub|]. intro Hin.
    destruct (in_dec string_dec d (map fst (Report.by_date entries)))
      as [Hkey|Hout]; [exact Hkey|].
    apply table_lookup_none in Hout. specialize (Hcount d).
    unfold count_lookup in Hcount. rewrite Hout in Hcount.
    destruct (entries_on d entries) as [|e rest] eqn:E.
    + apply entries_on_empty in E. contradiction.
    + cbn [List.length] in Hcount. lia.
  - intros d n Hin.
    pose proof (table_lookup_in d n _ (proj1 Hok) Hin) as E.
    specialize (Hcount d). unfold count_lookup in Hcount. rewrite E in Hcount.
    exact Hcount.
Qed.

Lemma firstn_descending {A : Type} (lt : A -> A -> outcome bool) (n : nat)
    (l : list A) :
  descending lt l -> descending lt (firstn n l).
Proof.
  intro H. revert n. induction H as [|x|x y l Hxy Hd IH]; intro n.
  - destruct n; constructor.
  - destruct n as [|[|n]]; constructor.
  - destruct n as [|[|n]]; [constructor|constructor|].
    change (firstn (S (S n)) (x :: y :: l)) with (x :: firstn (S n) (y :: l)).
    specialize (IH (S n)). cbn [firstn] in *. constructor; assumption.
Qed.

(** X17. [main] of extract.py prints at most fifteen dates, from the latest
    to the earliest, each of them a date of the date table and none
    twice. *)
Theorem shown_dates_are_the_latest (entries : list Extract.flat_entry) :
  exists dates,
    Report.shown_dates entries = Ret dates
    /\ (List.length dates <= 15)%nat
    /\ descending Report.by_key dates
    /\ NoDup dates
    /\ (forall d, In d dates -> In d (map fst (Report.by_date entries))).
Proof.
  unfold Report.shown_dates.
  destruct (sort_desc_returns Report.by_key (map fst (Report.by_date entries)))
    as [sorted Hs].
  { intros x y _ _. unfold Report.by_key. eauto. }
  rewrite Hs. cbn [obind]. exists (firstn 15 sorted). split; [reflexivity|].
  pose proof (sort_desc_perm Report.by_key _ _ Hs) as Hperm.
  assert (Hnd : NoDup sorted).
  { eapply Permutation_NoDup; [exact Hperm|apply (by_date_sound entries)]. }
  split; [apply firstn_le_length|]. split; [|split].
  - apply firstn_descending.
    eapply (sort_desc_descending Report.by_key); [|exact Hs].
    intros x y. unfold Report.by_key. intro H. injection H as H.
    rewrite (string_ltb_asym _ _ H). reflexivity.
  - rewrite <- (firstn_skipn 15 sorted) in Hnd. apply NoDup_app_remove_r in Hnd.
    exact Hnd.
  - intros d Hd. eapply Permutation_in; [apply Permutation_sym, Hperm|].
    rewrite <- (firstn_skipn 15 sorted). apply in_or_app. left. exact Hd.
Qed.

(** ** Records that stop the scan of their file *)

Section StopsLoop.
Context {S A : Type} (body : A -> stmt S unit) (x : A).
Hypothesis body_raises : forall s, exists err, body x s = (Raise err, s).

(** A step that raises without touching the accumulator ends the loop
    there: under a handler that passes, the loop does what it does on the
    items before the step. *)
Lemma for_each_stops (pre post : list A) (s : S) :
  snd (for_each body (pre ++ x :: post) s) = snd (for_each body pre s).
Proof.
  rewrite for_each_app.
  destruct (for_each body pre s) as [[[]|e] s']; [|reflexivity].
  cbn [for_each]. unfold sbind. destruct (body_raises s') as [err ->]. reflexivity.
Qed.
End StopsLoop.

Lemma try_except_all_state {S : Type} (body : stmt S unit) (s : S) :
  try_except_all body (sret tt) s = (Ret tt, snd (body s)).
Proof.
  unfold try_except_all, sret. destruct (body s) as [[[]|e] s']; reflexivity.
Qed.

Lemma timestamp_field_raises (e : json) (err : exn) :
  Analyze.timestamp_field e = Raise err -> err = AttributeError.
Proof.
  unfold Analyze.timestamp_field, Py.or_else.
  destruct e; cbn; try (intro H; congruence).
  destruct (match Py.lookup "snapshot" fields with
            | Some x => x | None => JDict [] end); cbn;
    try (intro H; congruence).
  destruct (Py.truthy _); intro H; discriminate H.
Qed.

Lemma summary_parse_returns (v : json) :
  exists r, Analyze.parse_timestamp v = Ret r.
Proof.
  unfold Analyze.parse_timestamp.
  destruct (obind (Analyze.str_replace v "Z" "+00:00") Datetime.fromisoformat);
    eauto.
Qed.

Lemma detail_parse_returns (v : json) :
  exists r, Extract.parse_timestamp v = Ret r.
Proof.
  unfold Extract.parse_timestamp.
  destruct (obind (Analyze.str_replace v "Z" "+00:00")
              (fun replaced =>
                 Datetime.fromisoformat (PyStr.replace "+00:00" "" replaced)));
    eauto.
Qed.

Lemma summary_timestamp_raises (e : json) (err : exn) :
  Analyze.record_timestamp e = Raise err -> err = AttributeError.
Proof.
  unfold Analyze.record_timestamp.
  destruct (Analyze.timestamp_field e) as [v|err0] eqn:E; cbn [obind].
  - destruct (summary_parse_returns v) as [r ->]. discriminate.
  - intro H. injection H as <-. eapply timestamp_field_raises, E.
Qed.

(** X18. A line that decodes to a value whose timestamp expression raises
    (a value that is not an object, or an object whose [snapshot] is not
    one) raises [AttributeError], and the summary scan of the file stops
    there: the file is scanned as if it ended before that line. *)
Theorem summary_scan_stops_at_raising_record (e : json) (err : exn)
    (pre post : list line) (n : string) (mtime : Datetime.clock) :
  Analyze.record_timestamp e = Raise err ->
  err = AttributeError
  /\ Analyze.analyze_jsonl_file (file_of n mtime (pre ++ Decoded e :: post))
     = Analyze.analyze_jsonl_file (file_of n mtime pre).
Proof.
  intro H. pose proof (summary_timestamp_raises e err H) as ->.
  split; [reflexivity|].
  rewrite !analyze_jsonl_file_lines.
  rewrite !try_except_all_state. cbn [snd].
  unfold sbind, lift. cbn [Analyze.open_lines file_of file_lines].
  apply for_each_stops. intro s. exists AttributeError.
  unfold Analyze.scan_line, try_except, sbind, lift.
  cbn [line_strip_truthy json_loads]. rewrite H. reflexivity.
Qed.

Lemma summary_scan_stops_witness :
  AttributeError = AttributeError
  /\ Analyze.analyze_jsonl_file
       (file_of "a.jsonl" (Sample.noon 1)
          ([SampleLines.first]
           ++ Decoded (JDict [("snapshot", JStr "none")]) :: [SampleLines.second]))
     = Analyze.analyze_jsonl_file
         (file_of "a.jsonl" (Sample.noon 1) [SampleLines.first]).
Proof.
  apply summary_scan_stops_at_raising_record. reflexivity.
Defined.

Lemma collect_texts_raises (items : list json) (err : exn) :
  Extract.collect_texts items = Raise err -> False.
Proof.
  induction items as [|item rest IH]; cbn [Extract.collect_texts];
    [discriminate|].
  assert (Hhere : exists here,
            match item with
            | JDict _ =>
                obind (Py.get item "type" JNull)
                  (fun ty => if Py.eq_str ty "text"
                             then obind (Py.get item "text" (JStr ""))
                                        (fun text => Ret [text])
                             else Ret [])
            | JStr _ => Ret [item]
            | _ => Ret []
            end = Ret here).
  { destruct item; cbn; eauto.
    destruct (Py.eq_str _ "text"); cbn; eauto. }
  destruct Hhere as [here ->]. cbn [obind].
  destruct (Extract.collect_texts rest) as [more|e] eqn:E; cbn [obind];
    [discriminate|].
  intro H. injection H as <-. apply IH. reflexivity.
Qed.

Lemma join_values_raises (sep : string) (texts : list json) (err : exn) :
  Extract.join_values sep texts = Raise err -> err = TypeError.
Proof.
  induction texts as [|t rest IH]; cbn [Extract.join_values]; [discriminate|].
  destruct t; try (intro H; congruence).
  destruct rest as [|t' rest']; [discriminate|].
  destruct (Extract.join_values sep (t' :: rest')) as [r|e]; cbn [obind];
    [discriminate|].
  intro H. injection H as <-. apply IH. reflexivity.
Qed.

(** What [extract_message_content] can raise: [AttributeError] on a value
    without [get], [TypeError] when a collected text is not a string. *)
Lemma extract_message_content_raises (e : json) (err : exn) :
  Extract.extract_message_content e = Raise err ->
  err = AttributeError \/ err = TypeError.
Proof.
  unfold Extract.extract_message_content.
  destruct e; cbn [Py.get obind]; try (intro H; left; congruence).
  destruct (Py.eq_str _ "user").
  - destruct (match Py.lookup "message" fields with
              | Some x => x | None => JDict [] end); cbn [Py.get obind];
      try (intro H; left; congruence).
  - destruct (Py.eq_str _ "assistant" || Py.eq_str _ "message"); [|discriminate].
    destruct (match Py.lookup "message" fields with
              | Some x => x | None => JDict [] end) as [| | | | | |msg];
      cbn [Py.get obind]; try discriminate.
    destruct (match Py.lookup "content" msg with
              | Some x => x | None => JList [] end) as [| | | | |items|];
      cbn [obind]; try discriminate.
    destruct (Extract.collect_texts items) as [texts|e0] eqn:Ec; cbn [obind].
    + destruct (Extract.join_values Extract.newline texts) as [j|e1] eqn:Ej;
        cbn [obind]; [discriminate|].
      intro H. injection H as <-. right. eapply join_values_raises, Ej.
    + exfalso. eapply collect_texts_raises, Ec.
Qed.

(** X19. A dated record on which [extract_message_content] raises (a user
    record whose message is not an object, an assistant record with a text
    item that is not a string) raises [AttributeError] or [TypeError],
    which the handler of the line does not catch: the detail scan of the
    file stops there, keeping the entries of the lines before. *)
Theorem detail_scan_stops_at_raising_record (e : json) (err : exn)
    (ts : Datetime.datetime) (project : string) (pre post : list line)
    (n : string) (mtime : Datetime.clock) (s : list Extract.flat_entry) :
  Extract.record_timestamp e = Ret (Some ts) ->
  Extract.extract_message_content e = Raise err ->
  (err = AttributeError \/ err = TypeError)
  /\ Extract.scan_file project (file_of n mtime (pre ++ Decoded e :: post)) s
     = Extract.scan_file project (file_of n mtime pre) s.
Proof.
  intros Hts Hext.
  pose proof (extract_message_content_raises e err Hext) as Herr.
  split; [exact Herr|].
  rewrite !detail_scan_file_lines. rewrite !try_except_all_state. f_equal.
  unfold sbind, lift. cbn [Analyze.open_lines file_of file_lines].
  apply for_each_stops. intro s0. exists err.
  unfold Extract.scan_line, try_except, sbind, lift.
  cbn [line_strip_truthy negb json_loads]. rewrite Hts, Hext.
  destruct Herr as [-> | ->]; reflexivity.
Qed.

Lemma detail_scan_stops_witness :
  (AttributeError = AttributeError \/ AttributeError = TypeError)
  /\ Extract.scan_file "p"
       (file_of "a.jsonl" (Sample.noon 1)
          ([SampleLines.first]
           ++ Decoded (JDict [("type", JStr "user");
                              ("timestamp", JStr "2024-01-01T11:00:00");
                              ("message", JStr "plain text")])
              :: [SampleLines.second])) []
     = Extract.scan_file "p"
         (file_of "a.jsonl" (Sample.noon 1) [SampleLines.first]) [].
Proof.
  apply (detail_scan_stops_at_raising_record _ AttributeError
           (Sample.instant 2024 1 1 11 0 0 None)); reflexivity.
Defined.

(** ** Display names, for every directory *)

(** X20. For every entry of the projects directory (a name that is not
    empty, is not [.] and holds no slash) both scripts use the name of the
    directory itself as the display name of the project. *)
Theorem display_name_is_the_directory_name (n : string) :
  Py.has_char "/" n = false -> n <> EmptyString -> n <> "." ->
  Analyze.get_project_name (PyPath.child Analyze.PROJECTS_DIR n) = n
  /\ Extract.get_project_name (PyPath.child Extract.PROJECTS_DIR n) = n.
Proof.
  intros Hslash Hne Hdot.
  destruct (project_name_is_directory_name n Hslash) as [-> ->].
  change Extract.PROJECTS_DIR with Analyze.PROJECTS_DIR.
  assert (Hname : PyPath.name (PyPath.child Analyze.PROJECTS_DIR n) = n).
  { unfold PyPath.name.
    assert (Hparts : PyStr.split "/" (PyPath.child Analyze.PROJECTS_DIR n)
                     = [""; "Users"; "larry"; ".claude"; "projects"; n]).
    { unfold PyPath.child, Analyze.PROJECTS_DIR. simpl.
      rewrite (split_without_separator "/" n Hslash). reflexivity. }
    rewrite Hparts. cbn [filter PyStr.truthy andb negb].
    assert (Hkeep : PyStr.truthy n && negb (String.eqb n ".") = true).
    { destruct n; [contradiction|]. cbn [PyStr.truthy andb].
      destruct (String.eqb_spec (String a n) "."); [contradiction|reflexivity]. }
    change (String.eqb "Users" ".") with false.
    change (String.eqb "larry" ".") with false.
    change (String.eqb ".claude" ".") with false.
    change (String.eqb "projects" ".") with false.
    cbn [negb]. rewrite Hkeep. reflexivity. }
  rewrite Hname. split; reflexivity.
Qed.

Lemma display_name_witness :
  Analyze.get_project_name (PyPath.child Analyze.PROJECTS_DIR Sample.demo_dir)
    = Sample.demo_dir
  /\ Extract.get_project_name (PyPath.child Extract.PROJECTS_DIR Sample.demo_dir)
    = Sample.demo_dir.
Proof.
  apply display_name_is_the_directory_name;
    [reflexivity|discriminate|discriminate].
Defined.

(** ** Reading back the ISO text of an instant *)

Lemma append_assoc (a b c : string) : (a ++ b) ++ c = a ++ (b ++ c).
Proof. induction a as [|x r IH]; simpl; [reflexivity|rewrite IH; reflexivity]. Qed.

Lemma iso_text_parts (c : Datetime.clock) :
  valid_clock c -> naive_text c = date_text c ++ "T" ++ time_text c.
Proof.
  unfold valid_clock, Datetime.valid_fields. intro Ha.
  repeat (apply andb_prop in Ha; destruct Ha as [Ha ?]).
  repeat match goal with
         | H : (_ <=? _) = true |- _ => apply Z.leb_le in H
         end.
  pose proof (days_in_month_bound (Datetime.year c) (Datetime.month c)).
  unfold naive_text, Datetime.isoformat, date_text, time_text, fraction_text.
  cbn [Datetime.fields Datetime.naive Datetime.tzinfo].
  rewrite !(zero_pad_in_range 4) by (change (10 ^ Z.of_nat 4) with 10000; lia).
  rewrite !(zero_pad_in_range 6) by (change (10 ^ Z.of_nat 6) with 1000000; lia).
  rewrite !(zero_pad_in_range 2) by (change (10 ^ Z.of_nat 2) with 100; lia).
  rewrite !append_empty, !append_assoc. reflexivity.
Qed.

Lemma digit_is_digit (n : Z) :
  PyStr.is_digit (PyStr.digit n) = true
  /\ PyStr.code (PyStr.digit n) - 48 = n mod 10.
Proof.
  unfold PyStr.digit. pose proof (Z.mod_pos_bound n 10 eq_refl) as H.
  set (k := n mod 10) in *.
  assert (E : k = 0 \/ k = 1 \/ k = 2 \/ k = 3 \/ k = 4 \/ k = 5 \/ k = 6
              \/ k = 7 \/ k = 8 \/ k = 9) by lia.
  clearbody k. repeat (destruct E as [->|E]); try subst k; split; reflexivity.
Qed.

Lemma value_from_append (acc : Z) (s t : string) :
  PyStr.value_from acc (s ++ t) = PyStr.value_from (PyStr.value_from acc s) t.
Proof.
  revert acc. induction s as [|c r IH]; intro acc; simpl; [reflexivity|apply IH].
Qed.

Lemma all_digits_append (s t : string) :
  PyStr.all_digits (s ++ t) = PyStr.all_digits s && PyStr.all_digits t.
Proof.
  induction s as [|c r IH]; simpl; [reflexivity|].
  rewrite IH, andb_assoc. reflexivity.
Qed.

Lemma pad_digits (w : nat) (n acc : Z) :
  0 <= n < 10 ^ Z.of_nat w ->
  PyStr.all_digits (PyStr.pad w n) = true
  /\ PyStr.value_from acc (PyStr.pad w n) = acc * 10 ^ Z.of_nat w + n.
Proof.
  revert n acc. induction w as [|k IH]; intros n acc Hn.
  - simpl in *. split; [reflexivity|lia].
  - rewrite Nat2Z.inj_succ, Z.pow_succ_r in * by lia.
    assert (Hq : 0 <= n / 10 < 10 ^ Z.of_nat k)
      by (split; [apply Z.div_pos; lia|apply Z.div_lt_upper_bound; lia]).
    destruct (IH (n / 10) acc Hq) as [Hd Hv]. destruct (digit_is_digit n) as [Hi Hc].
    cbn [PyStr.pad]. rewrite all_digits_append, value_from_append, Hd, Hv.
    cbn [PyStr.all_digits PyStr.value_from]. rewrite Hi, Hc. split; [reflexivity|].
    pose proof (Z.div_mod n 10). lia.
Qed.

(** Reading a zero-padded number gives the number. *)
Lemma to_int_pad (w : nat) (n : Z) :
  0 <= n < 10 ^ Z.of_nat (S w) -> PyStr.to_int (PyStr.pad (S w) n) = Some n.
Proof.
  intro Hn. unfold PyStr.to_int. destruct (pad_digits (S w) n 0 Hn) as [Hd Hv].
  rewrite Hd, Hv.
  assert (Ht : PyStr.truthy (PyStr.pad (S w) n) = true).
  { cbn [PyStr.pad]. destruct (PyStr.pad w (n / 10)); reflexivity. }
  rewrite Ht. cbn [andb]. f_equal.
Qed.

Lemma substring_take_drop (n m : nat) (s : string) :
  String.substring n m s = PyStr.take m (PyStr.drop n s).
Proof.
  revert m s. induction n as [|n IH]; intros m s.
  - rewrite drop_none. revert s. induction m as [|m IHm]; intros [|c r];
      simpl; try reflexivity. rewrite IHm. reflexivity.
  - destruct s as [|c r]; simpl; [destruct m; reflexivity|apply IH].
Qed.

Lemma get_drop (n : nat) (s : string) :
  String.get n s = match PyStr.drop n s with
                   | String c _ => Some c
                   | EmptyString => None
                   end.
Proof.
  revert s. induction n as [|n IH]; intros [|c r]; simpl; try reflexivity.
  apply IH.
Qed.

Lemma take_exact (s : string) (k : nat) :
  String.length s = k -> PyStr.take k s = s.
Proof. intros <-. apply take_all. Qed.

Lemma date_text_length (c : Datetime.clock) : String.length (date_text c) = 10%nat.
Proof.
  unfold date_text. rewrite !length_append, !pad_length. reflexivity.
Qed.

Lemma parse_date_text (c : Datetime.clock) :
  valid_clock c ->
  Datetime.parse_isoformat_date (date_text c)
  = Some (Datetime.year c, Datetime.month c, Datetime.day c).
Proof.
  unfold valid_clock, Datetime.valid_fields. intro Ha.
  repeat (apply andb_prop in Ha; destruct Ha as [Ha ?]).
  repeat match goal with
         | H : (_ <=? _) = true |- _ => apply Z.leb_le in H
         end.
  pose proof (days_in_month_bound (Datetime.year c) (Datetime.month c)).
  unfold Datetime.parse_isoformat_date.
  rewrite !substring_take_drop, !get_drop, date_text_length.
  unfold date_text. rewrite drop_none.
  rewrite (take_append 4 0) by apply pad_length. rewrite take_none, append_empty.
  rewrite (drop_append 4 0), (drop_append 4 1), (drop_append 4 3), (drop_append 4 4)
    by apply pad_length.
  cbn [append]. rewrite drop_none, !drop_cons, drop_none.
  rewrite (drop_append 2 0), (drop_append 2 1) by apply pad_length.
  cbn [append]. rewrite drop_none, !drop_cons, drop_none.
  rewrite (take_append 2 0) by apply pad_length. rewrite take_none, append_empty.
  rewrite (take_exact _ 2) by apply pad_length.
  rewrite (to_int_pad 3), !(to_int_pad 1)
    by (first [change (10 ^ Z.of_nat 4) with 10000
              |change (10 ^ Z.of_nat 2) with 100]; lia).
  reflexivity.
Qed.

Lemma digit_differs (c : ascii) (n : Z) :
  PyStr.is_digit c = false -> Ascii.eqb c (PyStr.digit n) = false.
Proof.
  intro H. destruct (Ascii.eqb c (PyStr.digit n)) eqn:E; [|reflexivity].
  apply Ascii.eqb_eq in E. subst c.
  destruct (digit_is_digit n) as [Hd _]. congruence.
Qed.

Lemma find_char_append (c : ascii) (s t : string) :
  Datetime.find_char c (s ++ t)
  = match Datetime.find_char c s with
    | Some i => Some i
    | None => option_map (Nat.add (String.length s)) (Datetime.find_char c t)
    end.
Proof.
  induction s as [|d r IH]; simpl.
  - destruct (Datetime.find_char c t); reflexivity.
  - destruct (Ascii.eqb c d); [reflexivity|]. rewrite IH.
    destruct (Datetime.find_char c r); [reflexivity|].
    destruct (Datetime.find_char c t); reflexivity.
Qed.

Lemma find_char_pad (c : ascii) (w : nat) (n : Z) :
  PyStr.is_digit c = false -> Datetime.find_char c (PyStr.pad w n) = None.
Proof.
  intro H. revert n. induction w as [|k IH]; intro n; [reflexivity|].
  cbn [PyStr.pad]. rewrite find_char_append, IH.
  cbn [Datetime.find_char]. rewrite (digit_differs c n H). reflexivity.
Qed.

(** The time text holds no sign. *)
Lemma find_char_time_text (c : ascii) (cl : Datetime.clock) :
  PyStr.is_digit c = false -> Ascii.eqb c ":" = false -> Ascii.eqb c "." = false ->
  Datetime.find_char c (time_text cl) = None.
Proof.
  intros Hd Hc Hp. unfold time_text, fraction_text.
  repeat (rewrite find_char_append, (find_char_pad c _ _ Hd);
          cbn [append Datetime.find_char]; rewrite ?Hc).
  destruct (Datetime.microsecond cl =? 0); cbn [append Datetime.find_char option_map];
    [reflexivity|].
  rewrite Hp, (find_char_pad c _ _ Hd). reflexivity.
Qed.

Lemma time_text_length (cl : Datetime.clock) :
  exists k, String.length (time_text cl) = (8 + k)%nat.
Proof.
  unfold time_text. exists (String.length (fraction_text (Datetime.microsecond cl))).
  rewrite !length_append, !pad_length. reflexivity.
Qed.

Lemma parse_fraction_text (us : Z) :
  0 <= us < 1000000 -> Datetime.parse_fraction (fraction_text us) = Some us.
Proof.
  intro H. unfold fraction_text. destruct (us =? 0) eqn:E.
  - apply Z.eqb_eq in E. subst us. reflexivity.
  - cbn [append Datetime.parse_fraction].
    change (Ascii.eqb "." ".") with true. cbn match.
    rewrite pad_length, (to_int_pad 5) by (change (10 ^ Z.of_nat 6) with 1000000; lia).
    reflexivity.
Qed.

Lemma valid_clock_bounds (c : Datetime.clock) :
  valid_clock c ->
  1 <= Datetime.year c <= 9999 /\ 1 <= Datetime.month c <= 12
  /\ 1 <= Datetime.day c <= 31
  /\ 0 <= Datetime.hour c <= 23 /\ 0 <= Datetime.minute c <= 59
  /\ 0 <= Datetime.second c <= 59 /\ 0 <= Datetime.microsecond c <= 999999.
Proof.
  unfold valid_clock, Datetime.valid_fields. intro Ha.
  repeat (apply andb_prop in Ha; destruct Ha as [Ha ?]).
  repeat match goal with
         | H : (_ <=? _) = true |- _ => apply Z.leb_le in H
         end.
  pose proof (days_in_month_bound (Datetime.year c) (Datetime.month c)).
  lia.
Qed.

Lemma parse_time_text (c : Datetime.clock) :
  valid_clock c ->
  Datetime.parse_hh_mm_ss_ff (time_text c)
  = Some (Datetime.hour c, Datetime.minute c, Datetime.second c,
          Datetime.microsecond c).
Proof.
  intro Hv. pose proof (valid_clock_bounds c Hv) as Hb.
  destruct (time_text_length c) as [k Hk].
  unfold Datetime.parse_hh_mm_ss_ff, Datetime.two_digits.
  rewrite Hk. cbn [Nat.add Nat.leb].
  rewrite !substring_take_drop, !get_drop.
  unfold time_text. rewrite drop_none.
  rewrite (take_append 2 0) by apply pad_length. rewrite take_none, append_empty.
  rewrite (drop_append 2 0), (drop_append 2 1), (drop_append 2 3), (drop_append 2 4),
    (drop_append 2 6)
    by apply pad_length.
  cbn [append]. rewrite drop_none, !drop_cons, drop_none.
  rewrite (take_append 2 0) by apply pad_length. rewrite take_none, append_empty.
  rewrite (drop_append 2 0), (drop_append 2 1), (drop_append 2 3)
    by apply pad_length.
  cbn [append]. rewrite drop_none, !drop_cons, drop_none.
  rewrite (take_append 2 0) by apply pad_length. rewrite take_none, append_empty.
  rewrite (drop_append 2 0) by apply pad_length. rewrite drop_none.
  rewrite !(to_int_pad 1) by (change (10 ^ Z.of_nat 2) with 100; lia).
  change (Ascii.eqb ":" ":") with true. cbn [negb].
  rewrite parse_fraction_text by lia. reflexivity.
Qed.

Lemma prefix_head_differs (a b : ascii) (s t : string) :
  Ascii.eqb a b = false -> String.prefix (String a s) (String b t) = false.
Proof.
  intro H. cbn [String.prefix]. destruct (ascii_dec a b) as [->|_]; [|reflexivity].
  rewrite Ascii.eqb_refl in H. discriminate.
Qed.

Lemma find_char_cons_none (c d : ascii) (r : string) :
  Datetime.find_char c (String d r) = None ->
  Ascii.eqb c d = false /\ Datetime.find_char c r = None.
Proof.
  cbn [Datetime.find_char]. destruct (Ascii.eqb c d); [discriminate|].
  destruct (Datetime.find_char c r); [discriminate|]. split; reflexivity.
Qed.

(** Replacing a text whose first character does not occur changes
    nothing. *)
Lemma replace_absent (a : ascii) (old new s : string) :
  Datetime.find_char a s = None -> PyStr.replace (String a old) new s = s.
Proof.
  unfold PyStr.replace. induction s as [|d r IH]; intro H; [reflexivity|].
  apply find_char_cons_none in H. destruct H as [Hd Hr].
  cbn [PyStr.replace_from]. rewrite (prefix_head_differs a d old r Hd), (IH Hr).
  reflexivity.
Qed.

Lemma replace_suffix (a : ascii) (old new s : string) :
  Datetime.find_char a s = None ->
  PyStr.replace (String a old) new (s ++ String a old) = s ++ new.
Proof.
  unfold PyStr.replace. induction s as [|d r IH]; intro H.
  - cbn [append PyStr.replace_from].
    assert (Hp : String.prefix (String a old) (String a old) = true).
    { clear. generalize (String a old). intro s.
      induction s as [|x t IH]; [reflexivity|]. cbn [String.prefix].
      destruct (ascii_dec x x) as [_|N]; [exact IH|destruct N; reflexivity]. }
    rewrite Hp. cbn [String.length Nat.sub]. rewrite Nat.sub_0_r.
    assert (Hs : forall t : string,
               PyStr.replace_from (String a old) new (String.length t) t = "").
    { clear. intro t. induction t as [|x t IH]; [reflexivity|exact IH]. }
    rewrite Hs, append_empty. reflexivity.
  - apply find_char_cons_none in H. destruct H as [Hd Hr].
    cbn [append PyStr.replace_from].
    rewrite (prefix_head_differs a d old _ Hd), (IH Hr). reflexivity.
Qed.

Lemma find_char_date_text (c : ascii) (cl : Datetime.clock) :
  PyStr.is_digit c = false -> Ascii.eqb c "-" = false ->
  Datetime.find_char c (date_text cl) = None.
Proof.
  intros Hd Hm. unfold date_text.
  repeat (rewrite find_char_append, (find_char_pad c _ _ Hd);
          cbn [append Datetime.find_char]; rewrite ?Hm).
  rewrite (find_char_pad c _ _ Hd). reflexivity.
Qed.

(** The ISO text of a naive instant holds neither a [Z] nor a [+]. *)
Lemma find_char_iso_text (c : ascii) (cl : Datetime.clock) :
  PyStr.is_digit c = false -> Ascii.eqb c "-" = false -> Ascii.eqb c "T" = false ->
  Ascii.eqb c ":" = false -> Ascii.eqb c "." = false ->
  Datetime.find_char c (date_text cl ++ "T" ++ time_text cl) = None.
Proof.
  intros Hd Hm Ht Hc Hp.
  rewrite find_char_append, (find_char_date_text c cl Hd Hm).
  cbn [append Datetime.find_char]. rewrite Ht, (find_char_time_text c cl Hd Hc Hp).
  reflexivity.
Qed.

Lemma time_text_truthy (c : Datetime.clock) (t : string) :
  PyStr.truthy (time_text c ++ t) = true
  /\ (String.length (time_text c ++ t) <? 2)%nat = false.
Proof.
  destruct (time_text_length c) as [k Hk].
  destruct (time_text c ++ t) as [|x r] eqn:E.
  - apply (f_equal String.length) in E. rewrite length_append, Hk in E. discriminate.
  - apply (f_equal String.length) in E. rewrite length_append, Hk in E.
    cbn [String.length] in E. split; [reflexivity|].
    apply Nat.ltb_ge. cbn [String.length]. lia.
Qed.

Lemma iso_text_longer (c : Datetime.clock) (t : string) :
  (String.length (date_text c ++ "T" ++ t) <=? 10)%nat = false.
Proof.
  apply Nat.leb_gt. rewrite length_append, date_text_length.
  cbn [append String.length]. lia.
Qed.

(** The parser reads the ISO text of a naive instant back. *)
Lemma fromisoformat_naive (c : Datetime.clock) :
  valid_clock c ->
  Datetime.fromisoformat (date_text c ++ "T" ++ time_text c) = Ret (Datetime.naive c).
Proof.
  intro Hv. unfold Datetime.fromisoformat.
  rewrite (iso_text_longer c (time_text c)).
  rewrite (take_append 10 0) by apply date_text_length.
  rewrite take_none, append_empty, (parse_date_text c Hv).
  rewrite (drop_append 10 1) by apply date_text_length.
  cbn [append]. rewrite drop_cons, drop_none.
  destruct (time_text_truthy c "") as [_ Hl]. rewrite append_empty in Hl.
  unfold Datetime.parse_isoformat_time. rewrite Hl.
  rewrite !find_char_time_text by reflexivity.
  rewrite (parse_time_text c Hv). cbn [option_map].
  unfold valid_clock in Hv. rewrite Hv. destruct c; reflexivity.
Qed.

(** With the offset [+00:00] the parser gives the aware instant. *)
Lemma fromisoformat_utc (c : Datetime.clock) :
  valid_clock c ->
  Datetime.fromisoformat ((date_text c ++ "T" ++ time_text c) ++ "+00:00")
  = Ret (at_utc c).
Proof.
  intro Hv. unfold Datetime.fromisoformat. rewrite !append_assoc.
  rewrite (iso_text_longer c (time_text c ++ "+00:00")).
  rewrite (take_append 10 0) by apply date_text_length.
  rewrite take_none, append_empty, (parse_date_text c Hv).
  rewrite (drop_append 10 1) by apply date_text_length.
  cbn [append]. rewrite drop_cons, drop_none.
  destruct (time_text_truthy c "+00:00") as [_ Hl].
  unfold Datetime.parse_isoformat_time. rewrite Hl.
  rewrite !find_char_append, !find_char_time_text by reflexivity.
  cbn [Datetime.find_char option_map]. change (Ascii.eqb "-" "+") with false.
  change (Ascii.eqb "-" "0") with false. change (Ascii.eqb "-" ":") with false.
  change (Ascii.eqb "+" "+") with true. cbn [option_map].
  rewrite take_append by reflexivity. rewrite take_none, append_empty.
  rewrite (parse_time_text c Hv).
  rewrite get_drop, drop_append by reflexivity. rewrite drop_none.
  rewrite <- Nat.add_succ_r, drop_append by reflexivity.
  change (PyStr.drop 1 "+00:00") with "00:00"%string.
  change (Datetime.parse_offset (Datetime.is_char "-" (Some "+"%char)) "00:00")
    with (Some 0).
  cbv beta iota zeta. unfold valid_clock in Hv. rewrite Hv. destruct c; reflexivity.
Qed.

Lemma iso_text_utc (c : Datetime.clock) :
  valid_clock c ->
  Datetime.isoformat (at_utc c) = (date_text c ++ "T" ++ time_text c) ++ "+00:00".
Proof.
  intro Hv. rewrite <- (iso_text_parts c Hv).
  unfold naive_text, Datetime.isoformat, at_utc, Datetime.naive.
  cbn [Datetime.fields Datetime.tzinfo].
  change (Datetime.offset_text 0) with "+00:00"%string.
  rewrite !append_empty, !append_assoc. reflexivity.
Qed.

Lemma iso_text_unsigned (c : Datetime.clock) :
  Datetime.find_char "Z" (date_text c ++ "T" ++ time_text c) = None
  /\ Datetime.find_char "+" (date_text c ++ "T" ++ time_text c) = None.
Proof. split; apply find_char_iso_text; reflexivity. Qed.

Lemma summary_reads_naive (c : Datetime.clock) :
  valid_clock c ->
  Analyze.parse_timestamp (JStr (date_text c ++ "T" ++ time_text c))
  = Ret (Some (Datetime.naive c)).
Proof.
  intro Hv. destruct (iso_text_unsigned c) as [Hz _].
  unfold Analyze.parse_timestamp. cbn [Analyze.str_replace obind].
  rewrite (replace_absent _ _ _ _ Hz), (fromisoformat_naive c Hv). reflexivity.
Qed.

Lemma detail_reads_naive (c : Datetime.clock) :
  valid_clock c ->
  Extract.parse_timestamp (JStr (date_text c ++ "T" ++ time_text c))
  = Ret (Some (Datetime.naive c)).
Proof.
  intro Hv. destruct (iso_text_unsigned c) as [Hz Hp].
  unfold Extract.parse_timestamp. cbn [Analyze.str_replace obind].
  rewrite (replace_absent "Z" _ _ _ Hz), (replace_absent "+" _ _ _ Hp),
    (fromisoformat_naive c Hv). reflexivity.
Qed.

Lemma summary_reads_offset (c : Datetime.clock) :
  valid_clock c ->
  Analyze.parse_timestamp (JStr ((date_text c ++ "T" ++ time_text c) ++ "+00:00"))
  = Ret (Some (at_utc c)).
Proof.
  intro Hv. destruct (iso_text_unsigned c) as [Hz _].
  unfold Analyze.parse_timestamp. cbn [Analyze.str_replace obind].
  rewrite replace_absent by (rewrite find_char_append, Hz; reflexivity).
  rewrite (fromisoformat_utc c Hv). reflexivity.
Qed.

Lemma detail_reads_offset (c : Datetime.clock) :
  valid_clock c ->
  Extract.parse_timestamp (JStr ((date_text c ++ "T" ++ time_text c) ++ "+00:00"))
  = Ret (Some (Datetime.naive c)).
Proof.
  intro Hv. destruct (iso_text_unsigned c) as [Hz Hp].
  unfold Extract.parse_timestamp. cbn [Analyze.str_replace obind].
  rewrite (replace_absent "Z" "" "+00:00")
    by (rewrite find_char_append, Hz; reflexivity).
  rewrite (replace_suffix "+" _ _ _ Hp), append_empty, (fromisoformat_naive c Hv).
  reflexivity.
Qed.

(** X21. Both pipelines read the ISO text of a naive instant back as that
    instant.  The ISO text of the same instant at UTC (suffix [+00:00]) is read
    back as the aware instant by the summary scan, and as the naive instant,
    the zone dropped, by the detail scan. *)
Theorem iso_text_round_trip (c : Datetime.clock) :
  valid_clock c ->
  Analyze.parse_timestamp (JStr (Datetime.isoformat (Datetime.naive c)))
  = Ret (Some (Datetime.naive c))
  /\ Extract.parse_timestamp (JStr (Datetime.isoformat (Datetime.naive c)))
     = Ret (Some (Datetime.naive c))
  /\ Analyze.parse_timestamp (JStr (Datetime.isoformat (at_utc c)))
     = Ret (Some (at_utc c))
  /\ Extract.parse_timestamp (JStr (Datetime.isoformat (at_utc c)))
     = Ret (Some (Datetime.naive c)).
Proof.
  intro Hv. rewrite (iso_text_utc c Hv).
  change (Datetime.isoformat (Datetime.naive c)) with (naive_text c).
  rewrite (iso_text_parts c Hv).
  repeat split.
  - apply summary_reads_naive, Hv.
  - apply detail_reads_naive, Hv.
  - apply summary_reads_offset, Hv.
  - apply detail_reads_offset, Hv.
Qed.

Lemma iso_text_round_trip_witness :
  let c := Datetime.mk_clock 2025 1 15 10 30 0 250000 in
  valid_clock c
  /\ Analyze.parse_timestamp (JStr "2025-01-15T10:30:00.250000+00:00")
     = Ret (Some (at_utc c))
  /\ Extract.parse_timestamp (JStr "2025-01-15T10:30:00.250000+00:00")
     = Ret (Some (Datetime.naive c)).
Proof.
  intro c. assert (Hv : valid_clock c) by reflexivity.
  split; [exact Hv|].
  destruct (iso_text_round_trip c Hv) as (_ & _ & Ha & He).
  split; [exact Ha|exact He].
Defined.

(** X22. The text of an instant with the suffix [Z], the form the logs
    carry: the summary scan reads it as the aware instant at UTC, the detail
    scan as the naive instant of the same clock reading. *)
Theorem utc_suffix_reading (c : Datetime.clock) :
  valid_clock c ->
  Analyze.parse_timestamp (JStr (naive_text c ++ "Z")) = Ret (Some (at_utc c))
  /\ Extract.parse_timestamp (JStr (naive_text c ++ "Z"))
     = Ret (Some (Datetime.naive c)).
Proof.
  intro Hv. rewrite (iso_text_parts c Hv).
  destruct (iso_text_unsigned c) as [Hz Hp]. split.
  - unfold Analyze.parse_timestamp. cbn [Analyze.str_replace obind].
    rewrite (replace_suffix _ _ _ _ Hz), (fromisoformat_utc c Hv). reflexivity.
  - unfold Extract.parse_timestamp. cbn [Analyze.str_replace obind].
    rewrite (replace_suffix "Z" _ _ _ Hz), (replace_suffix "+" _ _ _ Hp), append_empty,
      (fromisoformat_naive c Hv).
    reflexivity.
Qed.

Lemma utc_suffix_reading_witness :
  let c := Datetime.mk_clock 2025 1 15 10 30 0 0 in
  valid_clock c
  /\ Analyze.parse_timestamp (JStr "2025-01-15T10:30:00Z") = Ret (Some (at_utc c))
  /\ Extract.parse_timestamp (JStr "2025-01-15T10:30:00Z")
     = Ret (Some (Datetime.naive c)).
Proof.
  intro c. assert (Hv : valid_clock c) by reflexivity.
  split; [exact Hv|]. exact (utc_suffix_reading c Hv).
Defined.

(** ** Files that cannot be stat'ed, and readings that fail part-way *)

Lemma fold_outcome_raises {A B : Type} (f : B -> A -> outcome B) (x : A) :
  (forall b, exists e, f b x = Raise e) ->
  forall xs, In x xs -> forall b, exists e, fold_outcome f xs b = Raise e.
Proof.
  intros Hx xs. induction xs as [|y rest IH]; intros Hin b; [destruct Hin|].
  cbn [fold_outcome]. destruct (f b y) as [b1|e] eqn:E; cbn [obind].
  - destruct Hin as [->|Hin]; [|apply IH, Hin].
    destruct (Hx b) as [e He]. congruence.
  - exists e. reflexivity.
Qed.

Lemma scan_file_stat_fails (now : Datetime.clock) (acc : Analyze.project_acc)
    (f : log_file) :
  file_mtime f = None -> Analyze.scan_file now acc f = Raise OSError.
Proof.
  intro H. unfold Analyze.scan_file, Analyze.get_file_age_days, Analyze.getmtime.
  rewrite H. reflexivity.
Qed.

(** X24. [get_file_age_days] is called outside every handler: when a
    directory that is scanned lists a log file whose modification time
    cannot be read, the summary scan raises and gives no projects at all,
    and so does the summary as a whole. *)
Theorem unreadable_mtime_aborts_summary (tree : list dir_entry)
    (now : Datetime.clock) (d : dir_entry) (f : log_file) :
  In d tree -> entry_is_dir d = true ->
  PyStr.startswith (entry_name d) "." = false ->
  In f (entry_files d) -> PyPath.matches_jsonl (file_name f) = true ->
  file_mtime f = None ->
  (exists e, Analyze.scan_all_projects tree now = Raise e)
  /\ (exists e, Analyze.summary tree now = Raise e).
Proof.
  intros Hd Hdir Hdot Hf Hname Hstat.
  assert (H : exists e, Analyze.scan_all_projects tree now = Raise e).
  { unfold Analyze.scan_all_projects, Analyze.collect_projects.
    destruct (fold_outcome_raises (Analyze.scan_project now) d) with (xs := tree)
                                                                     (b := @nil Analyze.project)
      as [e He]; [|exact Hd|rewrite He; exists e; reflexivity].
    intro ps. unfold Analyze.scan_project. rewrite Hdir, Hdot. cbn [negb andb].
    destruct (fold_outcome_raises (Analyze.scan_file now) f) with
      (xs := Analyze.all_files d) (b := Analyze.empty_acc) as [e He].
    - intro acc. exists OSError. apply scan_file_stat_fails, Hstat.
    - unfold Analyze.all_files. apply in_or_app. left.
      apply filter_In. split; assumption.
    - rewrite He. exists e. reflexivity. }
  split; [exact H|]. destruct H as [e He]. exists e.
  unfold Analyze.summary. rewrite He. reflexivity.
Qed.

Lemma unreadable_mtime_witness :
  let dangling := mk_log_file "gone.jsonl" None None None in
  let tree := [mk_dir_entry "p" true [SampleTree.demo_file 7; dangling]] in
  (exists e, Analyze.scan_all_projects tree Sample.now = Raise e)
  /\ (exists e, Analyze.summary tree Sample.now = Raise e).
Proof.
  intros dangling tree.
  apply (unreadable_mtime_aborts_summary tree Sample.now
           (mk_dir_entry "p" true [SampleTree.demo_file 7; dangling]) dangling);
    try reflexivity.
  - left. reflexivity.
  - right. left. reflexivity.
Defined.

(** X25. When the reading of a file fails after some lines (bytes that are
    not UTF-8, an input error), the exception is caught by the handler of
    the file in both pipelines: the scan of the file is what the lines read
    before the failure give, as if the file had ended there, and the
    detail scan of a file never raises. *)
Theorem read_failure_keeps_lines_read (n : string)
    (mtime : option Datetime.clock) (ls : list line) (e : exn)
    (project : string) (s : list Extract.flat_entry) :
  Analyze.analyze_jsonl_file (mk_log_file n mtime (Some ls) (Some e))
  = Analyze.analyze_jsonl_file (mk_log_file n mtime (Some ls) None)
  /\ Extract.scan_file project (mk_log_file n mtime (Some ls) (Some e)) s
     = Extract.scan_file project (mk_log_file n mtime (Some ls) None) s
  /\ fst (Extract.scan_file project (mk_log_file n mtime (Some ls) (Some e)) s)
     = Ret tt.
Proof.
  rewrite !analyze_jsonl_file_lines, !detail_scan_file_lines.
  split; [reflexivity|]. split; [reflexivity|].
  unfold try_except_all, sbind, lift, sret.
  cbn [Analyze.open_lines file_lines].
  destruct (for_each (Extract.scan_line project) ls s) as [[[]|err] s'];
    reflexivity.
Qed.
